(** * Strategy Lab: dashboard handlers, components, and the core engine

  A shallow embedding of the Strategy Lab repository.

  - [JS]: the fragment of the JavaScript runtime the TypeScript sources
    rely on: binary64 numbers with [Math.floor], [Math.round] and
    [toFixed], truthiness, exceptions as completions, and strings with
    [toLowerCase], [includes] and [padStart].
  - [Http]: the [fetch] boundary between the Next.js route handlers and
    the backend.
  - [Runtime]: the effects of a handler: [Math.random] as a stream that
    is consumed, the clock, the requests sent, the console, exceptions.
  - [StrategiesRoute], [BacktestRoute], [MonitorRoute]: the route handlers
    of [frontend/app/api].
  - [BacktestPanel], [OptimizationPanel], [StrategyLibrary]: the state and
    the pure functions of the React components.
  - [Schema]: the status constraint of the [backtest_runs] table.
  - [Core]: the order book engine, the multi-source merger and the
    backtest event loop.

  The definitions come first; the properties follow. *)

From Stdlib Require Import ZArith Floats Uint63 String Ascii Bool Lia.
From Stdlib Require Import DecimalString Sorted Permutation.
From stdpp Require Import base list strings.

Set Warnings "-inexact-float,-register-all".

Local Open Scope Z_scope.

(* ===================================================================== *)
(** * The JavaScript runtime fragment                                      *)
(* ===================================================================== *)

Module JS.

(** JavaScript numbers are IEEE-754 binary64 values. *)
Definition number := float.

(** An integer as a number: exact below 2^53 in magnitude. *)
Definition of_Z (z : Z) : number :=
  if z <? 0 then PrimFloat.opp (PrimFloat.of_uint63 (Uint63.of_Z (- z)))
  else PrimFloat.of_uint63 (Uint63.of_Z z).

(** [Math.floor]: NaN, infinities, zeros and integral values are returned
    unchanged; otherwise the mantissa is cut at the binary point. *)
Definition Math_floor (x : number) : number :=
  match Prim2SF x with
  | S754_finite s m e =>
      if 0 <=? e then x
      else
        let d := 2 ^ (- e) in
        let q := Z.pos m / d in
        if Z.pos m mod d =? 0 then x
        else if s then of_Z (- (q + 1)) else of_Z q
  | _ => x
  end.

(** [Math.round]: nearest integer, ties toward +infinity; a negative
    argument that rounds to zero yields -0. *)
Definition Math_round (x : number) : number :=
  match Prim2SF x with
  | S754_finite s m e =>
      if 0 <=? e then x
      else
        let d := 2 ^ (- e) in
        let q := Z.pos m / d in
        let r := Z.pos m mod d in
        if r =? 0 then x
        else if s then
          let n := if d <? 2 * r then q + 1 else q in
          if n =? 0 then PrimFloat.neg_zero else of_Z (- n)
        else of_Z (if d <=? 2 * r then q + 1 else q)
  | _ => x
  end.

(** Truthiness of a number: [0], [-0] and [NaN] are falsy. *)
Definition truthy_number (x : number) : bool :=
  negb (PrimFloat.is_nan x || PrimFloat.is_zero x).

(** [a || b] where [a] is a possibly missing number. *)
Definition or_number (a : option number) (b : number) : number :=
  match a with
  | Some x => if truthy_number x then x else b
  | None => b
  end.

(** [a || b] where [a] is a possibly missing string: [""] is falsy. *)
Definition or_string (a : option string) (b : string) : string :=
  match a with
  | Some EmptyString | None => b
  | Some s => s
  end.

(** [x > y] on numbers (false when either is NaN). *)
Definition gt (x y : number) : bool := PrimFloat.ltb y x.

(** ** Strings *)

(** A string is held as the bytes of its UTF-8 form: a character of ASCII
    is one byte, below 128, and every other character is a run of bytes
    from 128 on.  One well-formed string occurs in another exactly when
    its bytes do. *)
Definition is_ascii (c : ascii) : bool := (nat_of_ascii c <? 128)%nat.

(** A string of ASCII characters. *)
Fixpoint ascii_only (s : string) : bool :=
  match s with
  | EmptyString => true
  | String c r => is_ascii c && ascii_only r
  end.

(** [String(n)] for an integer [n]. *)
Definition String_of_int (n : Z) : string :=
  NilZero.string_of_int (Z.to_int n).

(** [s.padStart(n, c)] for a one-character filler. *)
Definition padStart (n : nat) (c : ascii) (s : string) : string :=
  (String.concat "" (repeat (String c "") (n - String.length s)) ++ s)%string.

(** [toLowerCase] on one character of ASCII: the letters A to Z become a
    to z, every other byte is left as it is. *)
Definition lower_ascii (c : ascii) : ascii :=
  let n := nat_of_ascii c in
  if ((65 <=? n) && (n <=? 90))%nat then ascii_of_nat (n + 32) else c.

(** [s.toLowerCase()] for a string [s] of ASCII characters.  On other
    strings the built-in also lowers the letters outside ASCII (the Kelvin
    sign becomes k), some of them with a look at their neighbours (the
    final sigma); where a component lowers text of any kind, it is
    modelled for every lowering function that agrees with this one on the
    strings of ASCII characters. *)
Fixpoint toLowerCase (s : string) : string :=
  match s with
  | EmptyString => EmptyString
  | String c r => String (lower_ascii c) (toLowerCase r)
  end.

(** [s.startsWith(p)]. *)
Fixpoint startsWith (p s : string) : bool :=
  match p, s with
  | EmptyString, _ => true
  | String a p', String b s' => if Ascii.eqb a b then startsWith p' s' else false
  | String _ _, EmptyString => false
  end.

(** [s.includes(p)]: the first position at which [p] starts, if any. *)
Fixpoint includes (s p : string) : bool :=
  if startsWith p s then true
  else match s with
       | EmptyString => false
       | String _ s' => includes s' p
       end.

(** The decimal digits of [n >= 0], at least [width] of them. *)
Definition digits (width : nat) (n : Z) : string :=
  padStart width "0" (String_of_int n).

(** [n / 10^f] written with [f] digits after the point. *)
Definition fixed_digits (f : nat) (n : Z) : string :=
  let d := digits (S f) n in
  let k := (String.length d - f)%nat in
  match f with
  | O => d
  | _ => (substring 0 k d ++ "." ++ substring k f d)%string
  end.

(** [x.toFixed(f)] for [|x| < 10^21]: the integer [n] with [n / 10^f]
    nearest to [|x|], the larger one on a tie.  (From [10^21] on
    ECMAScript prints the number as [String(x)] does; the handlers apply
    [toFixed] to [0.5 + r * 0.5] for a draw [r].) *)
Definition toFixed (f : nat) (x : number) : string :=
  match Prim2SF x with
  | S754_nan => "NaN"
  | S754_infinity s => if s then "-Infinity" else "Infinity"
  | S754_zero _ => fixed_digits f 0
  | S754_finite s m e =>
      let scale := 10 ^ Z.of_nat f in
      let n := if 0 <=? e then Z.pos m * 2 ^ e * scale
               else (2 * Z.pos m * scale + 2 ^ (- e)) / (2 * 2 ^ (- e)) in
      ((if s then "-" else "") ++ fixed_digits f n)%string
  end.

(** ** Exceptions *)

Inductive Exn :=
| TypeError (msg : string)
| SyntaxError (msg : string)
| Error (msg : string).

(** The outcome of evaluating a block: it returns or it throws. *)
Inductive Completion (A : Type) :=
| Return (a : A)
| Throw (e : Exn).
Arguments Return {A} a.
Arguments Throw {A} e.

End JS.

(* ===================================================================== *)
(** * The fetch boundary                                                   *)
(* ===================================================================== *)

Module Http.

(** A JSON value, as [JSON.parse] yields it and as [JSON.stringify] is
    given it; an object is the list of its properties, each name once. *)
Inductive Json :=
| JNull
| JBool (b : bool)
| JNum (x : JS.number)
| JStr (s : string)
| JArr (items : list Json)
| JObj (fields : list (string * Json)).

(** A property of an object literal whose value may be [undefined]:
    [JSON.stringify] leaves such a property out. *)
Definition property (name : string) (v : option Json) : list (string * Json) :=
  match v with
  | Some j => [(name, j)]
  | None => []
  end.

(** An outgoing [fetch(url, { method, body })]; every handler sends the
    header [Content-Type: application/json].  The [payload] is the value
    handed to [JSON.stringify]; what the backend reads is [stringified] of
    it. *)
Record Request := {
  url : string;
  method : string;
  payload : option Json
}.

(** What [await response.json()] yields, as the handler sees it through
    the properties it reads ([A]): the text is no JSON, or it is the JSON
    value [null], or it is any other value.  A value that is no object (a
    string, a number, a boolean, an array) has none of the properties a
    handler reads, and reading them yields [undefined]: the handler sees
    it as it sees an object without these properties. *)
Inductive Parsed (A : Type) :=
| Malformed
| Null
| Value (a : A).
Arguments Malformed {A}.
Arguments Null {A}.
Arguments Value {A} a.

(** What [await fetch(...)] yields: a rejected promise or a response. *)
Inductive FetchResult (A : Type) :=
| NetworkError
| Responded (status : Z) (body : Parsed A).
Arguments NetworkError {A}.
Arguments Responded {A} status body.

(** [response.ok]: the status is in the range 200-299. *)
Definition ok (status : Z) : bool := (200 <=? status) && (status <=? 299).

(** The backend, as the handlers see it. *)
Definition Backend (A : Type) := Request -> FetchResult A.

(** [process.env.BACKEND_URL || 'http://localhost:8001']. *)
Definition BACKEND_URL (env : option string) : string :=
  JS.or_string env "http://localhost:8001".

(** A [NextResponse.json(body, { status })]; the status defaults to 200. *)
Record Response (B : Type) := {
  status : Z;
  body : B
}.
Arguments status {B} r.
Arguments body {B} r.

Definition json {B} (b : B) : Response B := {| status := 200; body := b |}.
Definition json_status {B} (b : B) (st : Z) : Response B := {| status := st; body := b |}.

(** Truthiness of a JSON value: [null], [false], [0], [NaN] and the
    empty string are falsy; objects and arrays are truthy. *)
Definition truthy (j : Json) : bool :=
  match j with
  | JNull => false
  | JBool b => b
  | JNum x => JS.truthy_number x
  | JStr s => negb (String.eqb s "")
  | JArr _ | JObj _ => true
  end.

(** [a || b] where [a] is a JSON value or [undefined]. *)
Definition or_json (a : option Json) (b : Json) : Json :=
  match a with
  | Some j => if truthy j then j else b
  | None => b
  end.

(** The value of a property of a stringified object, [undefined] when the
    object has no such property. *)
Fixpoint assoc (name : string) (fields : list (string * Json)) : option Json :=
  match fields with
  | [] => None
  | (k, v) :: rest => if String.eqb k name then Some v else assoc name rest
  end.

Definition field (name : string) (j : Json) : option Json :=
  match j with
  | JObj fields => assoc name fields
  | _ => None
  end.

(** What [JSON.stringify] writes for a number: a number that is not
    finite (NaN, Infinity, -Infinity) is written [null], and a negative
    zero is written [0]. *)
Definition stringified_number (x : JS.number) : Json :=
  if PrimFloat.is_finite x
  then if PrimFloat.is_zero x then JNum 0%float else JNum x
  else JNull.

(** A value as the receiver reads it after [JSON.stringify]: the numbers
    are written as [stringified_number] says, inside arrays and objects
    too; everything else arrives as it is. *)
Fixpoint stringified (j : Json) : Json :=
  match j with
  | JNum x => stringified_number x
  | JArr items => JArr (map stringified items)
  | JObj fields => JObj (map (fun kv => (fst kv, stringified (snd kv))) fields)
  | JNull | JBool _ | JStr _ => j
  end.

(** A parsed body seen through the properties a handler reads: [view]
    reads them off the value. *)
Definition read {A} (view : Json -> A) (body : Parsed Json) : Parsed A :=
  match body with
  | Malformed => Malformed
  | Null | Value JNull => Null
  | Value j => Value (view j)
  end.

(** A backend seen through the properties a handler reads of its
    answers. *)
Definition reading {A} (view : Json -> A) (backend : Backend Json) : Backend A :=
  fun req =>
    match backend req with
    | NetworkError => NetworkError
    | Responded st body => Responded st (read view body)
    end.

End Http.

(* ===================================================================== *)
(** * Handler effects                                                      *)
(* ===================================================================== *)

Module Runtime.
Import JS Http.

(** The state a handler runs against.  [Math.random] reads the engine's
    generator, which nothing in the sources seeds: the generator is the
    stream [draws], and [cursor] is how far it has been consumed.  [now] is
    what [new Date().toISOString()] reads.  [sent] lists the requests
    issued to the backend, latest first, and [console] the lines written
    by [console.error]. *)
Record World := {
  draws : nat -> Z;
  cursor : nat;
  now : string;
  sent : list Request;
  console : list string
}.

(** A computation reads and updates the world, and returns or throws. *)
Definition Eff (A : Type) := World -> Completion A * World.

Definition ret {A} (a : A) : Eff A := fun w => (Return a, w).

Definition throw {A} (e : Exn) : Eff A := fun w => (Throw e, w).

Definition bind {A B} (m : Eff A) (k : A -> Eff B) : Eff B :=
  fun w =>
    match m w with
    | (Return a, w') => k a w'
    | (Throw e, w') => (Throw e, w')
    end.

(** [try { body } catch (error) { handler(error) }]. *)
Definition try_catch {A} (body : Eff A) (handler : Exn -> Eff A) : Eff A :=
  fun w =>
    match body w with
    | (Return a, w') => (Return a, w')
    | (Throw e, w') => handler e w'
    end.

(** A draw is a multiple of 2^-53 in the interval from 0 to 1, 1 excluded. *)
Definition sample (k : Z) : number :=
  PrimFloat.div (of_Z (k mod 2 ^ 53)) (of_Z (2 ^ 53)).

Definition Math_random : Eff number :=
  fun w => (Return (sample (draws w (cursor w))),
            {| draws := draws w; cursor := S (cursor w); now := now w;
               sent := sent w; console := console w |}).

Definition Date_now_ISO : Eff string := fun w => (Return (now w), w).

Definition console_error (line : string) : Eff unit :=
  fun w => (Return tt,
            {| draws := draws w; cursor := cursor w; now := now w;
               sent := sent w; console := line :: console w |}).

(** [await fetch(...)]: the request is issued; a network failure rejects. *)
Definition fetch {A} (backend : Backend A) (req : Request) : Eff (Z * Parsed A) :=
  fun w =>
    let w' := {| draws := draws w; cursor := cursor w; now := now w;
                 sent := req :: sent w; console := console w |} in
    match backend req with
    | NetworkError => (Throw (TypeError "fetch failed"), w')
    | Responded st b => (Return (st, b), w')
    end.

(** [await response.json()] followed by the first property access on the
    result: malformed text rejects, and reading a property of [null]
    throws. *)
Definition json_object {A} (b : Parsed A) : Eff A :=
  match b with
  | Malformed => throw (SyntaxError "Unexpected token in JSON")
  | Null => throw (TypeError "Cannot read properties of null")
  | Value a => ret a
  end.

(** Reading a property of a value that may be [undefined]. *)
Definition defined {A} (what : string) (o : option A) : Eff A :=
  match o with
  | Some a => ret a
  | None => throw (TypeError ("Cannot read properties of undefined: " ++ what))
  end.

(** [Array.from({ length: n }, (_, i) => f(i))]: the callback runs for
    [i = start, start + 1, ...] in order. *)
Fixpoint array_from {A} (n : nat) (start : Z) (f : Z -> Eff A) : Eff (list A) :=
  match n with
  | O => ret []
  | S n' => bind (f start) (fun a =>
            bind (array_from n' (start + 1) f) (fun r => ret (a :: r)))
  end.

Module Notations.
Notation "'let*' x ':=' m 'in' k" := (bind m (fun x => k))
  (at level 10, x name, m at level 100, k at level 200).
End Notations.

End Runtime.

(* ===================================================================== *)
(** * frontend/app/api/strategies/route.ts                                 *)
(* ===================================================================== *)

Module StrategiesRoute.
Import JS Http Runtime Runtime.Notations.

Inductive Body :=
| ErrorBody (error : string)
| SuccessBody (success : bool).

(** [request.nextUrl.searchParams.get(name)]: the first value given for
    the name, or [null]. *)
Fixpoint searchParams_get (name : string) (query : list (string * string))
  : option string :=
  match query with
  | [] => None
  | (k, v) :: rest => if String.eqb k name then Some v else searchParams_get name rest
  end.

(** [export async function DELETE(request)]. *)
Definition DELETE (env : option string) (backend : Backend unit)
  (searchParams : list (string * string)) : Eff (Response Body) :=
  try_catch
    (match searchParams_get "id" searchParams with
     | None | Some EmptyString =>
         ret (json_status (ErrorBody "Strategy ID required") 400)
     | Some id =>
         let* response :=
           fetch backend {| url := BACKEND_URL env ++ "/api/strategies/" ++ id;
                            method := "DELETE";
                            payload := None |} in
         if negb (ok (fst response)) && negb (fst response =? 204)
         then throw (Error ("Backend returned " ++ String_of_int (fst response)))
         else ret (json (SuccessBody true))
     end)
    (fun error =>
       let* _ := console_error "Failed to delete strategy:" in
       ret (json_status (ErrorBody "Failed to delete strategy") 500)).

(** A strategy object as the backend sends it: every property is a JSON
    value, or missing. *)
Module Wire.
Record t := {
  id : option Json;
  name : option Json;
  description : option Json;
  strategy_type : option Json;
  status : option Json;
  sharpe : option Json;
  win_rate : option Json;
  total_trades : option Json;
  last_modified : option Json;
  parameters : option Json
}.

(** Reading the properties off a value. *)
Definition of_json (j : Json) : t :=
  {| id := field "id" j;
     name := field "name" j;
     description := field "description" j;
     strategy_type := field "strategy_type" j;
     status := field "status" j;
     sharpe := field "sharpe" j;
     win_rate := field "win_rate" j;
     total_trades := field "total_trades" j;
     last_modified := field "last_modified" j;
     parameters := field "parameters" j |}.
End Wire.

(** A strategy object as the frontend expects it. *)
Module Strategy.
Record t := {
  id : option Json;
  name : option Json;
  description : option Json;
  type : option Json;
  status : option Json;
  sharpe : option Json;
  winRate : option Json;
  totalTrades : option Json;
  lastModified : option Json;
  parameters : option Json
}.
End Strategy.

(** What the GET, POST and PUT handlers answer with. *)
Inductive Reply :=
| Failure (error : string)
| One (strategy : Strategy.t)
| Many (strategies : list Strategy.t).

(** The object literal that renames the backend's properties. *)
Definition transform (strategy : Wire.t) : Strategy.t :=
  {| Strategy.id := Wire.id strategy;
     Strategy.name := Wire.name strategy;
     Strategy.description := Wire.description strategy;
     Strategy.type := Wire.strategy_type strategy;
     Strategy.status := Wire.status strategy;
     Strategy.sharpe := Wire.sharpe strategy;
     Strategy.winRate := Wire.win_rate strategy;
     Strategy.totalTrades := Wire.total_trades strategy;
     Strategy.lastModified := Wire.last_modified strategy;
     Strategy.parameters := Wire.parameters strategy |}.

(** What the backend's list parses to: an array, whose elements are
    objects or [null], or some other JSON value. *)
Inductive Listing :=
| NotAnArray
| Items (items : list (option Wire.t)).

(** [data.map((strategy: any) => ({ id: strategy.id, ... }))]: reading a
    property of a [null] element throws. *)
Fixpoint map_items (items : list (option Wire.t)) : Eff (list Strategy.t) :=
  match items with
  | [] => ret []
  | Some strategy :: rest =>
      let* transformed := map_items rest in
      ret (transform strategy :: transformed)
  | None :: _ => throw (TypeError "Cannot read properties of null")
  end.

(** [export async function GET(request)]. *)
Definition GET (env : option string) (backend : Backend Listing) : Eff (Response Reply) :=
  try_catch
    (let* response :=
       fetch backend {| url := BACKEND_URL env ++ "/api/strategies";
                        method := "GET";
                        payload := None |} in
     if negb (ok (fst response))
     then throw (Error ("Backend returned " ++ String_of_int (fst response)))
     else
       let* data := json_object (snd response) in
       match data with
       | NotAnArray => throw (TypeError "data.map is not a function")
       | Items items =>
           let* transformedData := map_items items in
           ret (json (Many transformedData))
       end)
    (fun error =>
       let* _ := console_error "Failed to fetch strategies:" in
       ret (json_status (Failure "Failed to fetch strategies") 500)).

(** The body of a POST request, as the handler reads it. *)
Module Draft.
Record t := {
  name : option Json;
  description : option Json;
  type : option Json;
  status : option Json;
  parameters : option Json
}.

(** Reading the properties off a value. *)
Definition of_json (j : Json) : t :=
  {| name := field "name" j;
     description := field "description" j;
     type := field "type" j;
     status := field "status" j;
     parameters := field "parameters" j |}.
End Draft.

(** The [backendBody] of POST, the object handed to [JSON.stringify]:
    [status] and [parameters] have defaults. *)
Definition draft_body (body : Draft.t) : Json :=
  JObj (property "name" (Draft.name body)
        ++ property "description" (Draft.description body)
        ++ property "strategy_type" (Draft.type body)
        ++ [ ("status"%string, or_json (Draft.status body) (JStr "draft"));
             ("parameters"%string, or_json (Draft.parameters body) (JObj [])) ]).

(** [export async function POST(request)]. *)
Definition POST (env : option string) (backend : Backend Wire.t)
  (request : Parsed Draft.t) : Eff (Response Reply) :=
  try_catch
    (let* body := json_object request in
     let* response :=
       fetch backend {| url := BACKEND_URL env ++ "/api/strategies";
                        method := "POST";
                        payload := Some (draft_body body) |} in
     if negb (ok (fst response))
     then throw (Error ("Backend returned " ++ String_of_int (fst response)))
     else
       let* data := json_object (snd response) in
       ret (json (One (transform data))))
    (fun error =>
       let* _ := console_error "Failed to create strategy:" in
       ret (json_status (Failure "Failed to create strategy") 500)).

(** The body of a PUT request, as the handler reads it; [id] is the
    identifier the backend gave the strategy, a string. *)
Module Edit.
Record t := {
  id : option string;
  name : option Json;
  description : option Json;
  type : option Json;
  status : option Json;
  sharpe : option Json;
  winRate : option Json;
  totalTrades : option Json;
  parameters : option Json
}.
End Edit.

(** The [backendBody] of PUT, the object handed to [JSON.stringify]: no
    defaults. *)
Definition edit_body (body : Edit.t) : Json :=
  JObj (property "name" (Edit.name body)
        ++ property "description" (Edit.description body)
        ++ property "strategy_type" (Edit.type body)
        ++ property "status" (Edit.status body)
        ++ property "sharpe" (Edit.sharpe body)
        ++ property "win_rate" (Edit.winRate body)
        ++ property "total_trades" (Edit.totalTrades body)
        ++ property "parameters" (Edit.parameters body)).

(** A string or [undefined] inside a template literal. *)
Definition interpolate (s : option string) : string :=
  match s with
  | Some v => v
  | None => "undefined"
  end.

(** [export async function PUT(request)]. *)
Definition PUT (env : option string) (backend : Backend Wire.t)
  (request : Parsed Edit.t) : Eff (Response Reply) :=
  try_catch
    (let* body := json_object request in
     let* response :=
       fetch backend {| url := BACKEND_URL env ++ "/api/strategies/"
                               ++ interpolate (Edit.id body);
                        method := "PUT";
                        payload := Some (edit_body body) |} in
     if negb (ok (fst response))
     then throw (Error ("Backend returned " ++ String_of_int (fst response)))
     else
       let* data := json_object (snd response) in
       ret (json (One (transform data))))
    (fun error =>
       let* _ := console_error "Failed to update strategy:" in
       ret (json_status (Failure "Failed to update strategy") 500)).

End StrategiesRoute.

(* ===================================================================== *)
(** * route.ts, second handler file: the backtest route                     *)
(* ===================================================================== *)

Module BacktestRoute.
Import JS Http Runtime Runtime.Notations.

(** The request body, as the handler reads it: the properties are typed
    as [BacktestConfig] types them, and each may be missing. *)
Module Req.
Record t := {
  strategy : option string;
  initialCapital : option number;
  startDate : option string;
  endDate : option string
}.

(** Reading the properties off a body whose properties, where it has
    them, hold what [BacktestConfig] says. *)
Definition of_json (j : Json) : t :=
  {| strategy := match field "strategy" j with Some (JStr s) => Some s | _ => None end;
     initialCapital :=
       match field "initialCapital" j with Some (JNum x) => Some x | _ => None end;
     startDate := match field "startDate" j with Some (JStr s) => Some s | _ => None end;
     endDate := match field "endDate" j with Some (JStr s) => Some s | _ => None end |}.
End Req.

(** The backend's answer, as the handler reads it: strings and numbers
    where the [backtests] and [equity_points] tables hold them.  [metrics]
    is [None] when the property is missing or [null]; [equity_curve] is
    [None] when the property is no array, and an element of the array is
    [None] when it is [null]. *)
Module Data.
Record Metrics := {
  total_return : number;
  total_return_amount : number;
  sharpe_ratio : number;
  max_drawdown : number;
  win_rate : number;
  total_trades : number
}.
Record Point := {
  day : number;
  value : number
}.
Record t := {
  id : string;
  status : string;
  strategy : string;
  metrics : option Metrics;
  equity_curve : option (list (option Point))
}.

(** Reading an answer that has the properties the tables give it. *)
Definition number_of (v : option Json) : number :=
  match v with
  | Some (JNum x) => x
  | _ => nan
  end.

Definition string_of (v : option Json) : string :=
  match v with
  | Some (JStr s) => s
  | _ => ""
  end.

Definition metrics_of_json (m : Json) : Metrics :=
  {| total_return := number_of (field "total_return" m);
     total_return_amount := number_of (field "total_return_amount" m);
     sharpe_ratio := number_of (field "sharpe_ratio" m);
     max_drawdown := number_of (field "max_drawdown" m);
     win_rate := number_of (field "win_rate" m);
     total_trades := number_of (field "total_trades" m) |}.

Definition point_of_json (item : Json) : option Point :=
  match item with
  | JNull => None
  | _ => Some {| day := number_of (field "day" item);
                 value := number_of (field "value" item) |}
  end.

Definition of_json (j : Json) : t :=
  {| id := string_of (field "id" j);
     status := string_of (field "status" j);
     strategy := string_of (field "strategy" j);
     metrics := match field "metrics" j with
                | None | Some JNull => None
                | Some m => Some (metrics_of_json m)
                end;
     equity_curve := match field "equity_curve" j with
                     | Some (JArr items) => Some (map point_of_json items)
                     | _ => None
                     end |}.
End Data.

Record Metrics := {
  totalReturn : number;
  totalReturnAmount : number;
  sharpeRatio : number;
  maxDrawdown : number;
  maxDrawdownAmount : number;
  winRate : number;
  totalTrades : number;
  winningTrades : number;
  losingTrades : number;
  avgWin : number;
  avgLoss : number;
  bestTrade : number;
  worstTrade : number;
  avgTradeDuration : number;
  commissionPaid : number;
  slippageCost : number;
  profitFactor : number;
  sortinoRatio : number;
  calmarRatio : number
}.

Record EquityPoint := {
  day : number;
  value : number
}.

Module Trade.
Record t := {
  id : number;
  entryTime : string;
  exitTime : string;
  side : string;
  entryPrice : number;
  exitPrice : number;
  quantity : number;
  pnl : number;
  return_ : number
}.
End Trade.

Record Result := {
  id : string;
  status : string;
  strategy : string;
  startDate : string;
  endDate : string;
  initialCapital : number;
  metrics : Metrics;
  equityCurve : list EquityPoint;
  trades : list Trade.t
}.

Inductive Body :=
| ErrorBody (error : string)
| ResultBody (r : Result).

(** [String(n).padStart(2, '0')]. *)
Definition two_digits (n : Z) : string := padStart 2 "0" (String_of_int n).

(** The callback of [Array.from({ length: 10 }, (_, i) => ...)]: one mock
    trade; the properties are evaluated in the order they are written. *)
Definition mock_trade (i : Z) : Eff Trade.t :=
  let id := of_Z (i + 1) in
  let entryTime := ("2024-01-" ++ two_digits (i + 1) ++ " 09:" ++ two_digits (30 + i) ++ ":00")%string in
  let exitTime := ("2024-01-" ++ two_digits (i + 1) ++ " 10:" ++ two_digits (15 + i) ++ ":00")%string in
  let* r1 := Math_random in
  let* r2 := Math_random in
  let* r3 := Math_random in
  let* r4 := Math_random in
  let* r5 := Math_random in
  let* r6 := Math_random in
  ret {| Trade.id := id;
         Trade.entryTime := entryTime;
         Trade.exitTime := exitTime;
         Trade.side := if gt r1 0.5%float then "long" else "short";
         Trade.entryPrice := (17000 + r2 * 100)%float;
         Trade.exitPrice := (17000 + r3 * 100)%float;
         Trade.quantity := (Math_floor (r4 * 5) + 1)%float;
         Trade.pnl := ((r5 - 0.38) * 500)%float;
         Trade.return_ := ((r6 - 0.38) * 0.02)%float |}.

(** The object handed to [JSON.stringify] for the body of the request to
    the backend: [{ strategy, initial_capital, start_date, end_date }]. *)
Definition backend_body (body : Req.t) : Json :=
  JObj (property "strategy" (JStr <$> Req.strategy body)
        ++ property "initial_capital" (JNum <$> Req.initialCapital body)
        ++ property "start_date" (JStr <$> Req.startDate body)
        ++ property "end_date" (JStr <$> Req.endDate body)).

(** [data.equity_curve.map((point: any) => ({ day: point.day, value:
    point.value }))]: reading a property of a [null] element throws. *)
Fixpoint map_points (points : list (option Data.Point)) : Eff (list EquityPoint) :=
  match points with
  | [] => ret []
  | Some point :: rest =>
      let* mapped := map_points rest in
      ret ({| day := Data.day point; value := Data.value point |} :: mapped)
  | None :: _ => throw (TypeError "Cannot read properties of null")
  end.

(** [export async function POST(request)]. *)
Definition POST (env : option string) (backend : Backend Data.t)
  (request : Parsed Req.t) : Eff (Response Body) :=
  try_catch
    (let* body := json_object request in
     let* response :=
       fetch backend {| url := BACKEND_URL env ++ "/api/backtest";
                        method := "POST";
                        payload := Some (backend_body body) |} in
     if negb (ok (fst response))
     then throw (Error ("Backend returned " ++ String_of_int (fst response)))
     else
       let* data := json_object (snd response) in
       let* m := defined "total_return" (Data.metrics data) in
       let metrics :=
         {| totalReturn := Data.total_return m;
            totalReturnAmount := Data.total_return_amount m;
            sharpeRatio := Data.sharpe_ratio m;
            maxDrawdown := Data.max_drawdown m;
            maxDrawdownAmount :=
              (Data.max_drawdown m * or_number (Req.initialCapital body) 100000)%float;
            winRate := Data.win_rate m;
            totalTrades := Data.total_trades m;
            winningTrades := Math_round (Data.total_trades m * Data.win_rate m)%float;
            losingTrades := Math_round (Data.total_trades m * (1 - Data.win_rate m))%float;
            avgWin := 125.40%float;
            avgLoss := (-74.60)%float;
            bestTrade := 890.50%float;
            worstTrade := (-420.30)%float;
            avgTradeDuration := 23%float;
            commissionPaid := 1250%float;
            slippageCost := 780%float;
            profitFactor := 2.1%float;
            sortinoRatio := 2.45%float;
            calmarRatio := 2.95%float |} in
       let* curve := defined "map" (Data.equity_curve data) in
       let* equityCurve := map_points curve in
       let* trades := array_from 10 0 mock_trade in
       ret (json (ResultBody
         {| id := Data.id data;
            status := Data.status data;
            strategy := Data.strategy data;
            startDate := or_string (Req.startDate body) "2024-01-01";
            endDate := or_string (Req.endDate body) "2024-01-31";
            initialCapital := or_number (Req.initialCapital body) 100000%float;
            metrics := metrics;
            equityCurve := equityCurve;
            trades := trades |})))
    (fun error =>
       let* _ := console_error "Failed to run backtest:" in
       ret (json_status (ErrorBody "Failed to run backtest") 500)).

(** What the status handler answers with. *)
Inductive StatusBody :=
| StatusError (error : string)
| StatusInfo (id : string) (status : string) (progress : Z) (message : string).

(** [export async function GET(request)]: the status of one backtest. *)
Definition GET (env : option string) (backend : Backend Data.t)
  (searchParams : list (string * string)) : Eff (Response StatusBody) :=
  try_catch
    (match StrategiesRoute.searchParams_get "id" searchParams with
     | None | Some EmptyString =>
         ret (json_status (StatusError "Backtest ID required") 400)
     | Some id =>
         let* response :=
           fetch backend {| url := BACKEND_URL env ++ "/api/backtest/" ++ id;
                            method := "GET";
                            payload := None |} in
         if negb (ok (fst response))
         then
           if fst response =? 404
           then ret (json_status (StatusError "Backtest not found") 404)
           else throw (Error ("Backend returned " ++ String_of_int (fst response)))
         else
           let* data := json_object (snd response) in
           ret (json (StatusInfo
                        (Data.id data)
                        (Data.status data)
                        (if String.eqb (Data.status data) "completed" then 100 else 50)
                        (if String.eqb (Data.status data) "completed"
                         then "Backtest completed successfully"
                         else "Backtest in progress")))
     end)
    (fun error =>
       let* _ := console_error "Failed to get backtest status:" in
       ret (json_status (StatusError "Failed to get backtest status") 500)).

End BacktestRoute.

(* ===================================================================== *)
(** * route.ts, third handler file: the monitor route                       *)
(* ===================================================================== *)

Module MonitorRoute.
Import JS Http Runtime Runtime.Notations.

(** The backend's answer, as the handler reads it: the columns of the
    [system_metrics] table, which are not null. *)
Module Data.
Record t := {
  timestamp : string;
  cpu_usage : number;
  memory_used : number;
  memory_total : number;
  disk_io : number;
  threads_active : number
}.
End Data.

Module Cpu.
Record t := { usage : number; cores : number; temperature : number }.
End Cpu.

Module Memory.
Record t := { used : number; total : number; available : number; percentage : number }.
End Memory.

Module Disk.
Record t := { read : number; write : number; total : number; iops : number }.
End Disk.

Module Network.
Record t := { in_ : number; out : number; connections : number }.
End Network.

Module Threads.
Record t := { active : number; total : number; idle : number }.
End Threads.

Record System := {
  cpu : Cpu.t;
  memory : Memory.t;
  disk : Disk.t;
  network : Network.t;
  threads : Threads.t
}.

Record Processing := {
  ticksProcessed : number;
  ticksPerSecond : number;
  orderBookOps : number;
  avgLatency : string;
  uptime : number;
  uptimeHours : number
}.

Record Components := {
  dataIngestion : string;
  orderBookReconstruction : string;
  backtestingEngine : string;
  optimizationEngine : string;
  websocketServer : string;
  database : string;
  cache : string;
  messageQueue : string
}.

Module Alert.
Record t := { level : string; message : string; timestamp : string }.
End Alert.

Module Sample.
Record t := { time : number; value : number }.
End Sample.

Module History.
Record t := { cpu : list Sample.t; memory : list Sample.t; threads : list Sample.t }.
End History.

Record Summary := {
  timestamp : string;
  system : System;
  processing : Processing;
  components : Components;
  alerts : list Alert.t;
  history : History.t
}.

Inductive Body :=
| ErrorBody (error : string)
| SummaryBody (s : Summary).

(** The [network] object: three draws. *)
Definition network_block : Eff Network.t :=
  let* r1 := Math_random in
  let* r2 := Math_random in
  let* r3 := Math_random in
  ret {| Network.in_ := (r1 * 100)%float;
         Network.out := (r2 * 50)%float;
         Network.connections := (Math_floor (r3 * 20) + 10)%float |}.

(** The [processing] object: four draws. *)
Definition processing_block : Eff Processing :=
  let* r1 := Math_random in
  let* r2 := Math_random in
  let* r3 := Math_random in
  let* r4 := Math_random in
  ret {| ticksProcessed := Math_floor (4530000 + r1 * 100000)%float;
         ticksPerSecond := Math_floor (10000 + r2 * 5000)%float;
         orderBookOps := Math_floor (98500 + r3 * 10000)%float;
         avgLatency := toFixed 2 (0.5 + r4 * 0.5)%float;
         uptime := 99.9%float;
         uptimeHours := 2.75%float |}.

(** The [components] object: two draws. *)
Definition components_block : Eff Components :=
  let* r1 := Math_random in
  let* r2 := Math_random in
  ret {| dataIngestion := "operational";
         orderBookReconstruction := "operational";
         backtestingEngine := if gt r1 0.5%float then "idle" else "running";
         optimizationEngine := if gt r2 0.7%float then "running" else "idle";
         websocketServer := "connected";
         database := "operational";
         cache := "operational";
         messageQueue := "operational" |}.

(** The [alerts] array: one entry, stamped with the current time. *)
Definition alerts_block : Eff (list Alert.t) :=
  let* t := Date_now_ISO in
  ret [ {| Alert.level := "info";
           Alert.message := "System running optimally";
           Alert.timestamp := t |} ].

(** [Array.from({ length: 20 }, (_, i) => ({ time: i, value: f(r) }))]
    for a draw [r] per entry. *)
Definition series (f : number -> number) : Eff (list Sample.t) :=
  array_from 20 0 (fun i =>
    let* r := Math_random in
    ret {| Sample.time := of_Z i; Sample.value := f r |}).

(** The summary built from the backend's answer. *)
Definition live_summary (data : Data.t) : Eff Summary :=
  let* r := Math_random in
  let cpu := {| Cpu.usage := Data.cpu_usage data;
                Cpu.cores := 8%float;
                Cpu.temperature := (55 + r * 10)%float |} in
  let memory :=
    {| Memory.used := Data.memory_used data;
       Memory.total := Data.memory_total data;
       Memory.available := (Data.memory_total data - Data.memory_used data)%float;
       Memory.percentage := (Data.memory_used data / Data.memory_total data * 100)%float |} in
  let disk :=
    {| Disk.read := (Data.disk_io data * 0.6)%float;
       Disk.write := (Data.disk_io data * 0.4)%float;
       Disk.total := Data.disk_io data;
       Disk.iops := Math_floor (Data.disk_io data * 10)%float |} in
  let* network := network_block in
  let threads :=
    {| Threads.active := Data.threads_active data;
       Threads.total := 16%float;
       Threads.idle := (16 - Data.threads_active data)%float |} in
  let* processing := processing_block in
  let* components := components_block in
  let* alerts := alerts_block in
  let* hcpu := series (fun r => Data.cpu_usage data + (r - 0.5) * 10)%float in
  let* hmem := series (fun r => Data.memory_used data + (r - 0.5) * 2)%float in
  let* hthr := series (fun r => Data.threads_active data + Math_floor ((r - 0.5) * 4))%float in
  ret {| timestamp := Data.timestamp data;
         system := {| cpu := cpu; memory := memory; disk := disk;
                      network := network; threads := threads |};
         processing := processing;
         components := components;
         alerts := alerts;
         history := {| History.cpu := hcpu; History.memory := hmem;
                       History.threads := hthr |} |}.

(** The simulated summary of the [catch] block. *)
Definition simulated_summary : Eff Summary :=
  let* r1 := Math_random in
  let* r2 := Math_random in
  let* r3 := Math_random in
  let cpuUsage := (35 + r1 * 20)%float in
  let memoryUsed := (10 + r2 * 5)%float in
  let diskIO := (100 + r3 * 100)%float in
  let* t := Date_now_ISO in
  let* r := Math_random in
  let cpu := {| Cpu.usage := cpuUsage;
                Cpu.cores := 8%float;
                Cpu.temperature := (55 + r * 10)%float |} in
  let memory :=
    {| Memory.used := memoryUsed;
       Memory.total := 32%float;
       Memory.available := (32 - memoryUsed)%float;
       Memory.percentage := (memoryUsed / 32 * 100)%float |} in
  let disk :=
    {| Disk.read := (diskIO * 0.6)%float;
       Disk.write := (diskIO * 0.4)%float;
       Disk.total := diskIO;
       Disk.iops := Math_floor (diskIO * 10)%float |} in
  let* network := network_block in
  let* ra := Math_random in
  let* ri := Math_random in
  let threads :=
    {| Threads.active := (Math_floor (ra * 8) + 4)%float;
       Threads.total := 16%float;
       Threads.idle := (16 - Math_floor (ri * 8) - 4)%float |} in
  let* processing := processing_block in
  let* components := components_block in
  let* alerts := alerts_block in
  let* hcpu := series (fun r => 35 + r * 20)%float in
  let* hmem := series (fun r => 10 + r * 5)%float in
  let* hthr := series (fun r => Math_floor (r * 8) + 4)%float in
  ret {| timestamp := t;
         system := {| cpu := cpu; memory := memory; disk := disk;
                      network := network; threads := threads |};
         processing := processing;
         components := components;
         alerts := alerts;
         history := {| History.cpu := hcpu; History.memory := hmem;
                       History.threads := hthr |} |}.

(** [export async function GET(request)]. *)
Definition GET (env : option string) (backend : Backend Data.t) : Eff (Response Body) :=
  try_catch
    (let* response :=
       fetch backend {| url := BACKEND_URL env ++ "/api/monitor";
                        method := "GET";
                        payload := None |} in
     if negb (ok (fst response))
     then throw (Error ("Backend returned " ++ String_of_int (fst response)))
     else
       let* data := json_object (snd response) in
       let* transformedData := live_summary data in
       ret (json (SummaryBody transformedData)))
    (fun error =>
       let* _ := console_error "Failed to fetch monitoring data:" in
       let* fallback := simulated_summary in
       ret (json (SummaryBody fallback))).

(** The body of a POST to the monitor route, as the handler reads it:
    the [action] when it is a string; the handler compares it with
    [===], which no value of another type passes. *)
Record Command := {
  action : option string
}.

(** Reading the property off a value. *)
Definition command_of_json (j : Json) : Command :=
  {| action := match field "action" j with
               | Some (JStr a) => Some a
               | _ => None
               end |}.

Inductive PostBody :=
| PostError (error : string)
| Subscribed (subscribed : bool) (channels : list string)
| Acknowledged (success : bool).

(** [export async function POST(request)]: the [catch] block does not
    log. *)
Definition POST (request : Parsed Command) : Eff (Response PostBody) :=
  try_catch
    (let* body := json_object request in
     if match action body with
        | Some a => String.eqb a "subscribe"
        | None => false
        end
     then ret (json (Subscribed true ["system"; "processing"; "alerts"]%string))
     else ret (json (Acknowledged true)))
    (fun error =>
       ret (json_status (PostError "Failed to process monitoring request") 500)).

End MonitorRoute.

(* ===================================================================== *)
(** * frontend/components/backtest/BacktestPanel.tsx                       *)
(* ===================================================================== *)

Module BacktestPanel.
Import JS.

(** [interface BacktestConfig].  The union type of [slippageModel] is
    erased when the component runs: the property holds a string. *)
Record BacktestConfig := {
  strategy : string;
  startDate : string;
  endDate : string;
  initialCapital : number;
  positionSize : number;
  maxPositions : number;
  commissionRate : number;
  slippageModel : string;
  slippageValue : number
}.

(** The component's state: [isRunning], [progress], [config], and whether
    the interval started by [handleRunBacktest] is still set. *)
Record State := {
  isRunning : bool;
  progress : Z;
  config : BacktestConfig;
  interval : bool
}.

(** The initial values given to [useState]. *)
Definition initial : State :=
  {| isRunning := false;
     progress := 0;
     config := {| strategy := "order_book_imbalance";
                  startDate := "2024-01-01";
                  endDate := "2024-01-31";
                  initialCapital := 100000%float;
                  positionSize := 1%float;
                  maxPositions := 3%float;
                  commissionRate := 0.0002%float;
                  slippageModel := "linear";
                  slippageValue := 0.0001%float |};
     interval := false |}.

(** The [value]s of the [<option>]s of the two [<select>] elements. *)
Definition strategy_options : list string :=
  ["order_book_imbalance"; "bid_ask_bounce"; "momentum_breakout"].

Definition slippage_options : list string :=
  ["fixed"; "linear"; "square_root"].

(** What the user and the timer can do.  A [<select>] reports the value
    of the option picked, given here by its position; a text or number
    input reports what was typed, a number input after [Number(...)]. *)
Inductive Action :=
| ChangeStrategy (picked : nat)
| ChangeInitialCapital (n : number)
| ChangeStartDate (s : string)
| ChangeEndDate (s : string)
| ChangePositionSize (n : number)
| ChangeMaxPositions (n : number)
| ChangeCommissionRate (n : number)
| ChangeSlippageModel (picked : nat)
| ChangeSlippageValue (n : number)
| ClickRun
| Tick.

Definition setConfig (s : State) (c : BacktestConfig) : State :=
  {| isRunning := isRunning s; progress := progress s; config := c;
     interval := interval s |}.

(** [handleRunBacktest]; the button is disabled while [isRunning]. *)
Definition handleRunBacktest (s : State) : State :=
  if isRunning s then s
  else {| isRunning := true; progress := 0; config := config s; interval := true |}.

(** The callback given to [setInterval]. *)
Definition tick (s : State) : State :=
  if negb (interval s) then s
  else if 100 <=? progress s
  then {| isRunning := false; progress := 100; config := config s; interval := false |}
  else {| isRunning := isRunning s; progress := progress s + 2; config := config s;
          interval := true |}.

(** The [onChange] and [onClick] handlers: [setConfig({...config, k: v})]. *)
Definition step (s : State) (a : Action) : State :=
  let c := config s in
  match a with
  | ChangeStrategy picked =>
      match strategy_options !! picked with
      | Some v =>
          setConfig s {| strategy := v; startDate := startDate c; endDate := endDate c;
                         initialCapital := initialCapital c; positionSize := positionSize c;
                         maxPositions := maxPositions c; commissionRate := commissionRate c;
                         slippageModel := slippageModel c; slippageValue := slippageValue c |}
      | None => s
      end
  | ChangeInitialCapital n =>
      setConfig s {| strategy := strategy c; startDate := startDate c; endDate := endDate c;
                     initialCapital := n; positionSize := positionSize c;
                     maxPositions := maxPositions c; commissionRate := commissionRate c;
                     slippageModel := slippageModel c; slippageValue := slippageValue c |}
  | ChangeStartDate v =>
      setConfig s {| strategy := strategy c; startDate := v; endDate := endDate c;
                     initialCapital := initialCapital c; positionSize := positionSize c;
                     maxPositions := maxPositions c; commissionRate := commissionRate c;
                     slippageModel := slippageModel c; slippageValue := slippageValue c |}
  | ChangeEndDate v =>
      setConfig s {| strategy := strategy c; startDate := startDate c; endDate := v;
                     initialCapital := initialCapital c; positionSize := positionSize c;
                     maxPositions := maxPositions c; commissionRate := commissionRate c;
                     slippageModel := slippageModel c; slippageValue := slippageValue c |}
  | ChangePositionSize n =>
      setConfig s {| strategy := strategy c; startDate := startDate c; endDate := endDate c;
                     initialCapital := initialCapital c; positionSize := n;
                     maxPositions := maxPositions c; commissionRate := commissionRate c;
                     slippageModel := slippageModel c; slippageValue := slippageValue c |}
  | ChangeMaxPositions n =>
      setConfig s {| strategy := strategy c; startDate := startDate c; endDate := endDate c;
                     initialCapital := initialCapital c; positionSize := positionSize c;
                     maxPositions := n; commissionRate := commissionRate c;
                     slippageModel := slippageModel c; slippageValue := slippageValue c |}
  | ChangeCommissionRate n =>
      setConfig s {| strategy := strategy c; startDate := startDate c; endDate := endDate c;
                     initialCapital := initialCapital c; positionSize := positionSize c;
                     maxPositions := maxPositions c; commissionRate := n;
                     slippageModel := slippageModel c; slippageValue := slippageValue c |}
  | ChangeSlippageModel picked =>
      match slippage_options !! picked with
      | Some v =>
          setConfig s {| strategy := strategy c; startDate := startDate c; endDate := endDate c;
                         initialCapital := initialCapital c; positionSize := positionSize c;
                         maxPositions := maxPositions c; commissionRate := commissionRate c;
                         slippageModel := v; slippageValue := slippageValue c |}
      | None => s
      end
  | ChangeSlippageValue n =>
      setConfig s {| strategy := strategy c; startDate := startDate c; endDate := endDate c;
                     initialCapital := initialCapital c; positionSize := positionSize c;
                     maxPositions := maxPositions c; commissionRate := commissionRate c;
                     slippageModel := slippageModel c; slippageValue := n |}
  | ClickRun => handleRunBacktest s
  | Tick => tick s
  end.

(** The state after a sequence of actions on a freshly mounted panel. *)
Definition after (actions : list Action) : State := fold_left step actions initial.

(** The configurations a run is started with: the [config] at each click
    on the run button that the button accepts. *)
Fixpoint submitted (s : State) (actions : list Action) : list BacktestConfig :=
  match actions with
  | [] => []
  | a :: rest =>
      match a with
      | ClickRun => if isRunning s then submitted (step s a) rest
                    else config s :: submitted (step s a) rest
      | _ => submitted (step s a) rest
      end
  end.

End BacktestPanel.

(* ===================================================================== *)
(** * frontend/components/optimization/OptimizationPanel.tsx               *)
(* ===================================================================== *)

Module OptimizationPanel.
Import JS.

(** [interface OptimizationParameter]. *)
Record OptimizationParameter := {
  name : string;
  min : number;
  max : number;
  step : number;
  current : number
}.

(** The initial value of the [parameters] state. *)
Definition initial_parameters : list OptimizationParameter :=
  [ {| name := "lookback_period"; min := 10; max := 100; step := 10; current := 50 |};
    {| name := "threshold"; min := 0.5; max := 2.0; step := 0.1; current := 1.0 |};
    {| name := "stop_loss"; min := 0.001; max := 0.01; step := 0.001; current := 0.005 |};
    {| name := "take_profit"; min := 0.002; max := 0.02; step := 0.002; current := 0.01 |}
  ]%float.

(** [Math.floor((param.max - param.min) / param.step) + 1]. *)
Definition steps (param : OptimizationParameter) : number :=
  (Math_floor ((max param - min param) / step param) + 1)%float.

(** [parameters.reduce((total, param) => total * steps, 1)]. *)
Definition calculateTotalCombinations (parameters : list OptimizationParameter) : number :=
  fold_left (fun total param => (total * steps param)%float) parameters 1%float.

(** The product of the step counts of the first [n] parameters, in the
    order of the list: the empty product is 1. *)
Fixpoint product_of_steps (parameters : list OptimizationParameter) (n : nat) : number :=
  match n with
  | O => 1%float
  | S k =>
      match parameters !! k with
      | Some param => (product_of_steps parameters k * steps param)%float
      | None => product_of_steps parameters k
      end
  end.

(** The component's state: the five [useState] cells, and the intervals
    started by [handleStartOptimization] that are still set.  The callback
    of an interval is a closure of the render that started it: it reads
    the [optimizationType] of that render, kept here with the interval. *)
Record State := {
  optimizationType : string;
  isRunning : bool;
  progress : Z;
  currentGeneration : Z;
  parameters : list OptimizationParameter;
  intervals : list string
}.

(** The initial values given to [useState]. *)
Definition initial : State :=
  {| optimizationType := "grid";
     isRunning := false;
     progress := 0;
     currentGeneration := 0;
     parameters := initial_parameters;
     intervals := [] |}.

(** The three method buttons, by the value their [onClick] sets. *)
Definition method_options : list string := ["grid"; "genetic"; "bayesian"].

(** What the user and the timers can do: press a method button (given by
    its position), press the start button, type into the [Min], [Max] or
    [Step] input of the parameter at [index], move its slider; and the
    interval at position [fired] of the live ones fires. *)
Inductive Action :=
| SetOptimizationType (picked : nat)
| ClickStart
| Tick (fired : nat)
| ChangeMin (index : nat) (n : number)
| ChangeMax (index : nat) (n : number)
| ChangeStep (index : nat) (n : number)
| ChangeCurrent (index : nat) (n : number).

Definition setParameters (s : State) (ps : list OptimizationParameter) : State :=
  {| optimizationType := optimizationType s; isRunning := isRunning s;
     progress := progress s; currentGeneration := currentGeneration s;
     parameters := ps; intervals := intervals s |}.

(** [handleStartOptimization]; the button is disabled while [isRunning]. *)
Definition handleStartOptimization (s : State) : State :=
  if isRunning s then s
  else {| optimizationType := optimizationType s;
          isRunning := true;
          progress := 0;
          currentGeneration := 0;
          parameters := parameters s;
          intervals := intervals s ++ [optimizationType s] |}.

(** The callback given to [setInterval], for the interval at position
    [fired]: the [setProgress] updater, then the generation counter when
    the method read by the closure is ['genetic']. *)
Definition tick (fired : nat) (s : State) : State :=
  match intervals s !! fired with
  | None => s
  | Some captured =>
      let generation :=
        if String.eqb captured "genetic"
        then Z.min (currentGeneration s + 1) 50
        else currentGeneration s in
      if 100 <=? progress s
      then {| optimizationType := optimizationType s;
              isRunning := false;
              progress := 100;
              currentGeneration := generation;
              parameters := parameters s;
              intervals := delete fired (intervals s) |}
      else {| optimizationType := optimizationType s;
              isRunning := isRunning s;
              progress := progress s + 1;
              currentGeneration := generation;
              parameters := parameters s;
              intervals := intervals s |}
  end.

(** The [onClick] and [onChange] handlers.  An input exists only for a
    parameter of the list: a position outside it names no input. *)
Definition dispatch (s : State) (a : Action) : State :=
  match a with
  | SetOptimizationType picked =>
      match method_options !! picked with
      | Some v =>
          {| optimizationType := v; isRunning := isRunning s;
             progress := progress s; currentGeneration := currentGeneration s;
             parameters := parameters s; intervals := intervals s |}
      | None => s
      end
  | ClickStart => handleStartOptimization s
  | Tick fired => tick fired s
  | ChangeMin index n =>
      setParameters s
        (alter (fun p => {| name := name p; min := n; max := max p;
                            step := step p; current := current p |})
               index (parameters s))
  | ChangeMax index n =>
      setParameters s
        (alter (fun p => {| name := name p; min := min p; max := n;
                            step := step p; current := current p |})
               index (parameters s))
  | ChangeStep index n =>
      setParameters s
        (alter (fun p => {| name := name p; min := min p; max := max p;
                            step := n; current := current p |})
               index (parameters s))
  | ChangeCurrent index n =>
      setParameters s
        (alter (fun p => {| name := name p; min := min p; max := max p;
                            step := step p; current := n |})
               index (parameters s))
  end.

(** The state after a sequence of actions on the fresh component. *)
Definition after (actions : list Action) : State :=
  fold_left dispatch actions initial.

End OptimizationPanel.

(* ===================================================================== *)
(** * The strategy library component                                       *)
(* ===================================================================== *)

Module StrategyLibrary.
Import JS.

Record Performance := {
  sharpe : number;
  winRate : number;
  totalTrades : number
}.

(** [interface Strategy]; [type] and [status] hold strings when the
    component runs. *)
Record Strategy := {
  id : string;
  name : string;
  description : string;
  type : string;
  status : string;
  lastModified : string;
  performance : Performance
}.

(** The mock data of the component. *)
Definition strategies : list Strategy :=
  [ {| id := "1";
       name := "Order Book Imbalance";
       description := "Trades based on bid-ask volume imbalances";
       type := "order_book";
       status := "active";
       lastModified := "2024-01-15";
       performance := {| sharpe := 1.8; winRate := 0.62; totalTrades := 1250 |} |};
    {| id := "2";
       name := "Bid-Ask Bounce";
       description := "Mean reversion strategy on bid-ask spread";
       type := "mean_reversion";
       status := "active";
       lastModified := "2024-01-14";
       performance := {| sharpe := 1.5; winRate := 0.58; totalTrades := 890 |} |};
    {| id := "3";
       name := "Momentum Breakout";
       description := "Captures breakouts with volume confirmation";
       type := "momentum";
       status := "draft";
       lastModified := "2024-01-13";
       performance := {| sharpe := 0; winRate := 0; totalTrades := 0 |} |}
  ]%float.

(** The callback given to [strategies.filter], where [lower] is what
    [String.prototype.toLowerCase] does: the search term is whatever the
    user typed, so the built-in is taken as it comes. *)
Definition matches_under (lower : string -> string)
  (searchTerm selectedType : string) (strategy : Strategy) : bool :=
  let matchesSearch :=
    includes (lower (name strategy)) (lower searchTerm)
    || includes (lower (description strategy)) (lower searchTerm) in
  let matchesType :=
    String.eqb selectedType "all" || String.eqb (type strategy) selectedType in
  matchesSearch && matchesType.

(** [all.filter(strategy => ...)] for a list [all] of strategies. *)
Definition filter_strategies_under (lower : string -> string)
  (searchTerm selectedType : string) (all : list Strategy) : list Strategy :=
  List.filter (matches_under lower searchTerm selectedType) all.

(** [const filteredStrategies = strategies.filter(...)]. *)
Definition filteredStrategies_under (lower : string -> string)
  (searchTerm selectedType : string) : list Strategy :=
  filter_strategies_under lower searchTerm selectedType strategies.

(** The callback, the filter and the filtered list where every string at
    hand is a string of ASCII characters: the built-in is [toLowerCase]. *)
Definition matches (searchTerm selectedType : string) (strategy : Strategy) : bool :=
  matches_under toLowerCase searchTerm selectedType strategy.

Definition filter_strategies (searchTerm selectedType : string) (all : list Strategy)
  : list Strategy :=
  filter_strategies_under toLowerCase searchTerm selectedType all.

Definition filteredStrategies (searchTerm selectedType : string) : list Strategy :=
  filteredStrategies_under toLowerCase searchTerm selectedType.

(** [sub] occurs in [s]: some text before it and some text after it make
    up [s]. *)
Definition occurs_in (sub s : string) : Prop :=
  exists before after_, s = (before ++ sub ++ after_)%string.

(** [s] contains [term], letter case apart: the lowered term occurs in
    the lowered [s]. *)
Definition contains_ignoring_case (lower : string -> string) (s term : string) : Prop :=
  occurs_in (lower term) (lower s).

(** The capital and the small form of each of the 26 letters, paired in
    the order of the alphabet. *)
Definition letters : list (ascii * ascii) :=
  combine (list_ascii_of_string "ABCDEFGHIJKLMNOPQRSTUVWXYZ")
          (list_ascii_of_string "abcdefghijklmnopqrstuvwxyz").

(** Two characters that are equal, or the two forms of one letter. *)
Definition same_letter (a b : ascii) : bool :=
  Ascii.eqb a b
  || existsb (fun forms => (Ascii.eqb a (fst forms) && Ascii.eqb b (snd forms))
                           || (Ascii.eqb a (snd forms) && Ascii.eqb b (fst forms)))
             letters.

(** Two strings that differ in the case of their letters at most. *)
Fixpoint same_letters (s t : string) : bool :=
  match s, t with
  | EmptyString, EmptyString => true
  | String a s', String b t' => same_letter a b && same_letters s' t'
  | _, _ => false
  end.

(** [s.replace(c, d)] for one-character strings [c] and [d] (and [d] not
    the dollar sign): the first [c] of [s] becomes [d]. *)
Fixpoint replace_first (c d : ascii) (s : string) : string :=
  match s with
  | EmptyString => EmptyString
  | String a rest =>
      if Ascii.eqb a c then String d rest else String a (replace_first c d rest)
  end.

(** [strategy.type.replace('_', ' ')], the type shown on the card. *)
Definition type_label (strategy : Strategy) : string :=
  replace_first "_" " " (type strategy).

End StrategyLibrary.

(* ===================================================================== *)
(** * The database schema: backtest_runs                                   *)
(* ===================================================================== *)

Module Schema.

(** [CONSTRAINT valid_status CHECK (status IN ('pending', 'running',
    'completed', 'failed', 'cancelled'))]. *)
Definition valid_status (status : string) : bool :=
  existsb (String.eqb status) ["pending"; "running"; "completed"; "failed"; "cancelled"].

(** [CONSTRAINT valid_side CHECK (side IN ('long', 'short'))] of the
    [trades] table. *)
Definition valid_side (side : string) : bool :=
  existsb (String.eqb side) ["long"; "short"].

End Schema.

(* ===================================================================== *)
(** * The core: order book engine, merger, backtest event loop             *)
(* ===================================================================== *)

(** The repository holds the dashboard, its route handlers and the
    database schema; the engine they front is described by the
    specification only.  The definitions of this module follow the
    specification's sections 3, 4.3, 4.4, 4.5 and 7. *)
Module Core.

(** ** Data model *)

Inductive MDT :=
| Ask | Bid | Last | DailyHigh | DailyLow | DailyVolume
| LastClose | Opening | OpenInterest | Settlement | Unknown.

Inductive Operation := Add | Update | Remove.

Inductive Side := BidSide | AskSide.

Inductive ValidationPolicy := Strict | Lenient.

Inductive ValidationFault :=
| NullRequiredField
| NegativeVolume
| MissingOperationForL2
| UnexpectedOperationForL1
| DepthOutOfRange
| NonMonotonicTimestampForSource.

Inductive BookIntegrityFault :=
| StaleUpdateFault
| CrossedBookFault.

(** Modelled from the spec: the typed event the Validation Gate accepts
    (the gate itself is not in the repository).  An L2 event carries an
    operation and a depth, an L1 event a market-data type; prices are
    fixed-point with two fractional digits, held here in hundredths;
    timestamps are nanoseconds. *)
Inductive Event :=
| L2 (timestamp : Z) (side : Side) (operation : Operation) (depth : nat)
     (market_maker : option string) (price : Z) (volume : Z)
| L1 (timestamp : Z) (mdt : MDT) (price : Z) (volume : Z).

Definition timestamp (e : Event) : Z :=
  match e with
  | L2 t _ _ _ _ _ _ => t
  | L1 t _ _ _ => t
  end.

(** Modelled from the spec: OrderBookLevel (the engine is not in the
    repository): one resting quote at a depth on one side. *)
Record OrderBookLevel := {
  price : Z;
  size : Z;
  market_maker : option string
}.

(** Modelled from the spec: the most recent L1 summary scalars. *)
Record Summary := {
  last_price : option Z;
  last_size : option Z;
  daily_high : option Z;
  daily_low : option Z;
  daily_volume : option Z;
  opening : option Z;
  last_close : option Z;
  settlement : option Z;
  open_interest : option Z
}.

(** Modelled from the spec: OrderBook (the engine is not in the
    repository): one ladder per side, the level at depth [d] at position
    [d], and the L1 summary.  A ladder has no gaps: the depths in use are
    [0] to its length less one. *)
Record OrderBook := {
  bids : list OrderBookLevel;
  asks : list OrderBookLevel;
  summary : Summary
}.

Definition empty_summary : Summary :=
  {| last_price := None; last_size := None; daily_high := None; daily_low := None;
     daily_volume := None; opening := None; last_close := None; settlement := None;
     open_interest := None |}.

(** The book created on the first tick for an instrument. *)
Definition empty_book : OrderBook :=
  {| bids := []; asks := []; summary := empty_summary |}.

Definition ladder (s : Side) (b : OrderBook) : list OrderBookLevel :=
  match s with
  | BidSide => bids b
  | AskSide => asks b
  end.

Definition set_ladder (s : Side) (l : list OrderBookLevel) (b : OrderBook) : OrderBook :=
  match s with
  | BidSide => {| bids := l; asks := asks b; summary := summary b |}
  | AskSide => {| bids := bids b; asks := l; summary := summary b |}
  end.

(** The better of a level and the best of the deeper ones: the deeper
    one only when its price beats the level's. *)
Definition pick (beats : Z -> Z -> bool) (x : OrderBookLevel)
  (deeper : option OrderBookLevel) : OrderBookLevel :=
  match deeper with
  | Some y => if beats (price y) (price x) then y else x
  | None => x
  end.

(** The best level of a ladder by price; among equal prices the one
    nearest to depth 0. *)
Fixpoint best (beats : Z -> Z -> bool) (l : list OrderBookLevel)
  : option OrderBookLevel :=
  match l with
  | [] => None
  | x :: rest => Some (pick beats x (best beats rest))
  end.

(** Modelled from the spec: the best bid is the bid with the highest
    price and the best ask the ask with the lowest (the book is "kept
    price-sorted (best-first) for O(1) best-bid/best-ask lookup", section
    3).  When the feed keeps each ladder in price order they are the
    levels at depth 0. *)
Definition best_bid (b : OrderBook) : option OrderBookLevel := best Z.gtb (bids b).
Definition best_ask (b : OrderBook) : option OrderBookLevel := best Z.ltb (asks b).

(** ** Order Book Engine (section 4.4) *)

(** Modelled from the spec: the three L2 operations on one ladder (the
    engine is not in the repository).  [None] is the stale case: no level
    at the depth of an Update or a Remove.
    - Add inserts at [depth]; a level already there, and the deeper ones,
      move one position away from best.  The specification does not say
      what an Add deeper than the last level does; as a ladder has no
      gaps, the level is put after the last one.
    - Update replaces the level at [depth] by the event's price and size,
      with the event's market maker when it has one and the level's
      otherwise.  Section 4.4 names the size and the market maker; a
      record's price is never null (section 3), and in Scenario C of
      section 8 it is an Update that moves a price across the book.
    - Remove deletes the level at [depth]; deeper levels move one position
      toward best. *)
Definition mutate (op : Operation) (depth : nat) (mm : option string)
  (p v : Z) (l : list OrderBookLevel) : option (list OrderBookLevel) :=
  match op with
  | Add =>
      Some (take depth l
            ++ {| price := p; size := v; market_maker := mm |} :: drop depth l)
  | Update =>
      match l !! depth with
      | Some old =>
          Some (<[depth := {| price := p;
                              size := v;
                              market_maker := match mm with
                                              | Some _ => mm
                                              | None => market_maker old
                                              end |}]> l)
      | None => None
      end
  | Remove =>
      match l !! depth with
      | Some _ => Some (delete depth l)
      | None => None
      end
  end.

(** Modelled from the spec: an L1 event updates the summary scalar of its
    market-data type and nothing else. *)
Definition update_summary (m : MDT) (p v : Z) (s : Summary) : Summary :=
  match m with
  | Last =>
      {| last_price := Some p; last_size := Some v; daily_high := daily_high s;
         daily_low := daily_low s; daily_volume := daily_volume s; opening := opening s;
         last_close := last_close s; settlement := settlement s;
         open_interest := open_interest s |}
  | DailyHigh =>
      {| last_price := last_price s; last_size := last_size s; daily_high := Some p;
         daily_low := daily_low s; daily_volume := daily_volume s; opening := opening s;
         last_close := last_close s; settlement := settlement s;
         open_interest := open_interest s |}
  | DailyLow =>
      {| last_price := last_price s; last_size := last_size s; daily_high := daily_high s;
         daily_low := Some p; daily_volume := daily_volume s; opening := opening s;
         last_close := last_close s; settlement := settlement s;
         open_interest := open_interest s |}
  | DailyVolume =>
      {| last_price := last_price s; last_size := last_size s; daily_high := daily_high s;
         daily_low := daily_low s; daily_volume := Some v; opening := opening s;
         last_close := last_close s; settlement := settlement s;
         open_interest := open_interest s |}
  | LastClose =>
      {| last_price := last_price s; last_size := last_size s; daily_high := daily_high s;
         daily_low := daily_low s; daily_volume := daily_volume s; opening := opening s;
         last_close := Some p; settlement := settlement s;
         open_interest := open_interest s |}
  | Opening =>
      {| last_price := last_price s; last_size := last_size s; daily_high := daily_high s;
         daily_low := daily_low s; daily_volume := daily_volume s; opening := Some p;
         last_close := last_close s; settlement := settlement s;
         open_interest := open_interest s |}
  | OpenInterest =>
      {| last_price := last_price s; last_size := last_size s; daily_high := daily_high s;
         daily_low := daily_low s; daily_volume := daily_volume s; opening := opening s;
         last_close := last_close s; settlement := settlement s;
         open_interest := Some v |}
  | Settlement =>
      {| last_price := last_price s; last_size := last_size s; daily_high := daily_high s;
         daily_low := daily_low s; daily_volume := daily_volume s; opening := opening s;
         last_close := last_close s; settlement := Some p;
         open_interest := open_interest s |}
  | Ask | Bid | Unknown => s
  end.

(** The check made after every mutation: both sides populated and the
    best bid above the best ask. *)
Definition crossed (b : OrderBook) : bool :=
  match best_bid b, best_ask b with
  | Some bid, Some ask => price ask <? price bid
  | _, _ => false
  end.

(** The invariant of the data model: when both sides are non-empty,
    [best_bid.price <= best_ask.price]. *)
Definition consistent (b : OrderBook) : Prop :=
  forall bid ask, best_bid b = Some bid -> best_ask b = Some ask -> price bid <= price ask.

(** The book an event asks for, before the check; [None] in the stale
    case. *)
Definition requested (b : OrderBook) (e : Event) : option OrderBook :=
  match e with
  | L1 _ m p v =>
      Some {| bids := bids b; asks := asks b; summary := update_summary m p v (summary b) |}
  | L2 _ s op d mm p v =>
      match mutate op d mm p v (ladder s b) with
      | Some l => Some (set_ladder s l b)
      | None => None
      end
  end.

(** What [apply] hands back: the book after a success; the fault and the
    book as the engine leaves it after a fault the run survives; the
    fault alone when it ends the run. *)
Inductive Applied :=
| Success (book : OrderBook)
| Fault (fault : BookIntegrityFault) (book : OrderBook)
| Fatal (fault : BookIntegrityFault).

(** Modelled from the spec: [apply(event)] (the engine is not in the
    repository).  A stale Update or Remove changes nothing and raises
    StaleUpdateFault.  A mutation that crosses the book raises
    CrossedBookFault: under Strict the run is aborted, under Lenient the
    event is dropped and the prior book restored. *)
Definition apply (policy : ValidationPolicy) (b : OrderBook) (e : Event) : Applied :=
  match requested b e with
  | None => Fault StaleUpdateFault b
  | Some b' =>
      if crossed b' then
        match policy with
        | Strict => Fatal CrossedBookFault
        | Lenient => Fault CrossedBookFault b
        end
      else Success b'
  end.

(** The books observed after each event of a sequence, until the run is
    aborted. *)
Fixpoint checkpoints (policy : ValidationPolicy) (b : OrderBook) (events : list Event)
  : list OrderBook :=
  match events with
  | [] => []
  | e :: rest =>
      match apply policy b e with
      | Success b' => b' :: checkpoints policy b' rest
      | Fault _ b' => b' :: checkpoints policy b' rest
      | Fatal _ => []
      end
  end.

(** ** Multi-source merger (section 4.3) *)






(** ** Backtest event loop (sections 4.5 and 7) *)

Inductive UpstreamError :=
| SourceIOError
| SourceFormatError
| RolloverAmbiguityError.

(** What reaches the loop for one record of the merged stream: the event
    the gate accepted, the fault the gate raised, or a failure of the
    decoder or of the rollover selector. *)
Inductive Item :=
| Accepted (e : Event)
| Rejected (f : ValidationFault)
| Failed (e : UpstreamError).

Inductive RunError :=
| UpstreamFailure (e : UpstreamError)
| ValidationAbort (f : ValidationFault)
| IntegrityAbort (f : BookIntegrityFault)
| StrategyError (msg : string).

Inductive Status := Idle | Running | Completed | Aborted | Cancelled.

(** Modelled from the spec: the name a status of the state machine goes
    by in the [status] column of the [backtest_runs] table (the code that
    stores a run is not in the repository).  The column has [pending] for
    a run that has not started and [failed] for one that ended on an
    error, which the specification calls Aborted. *)
Definition status_name (s : Status) : string :=
  match s with
  | Idle => "pending"
  | Running => "running"
  | Completed => "completed"
  | Aborted => "failed"
  | Cancelled => "cancelled"
  end.

Inductive Decision := Hold | Buy (quantity : Z) | Sell (quantity : Z).

Inductive SlippageModel := FixedSlippage | LinearSlippage | SquareRootSlippage.

Record CostModel := {
  slippage_model : SlippageModel;
  slippage_value : Z;
  commission_per_contract : Z
}.

Record Trade := {
  entry_time : Z;
  exit_time : Z;
  trade_side : Side;
  trade_price : Z;
  quantity : Z;
  realized_pnl : Z;
  commission : Z;
  slippage : Z
}.

Record EquityPoint := {
  at_time : Z;
  account_value : Z
}.

(** Position, cash and the two append-only series of one run. *)
Record Account := {
  position : Z;
  cash : Z;
  trades : list Trade;
  equity : list EquityPoint
}.

(** The counters read by the Integrity Reporter. *)
Record Counters := {
  validation_faults : nat;
  stale_updates : nat;
  crossed_books : nat
}.

(** The state of one run. *)
Record Run := {
  status : Status;
  reason : option RunError;
  book : OrderBook;
  account : Account;
  counters : Counters;
  processed : nat
}.

Definition count_fault (f : BookIntegrityFault) (c : Counters) : Counters :=
  match f with
  | StaleUpdateFault =>
      {| validation_faults := validation_faults c; stale_updates := S (stale_updates c);
         crossed_books := crossed_books c |}
  | CrossedBookFault =>
      {| validation_faults := validation_faults c; stale_updates := stale_updates c;
         crossed_books := S (crossed_books c) |}
  end.

Definition count_validation (c : Counters) : Counters :=
  {| validation_faults := S (validation_faults c); stale_updates := stale_updates c;
     crossed_books := crossed_books c |}.

Section Loop.

(** The strategy's decision function, given the book and the account; it
    may fail. *)
Variable strategy : OrderBook -> Account -> string + Decision.

(** The strategy-defined cadence: after which events the strategy is
    asked. *)
Variable cadence : Event -> bool.

(** The simulated fill of a decision that is not Hold, at the event's
    time: the account with the trade and the equity point appended. *)
Variable fill : CostModel -> OrderBook -> Z -> Decision -> Account -> Account.

(** Whether the external cancellation signal is seen before the record
    at a position of the stream. *)
Variable cancel_seen : nat -> bool.

Variable cost_model : CostModel.
Variable policy : ValidationPolicy.

(** Idle, then Running. *)
Definition start (initial_capital : Z) : Run :=
  {| status := Running;
     reason := None;
     book := empty_book;
     account := {| position := 0; cash := initial_capital; trades := []; equity := [] |};
     counters := {| validation_faults := 0; stale_updates := 0; crossed_books := 0 |};
     processed := 0 |}.

Definition stop (st : Status) (why : option RunError) (r : Run) : Run :=
  {| status := st; reason := why; book := book r; account := account r;
     counters := counters r; processed := processed r |}.

(** The strategy's turn after an event has been applied. *)
Definition consult (e : Event) (b : OrderBook) (c : Counters) (r : Run) : Run :=
  if cadence e then
    match strategy b (account r) with
    | inl msg =>
        {| status := Aborted; reason := Some (StrategyError msg); book := b;
           account := account r; counters := c; processed := S (processed r) |}
    | inr Hold =>
        {| status := Running; reason := None; book := b; account := account r;
           counters := c; processed := S (processed r) |}
    | inr d =>
        {| status := Running; reason := None; book := b;
           account := fill cost_model b (timestamp e) d (account r);
           counters := c; processed := S (processed r) |}
    end
  else
    {| status := Running; reason := None; book := b; account := account r;
       counters := c; processed := S (processed r) |}.

(** Modelled from the spec: one turn of the loop (the loop is not in the
    repository).  A run that has ended ignores the record.  Cancellation
    is looked at between records only. *)
Definition step (r : Run) (it : Item) : Run :=
  match status r with
  | Running =>
      if cancel_seen (processed r) then stop Cancelled None r
      else
        match it with
        | Failed e => stop Aborted (Some (UpstreamFailure e)) r
        | Rejected f =>
            match policy with
            | Strict => stop Aborted (Some (ValidationAbort f)) r
            | Lenient =>
                {| status := Running; reason := None; book := book r;
                   account := account r; counters := count_validation (counters r);
                   processed := S (processed r) |}
            end
        | Accepted e =>
            match apply policy (book r) e with
            | Success b => consult e b (counters r) r
            | Fault f b => consult e b (count_fault f (counters r)) r
            | Fatal f =>
                {| status := Aborted; reason := Some (IntegrityAbort f); book := book r;
                   account := account r; counters := count_fault f (counters r);
                   processed := processed r |}
            end
        end
  | _ => r
  end.

(** The end of the stream: a run still Running is Completed. *)
Definition finish (r : Run) : Run :=
  match status r with
  | Running => stop Completed None r
  | _ => r
  end.

(** Modelled from the spec: [run(stream, strategy, initial_capital,
    cost_model)] (the loop is not in the repository). *)
Definition run (stream : list Item) (initial_capital : Z) : Run :=
  finish (fold_left step stream (start initial_capital)).

End Loop.

End Core.

(* ===================================================================== *)
(** * Properties of the runtime fragment and of the schema                 *)
(* ===================================================================== *)

Section RuntimeExamples.
Import JS.

Example Math_floor_examples :
  Math_floor 2.75%float = 2%float
  /\ Math_floor (-0.5)%float = (-1)%float
  /\ Math_floor 0.9999999999999999%float = 0%float
  /\ Math_floor 16%float = 16%float
  /\ Math_floor PrimFloat.infinity = PrimFloat.infinity.
Proof. repeat split; reflexivity. Qed.

Example Math_round_examples :
  Math_round 2.5%float = 3%float
  /\ Math_round (-2.5)%float = (-2)%float
  /\ Math_round (-2.6)%float = (-3)%float
  /\ Math_round 0.49999999999999994%float = 0%float
  /\ Math_round (-0.5)%float = PrimFloat.neg_zero
  /\ Math_round (1250 * 0.62)%float = 775%float.
Proof. repeat split; reflexivity. Qed.

Example toFixed_examples :
  toFixed 2 0.625%float = "0.63"%string
  /\ toFixed 2 0.615%float = "0.61"%string
  /\ toFixed 2 1.005%float = "1.00"%string
  /\ toFixed 2 0.5%float = "0.50"%string
  /\ toFixed 3 1234.5678%float = "1234.568"%string
  /\ toFixed 0 2.5%float = "3"%string.
Proof. repeat split; reflexivity. Qed.

Example string_examples :
  padStart 2 "0" (String_of_int 7) = "07"%string
  /\ padStart 2 "0" (String_of_int 39) = "39"%string
  /\ toLowerCase "Bid-Ask Bounce" = "bid-ask bounce"%string
  /\ includes "bid-ask bounce" "ask" = true
  /\ includes "bid-ask bounce" "" = true
  /\ includes "momentum" "bid" = false.
Proof. repeat split; reflexivity. Qed.

Example sample_examples :
  Runtime.sample 0 = 0%float
  /\ Runtime.sample (2 ^ 52) = 0.5%float
  /\ Runtime.sample (2 ^ 53 + 2 ^ 51) = 0.25%float.
Proof. repeat split; reflexivity. Qed.

End RuntimeExamples.

Section SchemaFacts.
Import Schema.

(** The constraint admits five statuses and no other. *)
Lemma valid_status_iff status :
  valid_status status = true
  <-> In status ["pending"; "running"; "completed"; "failed"; "cancelled"]%string.
Proof.
  unfold valid_status. rewrite existsb_exists. split.
  - intros (x & Hin & E). apply String.eqb_eq in E. now subst x.
  - intros Hin. exists status. split; [exact Hin | apply String.eqb_refl].
Qed.

(** Besides [pending] and [running], a run's status is [completed],
    [failed] or [cancelled]. *)
Lemma valid_status_terminal status :
  valid_status status = true ->
  status <> "pending"%string -> status <> "running"%string ->
  status = "completed"%string \/ status = "failed"%string \/ status = "cancelled"%string.
Proof.
  intros H Hp Hr. apply valid_status_iff in H. simpl in H.
  destruct H as [<-|[<-|[<-|[<-|[<-|[]]]]]]; tauto.
Qed.

End SchemaFacts.

(* ===================================================================== *)
(** * Properties of the route handlers                                     *)
(* ===================================================================== *)

Import JS Http Runtime.

(** A computation that returns, whatever the world. *)
Definition returns {A} (m : Eff A) : Prop :=
  forall w, exists a w', m w = (Return a, w').

Lemma returns_ret {A} (a : A) : returns (ret a).
Proof. intros w. now exists a, w. Qed.

Lemma returns_bind {A B} (m : Eff A) (k : A -> Eff B) :
  returns m -> (forall a, returns (k a)) -> returns (bind m k).
Proof.
  intros Hm Hk w. destruct (Hm w) as (a & w1 & E).
  destruct (Hk a w1) as (b & w2 & E2).
  exists b, w2. unfold bind. now rewrite E.
Qed.

Lemma returns_Math_random : returns Math_random.
Proof. intros w. eexists _, _. reflexivity. Qed.

Lemma returns_Date_now_ISO : returns Date_now_ISO.
Proof. intros w. eexists _, _. reflexivity. Qed.

Lemma returns_console_error line : returns (console_error line).
Proof. intros w. eexists _, _. reflexivity. Qed.

Lemma returns_array_from {A} n start (f : Z -> Eff A) :
  (forall i, returns (f i)) -> returns (array_from n start f).
Proof.
  intros Hf. revert start. induction n as [|n IH]; intros start; simpl.
  - apply returns_ret.
  - apply returns_bind; [apply Hf|]. intros a.
    apply returns_bind; [apply IH|]. intros r. apply returns_ret.
Qed.

(** A computation that returns a value satisfying [P], whatever the
    world. *)
Definition returning {A} (P : A -> Prop) (m : Eff A) : Prop :=
  forall w, exists a w', m w = (Return a, w') /\ P a.

(** A computation whose value, when it returns one, satisfies [P]. *)
Definition yielding {A} (P : A -> Prop) (m : Eff A) : Prop :=
  forall w a w', m w = (Return a, w') -> P a.

Lemma returning_ret {A} (P : A -> Prop) a : P a -> returning P (ret a).
Proof. intros H w. now exists a, w. Qed.

Lemma returning_bind {A B} (P : B -> Prop) (m : Eff A) (k : A -> Eff B) :
  returns m -> (forall a, returning P (k a)) -> returning P (bind m k).
Proof.
  intros Hm Hk w. destruct (Hm w) as (a & w1 & E).
  destruct (Hk a w1) as (b & w2 & E2 & Hb).
  exists b, w2. unfold bind. now rewrite E.
Qed.

Lemma yielding_ret {A} (P : A -> Prop) a : P a -> yielding P (ret a).
Proof. intros H w b w' E. injection E as <- _. exact H. Qed.

Lemma yielding_throw {A} (P : A -> Prop) e : yielding P (throw e).
Proof. intros w b w' E. discriminate E. Qed.

Lemma yielding_bind {A B} (P : B -> Prop) (m : Eff A) (k : A -> Eff B) :
  (forall a, yielding P (k a)) -> yielding P (bind m k).
Proof.
  intros Hk w b w' E. unfold bind in E.
  destruct (m w) as [[a|e] w1]; [|discriminate E].
  exact (Hk a w1 b w' E).
Qed.

(** [try]/[catch] returns when the handler does, and its value satisfies
    what both the block and the handler establish. *)
Lemma returning_try_catch {A} (P : A -> Prop) (body : Eff A) (handler : Exn -> Eff A) :
  yielding P body -> (forall e, returning P (handler e)) ->
  returning P (try_catch body handler).
Proof.
  intros Hb Hh w. unfold try_catch.
  destruct (body w) as [[a|e] w1] eqn:E.
  - exists a, w1. split; [reflexivity | exact (Hb w a w1 E)].
  - exact (Hh e w1).
Qed.

(** Two computations, run in any two worlds, end the same way (both
    return or both throw), with values related by [R] when they return. *)
Definition related {A} (R : A -> A -> Prop) (m1 m2 : Eff A) : Prop :=
  forall w1 w2,
    match fst (m1 w1), fst (m2 w2) with
    | Return a, Return b => R a b
    | Throw _, Throw _ => True
    | _, _ => False
    end.

Lemma related_ret {A} (R : A -> A -> Prop) a b : R a b -> related R (ret a) (ret b).
Proof. intros H w1 w2. exact H. Qed.

Lemma related_throw {A} (R : A -> A -> Prop) e1 e2 : related R (throw e1) (throw e2).
Proof. intros w1 w2. exact I. Qed.

Lemma related_bind {A B} (Q : A -> A -> Prop) (R : B -> B -> Prop)
  (m1 m2 : Eff A) (k1 k2 : A -> Eff B) :
  related Q m1 m2 -> (forall a b, Q a b -> related R (k1 a) (k2 b)) ->
  related R (bind m1 k1) (bind m2 k2).
Proof.
  intros Hm Hk w1 w2. specialize (Hm w1 w2). unfold bind.
  destruct (m1 w1) as [[a|e1] w1'], (m2 w2) as [[b|e2] w2']; simpl in Hm; try contradiction.
  - exact (Hk a b Hm w1' w2').
  - exact I.
Qed.

Lemma related_returns {A} (m1 m2 : Eff A) :
  returns m1 -> returns m2 -> related (fun _ _ => True) m1 m2.
Proof.
  intros H1 H2 w1 w2.
  destruct (H1 w1) as (a & w1' & ->), (H2 w2) as (b & w2' & ->). exact I.
Qed.

Lemma related_try_catch {A} (R : A -> A -> Prop) (b1 b2 : Eff A) (h1 h2 : Exn -> Eff A) :
  related R b1 b2 -> (forall e1 e2, related R (h1 e1) (h2 e2)) ->
  related R (try_catch b1 h1) (try_catch b2 h2).
Proof.
  intros Hb Hh w1 w2. specialize (Hb w1 w2). unfold try_catch.
  destruct (b1 w1) as [[a|e1] w1'], (b2 w2) as [[b|e2] w2']; simpl in Hb; try contradiction.
  - exact Hb.
  - exact (Hh e1 e2 w1' w2').
Qed.

Lemma related_console_error line :
  related (@eq unit) (console_error line) (console_error line).
Proof. intros w1 w2. reflexivity. Qed.

Lemma related_fetch {A} (first second : Backend A) req :
  first req = second req ->
  related eq (fetch first req) (fetch second req).
Proof. intros E w1 w2. unfold fetch. rewrite <- E. now destruct (first req). Qed.

Lemma related_json_object {A} (p : Parsed A) : related eq (json_object p) (json_object p).
Proof. intros w1 w2. now destruct p. Qed.

Lemma related_defined {A} what (o : option A) :
  related eq (defined what o) (defined what o).
Proof. intros w1 w2. now destruct o. Qed.

Lemma related_array_from {A} (R : A -> A -> Prop) n start (f : Z -> Eff A) :
  (forall i, related R (f i) (f i)) ->
  related (Forall2 R) (array_from n start f) (array_from n start f).
Proof.
  intros Hf. revert start. induction n as [|n IH]; intros start; simpl.
  - apply related_ret. constructor.
  - apply related_bind with (Q := R); [apply Hf|]. intros a b Hab.
    apply related_bind with (Q := Forall2 R); [apply IH|]. intros l1 l2 Hl.
    apply related_ret. now constructor.
Qed.

Ltac returns_step :=
  cbv beta zeta;
  lazymatch goal with
  | |- returns (bind _ _) => apply returns_bind; [|intros]
  | |- returns (ret _) => apply returns_ret
  | |- returns Math_random => apply returns_Math_random
  | |- returns Date_now_ISO => apply returns_Date_now_ISO
  | |- returns (console_error _) => apply returns_console_error
  | |- returns (array_from _ _ _) => apply returns_array_from; intros
  end.

Section StrategiesRouteFacts.
Import JS Http Runtime StrategiesRoute.

(** [searchParams.get] is [null] exactly when the query has no such
    parameter. *)
Lemma searchParams_get_None name query :
  searchParams_get name query = None <-> ~ In name (map fst query).
Proof.
  induction query as [|[k v] rest IH]; simpl.
  - tauto.
  - destruct (String.eqb_spec k name) as [->|Hne].
    + split; [discriminate | intros H; exfalso; apply H; now left].
    + rewrite IH. split.
      * intros H [Hk|Hin]; [congruence | tauto].
      * intros H Hin. apply H. now right.
Qed.

(** C8.  A DELETE request whose query string has no [id] parameter is
    answered with status 400 and the error [Strategy ID required]; the
    world is left as it was: no request is issued to the backend, nothing
    is logged, the generator is not read. *)
Theorem DELETE_without_id_is_rejected :
  forall (env : option string) (backend : Backend unit)
         (searchParams : list (string * string)) (w : World),
    ~ In "id"%string (map fst searchParams) ->
    DELETE env backend searchParams w
    = (Return {| status := 400; body := ErrorBody "Strategy ID required" |}, w)
    /\ sent (snd (DELETE env backend searchParams w)) = sent w.
Proof.
  intros env backend searchParams w Hno.
  apply searchParams_get_None in Hno.
  assert (E : DELETE env backend searchParams w
              = (Return {| status := 400; body := ErrorBody "Strategy ID required" |}, w)).
  { unfold DELETE, try_catch. rewrite Hno. reflexivity. }
  split; [exact E | now rewrite E].
Qed.

Definition quiet_world : World :=
  {| draws := fun n => Z.of_nat n * 6364136223846793005 + 1442695040888963407;
     cursor := 0; now := "2024-01-15T09:30:00.000Z"; sent := []; console := [] |}.

Lemma DELETE_without_id_is_rejected_witness :
  ~ In "id"%string (map fst [("name", "momentum")%string])
  /\ DELETE None (fun _ => Responded 200 Null) [("name", "momentum")%string] quiet_world
     = (Return {| status := 400; body := ErrorBody "Strategy ID required" |}, quiet_world)
  /\ sent (snd (DELETE None (fun _ => Responded 200 Null)
                       [("name", "momentum")%string] quiet_world)) = [].
Proof.
  assert (H : ~ In "id"%string (map fst [("name", "momentum")%string])).
  { simpl. intros [H|[]]. discriminate H. }
  split; [exact H|].
  exact (DELETE_without_id_is_rejected None (fun _ => Responded 200 Null)
           [("name", "momentum")%string] quiet_world H).
Defined.

(** With an id the request does go out, and a failing backend gives 500. *)
Example DELETE_with_id_reaches_backend :
  DELETE None (fun _ => NetworkError) [("id", "42")%string] quiet_world
  = (Return {| status := 500; body := ErrorBody "Failed to delete strategy" |},
     {| draws := draws quiet_world; cursor := 0; now := now quiet_world;
        sent := [ {| url := "http://localhost:8001/api/strategies/42";
                     method := "DELETE"; payload := None |} ];
        console := ["Failed to delete strategy:"%string] |}).
Proof. reflexivity. Qed.

End StrategiesRouteFacts.

Section MonitorRouteFacts.
Import JS Http Runtime MonitorRoute.

Lemma returns_network_block : returns network_block.
Proof. unfold network_block. repeat returns_step. Qed.

Lemma returns_processing_block : returns processing_block.
Proof. unfold processing_block. repeat returns_step. Qed.

Lemma returns_components_block : returns components_block.
Proof. unfold components_block. repeat returns_step. Qed.

Lemma returns_alerts_block : returns alerts_block.
Proof. unfold alerts_block. repeat returns_step. Qed.

Lemma returns_series f : returns (series f).
Proof. unfold series. repeat returns_step. Qed.

Ltac returns_block :=
  cbv beta zeta;
  lazymatch goal with
  | |- returns network_block => apply returns_network_block
  | |- returns processing_block => apply returns_processing_block
  | |- returns components_block => apply returns_components_block
  | |- returns alerts_block => apply returns_alerts_block
  | |- returns (series _) => apply returns_series
  | |- _ => returns_step
  end.

Lemma returns_live_summary data : returns (live_summary data).
Proof. unfold live_summary. repeat returns_block. Qed.

Lemma returns_simulated_summary : returns simulated_summary.
Proof. unfold simulated_summary. repeat returns_block. Qed.

(** The request the handler sends. *)
Definition monitor_request (env : option string) : Request :=
  {| url := BACKEND_URL env ++ "/api/monitor"; method := "GET"; payload := None |}.

(** The world in which the [catch] block builds its summary: the request
    has gone out and the failure has been logged. *)
Definition world_at_fallback (env : option string) (w : World) : World :=
  {| draws := draws w; cursor := cursor w; now := now w;
     sent := monitor_request env :: sent w;
     console := "Failed to fetch monitoring data:"%string :: console w |}.

(** A response with status 200 that carries a summary. *)
Definition summary_response (r : Response Body) : Prop :=
  exists s : Summary, r = {| status := 200; body := SummaryBody s |}.

(** C7.  The monitor handler never raises: whatever the backend does, it
    returns a response with status 200 whose body is a summary, never an
    error body; when the fetch fails the handler is the simulated
    summary, built after the request has gone out and the failure has
    been logged. *)
Theorem GET_monitor_always_returns_summary :
  forall (env : option string) (backend : Backend Data.t) (w : World),
    (exists (r : Response Body) (w' : World),
        GET env backend w = (Return r, w') /\ summary_response r)
    /\ (backend (monitor_request env) = NetworkError ->
        GET env backend w
        = bind simulated_summary (fun s => ret (json (SummaryBody s)))
            (world_at_fallback env w)).
Proof.
  intros env backend w. split.
  - revert w. change (returning summary_response (GET env backend)).
    apply returning_try_catch.
    + apply yielding_bind. intros response.
      destruct (negb (ok (fst response))); [apply yielding_throw|].
      apply yielding_bind. intros data.
      apply yielding_bind. intros s.
      apply yielding_ret. now exists s.
    + intros e.
      apply returning_bind; [apply returns_console_error|]. intros _.
      apply returning_bind; [apply returns_simulated_summary|]. intros s.
      apply returning_ret. now exists s.
  - intros Hnet. unfold GET, try_catch. fold (monitor_request env).
    unfold bind at 1. unfold fetch. rewrite Hnet. reflexivity.
Qed.

Lemma GET_monitor_always_returns_summary_witness :
  (exists (r : Response Body) (w' : World),
      GET None (fun _ => NetworkError) quiet_world = (Return r, w')
      /\ summary_response r)
  /\ GET None (fun _ => NetworkError) quiet_world
     = bind simulated_summary (fun s => ret (json (SummaryBody s)))
         (world_at_fallback None quiet_world).
Proof.
  destruct (GET_monitor_always_returns_summary None (fun _ => NetworkError) quiet_world)
    as [H1 H2].
  split; [exact H1 | exact (H2 eq_refl)].
Defined.

End MonitorRouteFacts.

Section BacktestRouteFacts.
Import JS Http Runtime BacktestRoute.

Lemma returns_mock_trade i : returns (mock_trade i).
Proof. unfold mock_trade. repeat returns_step. Qed.

(** The parts of a response the determinism guarantee speaks of. *)
Definition trades_of (r : Completion (Response Body)) : list Trade.t :=
  match r with
  | Return {| body := ResultBody res |} => trades res
  | _ => []
  end.

Definition equity_of (r : Completion (Response Body)) : list EquityPoint :=
  match r with
  | Return {| body := ResultBody res |} => equityCurve res
  | _ => []
  end.

(** What a mock trade holds besides the values drawn from the generator. *)
Definition fixed_part (t : Trade.t) : number * string * string :=
  (Trade.id t, Trade.entryTime t, Trade.exitTime t).

(** The part of a response that the generator has no say in: the status,
    and either the error or everything of the result but the drawn
    values of the trades. *)
Definition stable_part (r : Response Body) :=
  (Http.status r,
   match body r with
   | ErrorBody e => inl e
   | ResultBody res =>
       inr (id res, status res, strategy res, startDate res, endDate res,
            initialCapital res, metrics res, equityCurve res,
            map fixed_part (trades res))
   end).

Lemma related_mock_trade i :
  related (fun a b => fixed_part a = fixed_part b) (mock_trade i) (mock_trade i).
Proof.
  unfold mock_trade. cbv zeta.
  do 6 (apply related_bind with (Q := fun _ _ => True);
        [apply related_returns; apply returns_Math_random | intros ? ? _]).
  apply related_ret. reflexivity.
Qed.

Lemma Forall2_fixed_part l1 l2 :
  Forall2 (fun a b => fixed_part a = fixed_part b) l1 l2 ->
  map fixed_part l1 = map fixed_part l2.
Proof. induction 1; simpl; congruence. Qed.

(** The request the run handler sends for a body. *)
Definition run_request (env : option string) (req : Req.t) : Request :=
  {| url := BACKEND_URL env ++ "/api/backtest"; method := "POST";
     payload := Some (backend_body req) |}.

Lemma related_map_points curve : related eq (map_points curve) (map_points curve).
Proof.
  induction curve as [|[point|] rest IH]; simpl.
  - now apply related_ret.
  - apply related_bind with (Q := eq); [exact IH|].
    intros mapped ? <-. now apply related_ret.
  - apply related_throw.
Qed.

(** The handler run twice, in any two worlds, against backends that give
    the same answer to its request: the two runs end the same way, and the
    two responses agree on their stable part: metrics, equity curve, dates
    and the identity and times of the trades are functions of the request
    and of the backend's answer. *)
Lemma POST_stable_part_ignores_generator env first second request :
  (forall req, request = Value req ->
               first (run_request env req) = second (run_request env req)) ->
  related (fun r1 r2 => stable_part r1 = stable_part r2)
    (POST env first request) (POST env second request).
Proof.
  intros Hsame. unfold POST. apply related_try_catch.
  - destruct request as [| |req]; simpl json_object.
    + intros w1 w2. exact I.
    + intros w1 w2. exact I.
    + apply related_bind with (Q := fun a b => a = req /\ b = req);
        [now apply related_ret|].
      intros ? ? [-> ->].
      apply related_bind with (Q := eq).
      { apply (related_fetch first second (run_request env req)). now apply Hsame. }
      intros response ? <-.
      destruct (negb (ok (fst response))); [apply related_throw|].
      apply related_bind with (Q := eq); [apply related_json_object|].
      intros data ? <-.
      apply related_bind with (Q := eq); [apply related_defined|].
      intros m ? <-. cbv zeta.
      apply related_bind with (Q := eq); [apply related_defined|].
      intros curve ? <-.
      apply related_bind with (Q := eq); [apply related_map_points|].
      intros equityCurve ? <-.
      apply related_bind with (Q := Forall2 (fun a b => fixed_part a = fixed_part b)).
      * apply related_array_from. apply related_mock_trade.
      * intros t1 t2 Ht. apply related_ret.
        unfold stable_part, json. simpl.
        now rewrite (Forall2_fixed_part _ _ Ht).
  - intros e1 e2.
    apply related_bind with (Q := eq).
    + apply related_console_error.
    + intros ? ? _. apply related_ret. reflexivity.
Qed.

(** A [try] block whose [catch] handler returns does return. *)
Lemma returns_try_catch {A} (body : Eff A) (handler : Exn -> Eff A) :
  (forall e, returns (handler e)) -> returns (try_catch body handler).
Proof.
  intros Hh w. unfold try_catch.
  destruct (body w) as [[a|e] w1]; [now exists a, w1 | apply Hh].
Qed.

(** The handler always returns a response. *)
Lemma POST_returns env backend request : returns (POST env backend request).
Proof.
  unfold POST. apply returns_try_catch. intros e. repeat returns_step.
Qed.

(** A backend answer and a request body used below. *)
Definition sample_backend : Backend Data.t :=
  fun _ => Responded 200 (Value
    {| Data.id := "7f3c";
       Data.status := "completed";
       Data.strategy := "order_book_imbalance";
       Data.metrics := Some {| Data.total_return := 0.12%float;
                               Data.total_return_amount := 12000%float;
                               Data.sharpe_ratio := 1.8%float;
                               Data.max_drawdown := 0.05%float;
                               Data.win_rate := 0.62%float;
                               Data.total_trades := 1250%float |};
       Data.equity_curve :=
         Some [ Some {| Data.day := 1%float; Data.value := 100000%float |};
                Some {| Data.day := 2%float; Data.value := 100450%float |} ] |}).

Definition sample_request : Parsed Req.t :=
  Value {| Req.strategy := Some "order_book_imbalance"%string;
           Req.initialCapital := Some 100000%float;
           Req.startDate := Some "2024-01-01"%string;
           Req.endDate := Some "2024-01-31"%string |}.

(** C1, as amended.  Two invocations of the run handler on the same
    request, in any two worlds and against backends that give the same
    answer to it, end with the same status and the same error, or with
    results that agree on everything but the placeholder values of the
    trades: the same id, dates, capital and metrics, the same sequence of
    equity points, and trades with the same ids, entry times and exit
    times in the same order.  (The side, the prices, the quantity, the pnl
    and the return of a trade are drawn from [Math.random]; the handler's
    comment announces them as mock trades.) *)
Theorem POST_backtest_repeats_all_but_the_mock_values :
  forall (env : option string) (first second : Backend Data.t)
         (request : Parsed Req.t) (w1 w2 : World),
    (forall req, request = Value req ->
                 first (run_request env req) = second (run_request env req)) ->
    exists r1 r2 w1' w2',
      POST env first request w1 = (Return r1, w1')
      /\ POST env second request w2 = (Return r2, w2')
      /\ stable_part r1 = stable_part r2
      /\ Http.status r1 = Http.status r2
      /\ equity_of (Return r1) = equity_of (Return r2)
      /\ map fixed_part (trades_of (Return r1)) = map fixed_part (trades_of (Return r2)).
Proof.
  intros env first second request w1 w2 Hsame.
  pose proof (POST_stable_part_ignores_generator env first second request Hsame w1 w2) as H.
  destruct (POST_returns env first request w1) as (r1 & w1' & E1).
  destruct (POST_returns env second request w2) as (r2 & w2' & E2).
  rewrite E1, E2 in H. simpl in H.
  exists r1, r2, w1', w2'. split; [exact E1|]. split; [exact E2|]. split; [exact H|].
  destruct r1 as [s1 [e1|res1]], r2 as [s2 [e2|res2]];
    unfold stable_part in H; simpl in H; try discriminate H.
  - injection H as -> _. split; [reflexivity|]. split; reflexivity.
  - injection H as -> _ _ _ _ _ _ _ Heq Htr. simpl.
    split; [reflexivity|]. split; [exact Heq | exact Htr].
Qed.

Lemma POST_backtest_repeats_all_but_the_mock_values_witness :
  (forall req, sample_request = Value req ->
               sample_backend (run_request None req) = sample_backend (run_request None req))
  /\ equity_of (fst (POST None sample_backend sample_request quiet_world))
     = equity_of (fst (POST None sample_backend sample_request
                         (snd (POST None sample_backend sample_request quiet_world)))).
Proof.
  split; [reflexivity|].
  destruct (POST_backtest_repeats_all_but_the_mock_values None sample_backend
              sample_backend sample_request quiet_world
              (snd (POST None sample_backend sample_request quiet_world))
              (fun _ _ => eq_refl))
    as (r1 & r2 & w1' & w2' & E1 & E2 & _ & _ & Heq & _).
  rewrite E1 in E2 |- *. rewrite E2. exact Heq.
Defined.

(** C1, as stated, does not hold of the run handler.  Run twice on the same
    request against the same backend answer: the sides of the ten mock
    trades are drawn from [Math.random], the second invocation finds the
    generator where the first left it, and the two sequences of trades
    differ. *)
Lemma POST_backtest_twice_gives_different_trades :
  let first := POST None sample_backend sample_request quiet_world in
  let second := POST None sample_backend sample_request (snd first) in
  map Trade.side (trades_of (fst first))
  = ["short"; "long"; "long"; "short"; "long";
     "short"; "short"; "long"; "short"; "short"]%string
  /\ map Trade.side (trades_of (fst second))
     = ["long"; "short"; "long"; "long"; "short";
        "long"; "short"; "short"; "long"; "short"]%string
  /\ ~ (trades_of (fst first) = trades_of (fst second)
        /\ equity_of (fst first) = equity_of (fst second)).
Proof.
  cbv zeta.
  assert (H1 : map Trade.side
                 (trades_of (fst (POST None sample_backend sample_request quiet_world)))
               = ["short"; "long"; "long"; "short"; "long";
                  "short"; "short"; "long"; "short"; "short"]%string)
    by (vm_compute; reflexivity).
  assert (H2 : map Trade.side
                 (trades_of (fst (POST None sample_backend sample_request
                                    (snd (POST None sample_backend sample_request
                                            quiet_world)))))
               = ["long"; "short"; "long"; "long"; "short";
                  "long"; "short"; "short"; "long"; "short"]%string)
    by (vm_compute; reflexivity).
  split; [exact H1|]. split; [exact H2|].
  intros [E _]. rewrite E in H1. rewrite H1 in H2. discriminate H2.
Qed.

End BacktestRouteFacts.

(* ===================================================================== *)
(** * Properties of the components                                         *)
(* ===================================================================== *)

Section BacktestPanelFacts.
Import BacktestPanel.

(** The invariant of the panel: the slippage model is one of the values
    offered by the select element. *)
Definition offered (s : State) : Prop := In (slippageModel (config s)) slippage_options.

Lemma offered_initial : offered initial.
Proof. unfold offered. simpl. tauto. Qed.

Lemma picked_is_an_option (picked : nat) (v : string) :
  slippage_options !! picked = Some v -> In v slippage_options.
Proof. intros H. apply list_elem_of_In. eapply list_elem_of_lookup_2. exact H. Qed.

Lemma offered_step s a : offered s -> offered (step s a).
Proof.
  unfold offered. intros H.
  destruct a; simpl; try exact H.
  - destruct (strategy_options !! picked); [exact H | exact H].
  - destruct (slippage_options !! picked) as [v|] eqn:E; [|exact H].
    simpl. exact (picked_is_an_option picked v E).
  - unfold handleRunBacktest. destruct (isRunning s); exact H.
  - unfold tick. destruct (interval s); simpl; [|exact H].
    destruct (100 <=? progress s); exact H.
Qed.

Lemma offered_fold actions : forall s, offered s -> offered (fold_left step actions s).
Proof.
  induction actions as [|a rest IH]; intros s H; simpl; [exact H|].
  apply IH. now apply offered_step.
Qed.

Lemma offered_submitted actions :
  forall s c, offered s -> In c (submitted s actions) -> In (slippageModel c) slippage_options.
Proof.
  induction actions as [|a rest IH]; intros s c Hs Hin; simpl in Hin; [contradiction|].
  pose proof (offered_step s a Hs) as Hs'.
  destruct a; try (exact (IH _ c Hs' Hin)).
  destruct (isRunning s).
  - exact (IH _ c Hs' Hin).
  - destruct Hin as [<-|Hin]; [exact Hs | exact (IH _ c Hs' Hin)].
Qed.

(** C6.  The slippage model ranges over exactly three choices, [fixed],
    [linear] and [square_root]: these are the values the select offers,
    they are distinct, the configuration holds one of them after any
    sequence of user actions and timer ticks, every configuration a run is
    started with holds one of them, and each of the three can be
    submitted. *)
Theorem slippage_model_is_one_of_three :
  slippage_options = ["fixed"; "linear"; "square_root"]%string
  /\ NoDup slippage_options
  /\ (forall actions, In (slippageModel (config (after actions))) slippage_options)
  /\ (forall actions c,
         In c (submitted initial actions) -> In (slippageModel c) slippage_options)
  /\ (forall m, In m slippage_options ->
         exists actions c, In c (submitted initial actions) /\ slippageModel c = m).
Proof.
  split; [reflexivity|]. split.
  { unfold slippage_options. apply (bool_decide_unpack _). vm_compute. exact I. }
  split.
  { intros actions. apply (offered_fold actions initial offered_initial). }
  split.
  { intros actions c. apply offered_submitted. exact offered_initial. }
  intros m Hm. simpl in Hm.
  destruct Hm as [<-|[<-|[<-|[]]]].
  - exists [ChangeSlippageModel 0; ClickRun]. eexists. split; [left; reflexivity | reflexivity].
  - exists [ClickRun]. eexists. split; [left; reflexivity | reflexivity].
  - exists [ChangeSlippageModel 2; ClickRun]. eexists. split; [left; reflexivity | reflexivity].
Qed.

End BacktestPanelFacts.

Section OptimizationPanelFacts.
Import JS OptimizationPanel.

(** The running total of [reduce] after a prefix of the list is the
    product of the step counts of that prefix. *)
Lemma reduce_is_product (rest : list OptimizationParameter) :
  forall (seen : list OptimizationParameter),
    fold_left (fun total param => (total * steps param)%float) rest
      (product_of_steps (seen ++ rest) (length seen))
    = product_of_steps (seen ++ rest) (length (seen ++ rest)).
Proof.
  induction rest as [|p rest IH]; intros seen.
  - simpl. now rewrite app_nil_r.
  - simpl fold_left.
    assert (E : (product_of_steps (seen ++ p :: rest) (length seen) * steps p)%float
                = product_of_steps ((seen ++ [p]) ++ rest) (length (seen ++ [p]))).
    { rewrite <- app_assoc. simpl app. rewrite length_app. simpl length.
      replace (length seen + 1)%nat with (S (length seen)) by lia.
      simpl product_of_steps.
      rewrite list_lookup_middle by reflexivity. reflexivity. }
    rewrite E. rewrite IH. rewrite <- app_assoc. reflexivity.
Qed.

(** C9.  [calculateTotalCombinations] returns the product, over all the
    parameters in their order, of [floor((max - min) / step) + 1], and 1
    for the empty list. *)
Theorem calculateTotalCombinations_is_product :
  forall parameters : list OptimizationParameter,
    calculateTotalCombinations parameters
    = product_of_steps parameters (length parameters)
    /\ calculateTotalCombinations [] = 1%float
    /\ forall param,
        calculateTotalCombinations (parameters ++ [param])
        = (calculateTotalCombinations parameters
           * (Math_floor ((max param - min param) / step param) + 1))%float.
Proof.
  intros parameters. split; [|split].
  - exact (reduce_is_product parameters []).
  - reflexivity.
  - intros param. unfold calculateTotalCombinations.
    rewrite fold_left_app. reflexivity.
Qed.

(** The parameters the panel starts with span 10 * 16 * 10 * 10 points. *)
Example initial_parameters_combinations :
  map steps initial_parameters = [10; 16; 10; 10]%float
  /\ calculateTotalCombinations initial_parameters = 16000%float.
Proof. split; vm_compute; reflexivity. Qed.

End OptimizationPanelFacts.

Section StrategyLibraryFacts.
Import JS StrategyLibrary.

Lemma append_String a (p rest : string) :
  (String a p ++ rest)%string = String a (p ++ rest)%string.
Proof. reflexivity. Qed.

Lemma startsWith_iff p : forall s,
  startsWith p s = true <-> exists rest, s = (p ++ rest)%string.
Proof.
  induction p as [|a p IH]; intros s; simpl.
  - split; [intros _; now exists s | reflexivity].
  - destruct s as [|b s].
    + split; [discriminate | intros [rest E]; discriminate E].
    + destruct (Ascii.eqb_spec a b) as [->|Hne].
      * rewrite IH. split; intros [rest E]; exists rest.
        -- rewrite append_String. now rewrite E.
        -- rewrite append_String in E. now injection E.
      * split; [discriminate | intros [rest E]].
        rewrite append_String in E. injection E as E1 _. congruence.
Qed.

Lemma includes_iff p : forall s, includes s p = true <-> occurs_in p s.
Proof.
  induction s as [|c s IH].
  - simpl. destruct (startsWith p "") eqn:E.
    + split; [intros _ | reflexivity].
      apply startsWith_iff in E as [rest E]. now exists ""%string, rest.
    + split; [discriminate|]. intros (before & after_ & H).
      destruct before as [|c' before]; [|rewrite append_String in H; discriminate H].
      assert (startsWith p "" = true) by (apply startsWith_iff; now exists after_).
      congruence.
  - simpl. destruct (startsWith p (String c s)) eqn:E.
    + split; [intros _ | reflexivity].
      apply startsWith_iff in E as [rest E]. now exists ""%string, rest.
    + rewrite IH. split.
      * intros (before & after_ & ->). now exists (String c before), after_.
      * intros (before & after_ & H). destruct before as [|c' before].
        -- assert (startsWith p (String c s) = true)
             by (apply startsWith_iff; now exists after_).
           congruence.
        -- rewrite append_String in H. injection H as _ ->. now exists before, after_.
Qed.

Lemma includes_empty s : includes s "" = true.
Proof. destruct s; reflexivity. Qed.

Lemma matches_iff lower searchTerm selectedType strategy :
  matches_under lower searchTerm selectedType strategy = true
  <-> (contains_ignoring_case lower (name strategy) searchTerm
       \/ contains_ignoring_case lower (description strategy) searchTerm)
      /\ (selectedType = "all"%string \/ type strategy = selectedType).
Proof.
  unfold matches_under, contains_ignoring_case.
  rewrite andb_true_iff, !orb_true_iff, !includes_iff, !String.eqb_eq. tauto.
Qed.

Lemma toLowerCase_app (s t : string) :
  toLowerCase (s ++ t) = (toLowerCase s ++ toLowerCase t)%string.
Proof.
  induction s as [|c s IH]; [reflexivity|].
  rewrite !append_String. simpl toLowerCase. rewrite append_String, IH. reflexivity.
Qed.

(** Lowering works character by character: a lowered string splits where
    the string does. *)
Lemma toLowerCase_split (a : string) :
  forall s b, toLowerCase s = (a ++ b)%string ->
    exists s1 s2, s = (s1 ++ s2)%string /\ toLowerCase s1 = a /\ toLowerCase s2 = b.
Proof.
  induction a as [|c a IH]; intros s b H.
  - exists ""%string, s. auto.
  - rewrite append_String in H. destruct s as [|d s]; [discriminate H|].
    simpl in H. injection H as Hc H.
    destruct (IH s b H) as (s1 & s2 & -> & H1 & H2).
    exists (String d s1), s2. rewrite append_String. simpl. rewrite Hc, H1. auto.
Qed.

Lemma every_ascii (a : ascii) : In a (map ascii_of_nat (seq 0 256)).
Proof.
  rewrite <- (ascii_nat_embedding a). apply in_map, in_seq.
  pose proof (nat_ascii_bounded a). lia.
Qed.

(** Two characters are equal or the two forms of one letter exactly when
    they are lowered to the same character. *)
Lemma same_letter_lower (a b : ascii) :
  same_letter a b = Ascii.eqb (lower_ascii a) (lower_ascii b).
Proof.
  assert (H : forallb (fun x =>
                forallb (fun y => Bool.eqb (same_letter x y)
                                    (Ascii.eqb (lower_ascii x) (lower_ascii y)))
                        (map ascii_of_nat (seq 0 256)))
                (map ascii_of_nat (seq 0 256)) = true)
    by (vm_compute; reflexivity).
  rewrite forallb_forall in H. specialize (H a (every_ascii a)).
  rewrite forallb_forall in H. specialize (H b (every_ascii b)).
  now apply Bool.eqb_prop in H.
Qed.

Lemma same_letters_lower (s : string) :
  forall t, same_letters s t = true <-> toLowerCase s = toLowerCase t.
Proof.
  induction s as [|a s IH]; intros [|b t]; simpl.
  - tauto.
  - split; discriminate.
  - split; discriminate.
  - rewrite andb_true_iff, same_letter_lower, Ascii.eqb_eq, IH. split.
    + intros [-> ->]. reflexivity.
    + intros [= -> ->]. auto.
Qed.

(** The lowered term occurs in the lowered text exactly when the text
    holds the term up to the case of its letters. *)
Lemma occurs_lowered (term text : string) :
  occurs_in (toLowerCase term) (toLowerCase text)
  <-> exists before mid after_,
        text = (before ++ mid ++ after_)%string /\ same_letters mid term = true.
Proof.
  split.
  - intros (p & q & H).
    apply toLowerCase_split in H as (before & rest & -> & _ & H).
    apply toLowerCase_split in H as (mid & after_ & -> & H & _).
    exists before, mid, after_. split; [reflexivity|]. now apply same_letters_lower.
  - intros (before & mid & after_ & -> & H). apply same_letters_lower in H.
    exists (toLowerCase before), (toLowerCase after_).
    now rewrite !toLowerCase_app, H.
Qed.

Lemma ascii_only_empty_agrees (lower : string -> string) :
  (forall s, ascii_only s = true -> lower s = toLowerCase s) -> lower "" = ""%string.
Proof. intros H. now rewrite H. Qed.

(** C10.  Whatever the built-in [toLowerCase] does outside ASCII, as long
    as it lowers the strings of ASCII characters as [toLowerCase] here
    does: for every search term and type selection, the filter keeps
    exactly the strategies whose lowered name or description holds the
    lowered search term, and whose type is the selected one, or any type
    when [all] is selected; it keeps them in their order; with an empty
    search term and [all] it keeps every strategy.  For a search term and
    a text of ASCII characters, the lowered text holds the lowered term
    exactly when the text holds the term up to the case of its letters;
    the names and the descriptions of the component's strategies are such
    texts.  All this holds for the component's list and for any other. *)
Theorem filter_keeps_exactly_the_matching_strategies :
  forall (lower : string -> string),
    (forall s, ascii_only s = true -> lower s = toLowerCase s) ->
    forall (searchTerm selectedType : string) (all : list Strategy),
      (forall strategy,
          In strategy (filter_strategies_under lower searchTerm selectedType all)
          <-> In strategy all
              /\ (contains_ignoring_case lower (name strategy) searchTerm
                  \/ contains_ignoring_case lower (description strategy) searchTerm)
              /\ (selectedType = "all"%string \/ type strategy = selectedType))
      /\ sublist (filter_strategies_under lower searchTerm selectedType all) all
      /\ filter_strategies_under lower "" "all" all = all
      /\ (forall text,
            ascii_only searchTerm = true -> ascii_only text = true ->
            (contains_ignoring_case lower text searchTerm
             <-> exists before mid after_,
                   text = (before ++ mid ++ after_)%string
                   /\ same_letters mid searchTerm = true))
      /\ Forall (fun strategy => ascii_only (name strategy) = true
                                 /\ ascii_only (description strategy) = true)
                strategies
      /\ filteredStrategies_under lower searchTerm selectedType
         = filter_strategies_under lower searchTerm selectedType strategies.
Proof.
  intros lower Hlower searchTerm selectedType all.
  split; [|split; [|split; [|split; [|split]]]].
  - intros strategy. unfold filter_strategies_under.
    rewrite filter_In, matches_iff. reflexivity.
  - unfold filter_strategies_under. induction all as [|s all IH]; simpl.
    + constructor.
    + destruct (matches_under lower searchTerm selectedType s); now constructor.
  - unfold filter_strategies_under. induction all as [|s all IH]; simpl; [reflexivity|].
    unfold matches_under at 1. rewrite (ascii_only_empty_agrees lower Hlower).
    rewrite includes_empty. simpl. now rewrite IH.
  - intros text Hterm Htext. unfold contains_ignoring_case.
    rewrite (Hlower _ Hterm), (Hlower _ Htext). apply occurs_lowered.
  - unfold strategies.
    do 3 (constructor; [split; reflexivity|]). constructor.
  - reflexivity.
Qed.

(** The lowering that knows the letters of ASCII only is one such
    built-in. *)
Lemma filter_keeps_exactly_the_matching_strategies_witness :
  (forall s, ascii_only s = true -> toLowerCase s = toLowerCase s)
  /\ map id (filter_strategies_under toLowerCase "" "all" strategies)
     = ["1"; "2"; "3"]%string.
Proof.
  split; [reflexivity|].
  rewrite (proj1 (proj2 (proj2
             (filter_keeps_exactly_the_matching_strategies toLowerCase
                (fun s _ => eq_refl) "" "all" strategies)))).
  reflexivity.
Defined.

(** The search is blind to letter case, and the type narrows it. *)
Example filteredStrategies_search_bid :
  map id (filteredStrategies "BID" "all") = ["1"; "2"]%string
  /\ map id (filteredStrategies "bid" "mean_reversion") = ["2"]%string
  /\ map id (filteredStrategies "" "all") = ["1"; "2"; "3"]%string
  /\ map id (filteredStrategies "" "statistical_arbitrage") = [].
Proof. repeat split; vm_compute; reflexivity. Qed.

End StrategyLibraryFacts.

(* ===================================================================== *)
(** * Properties of the core                                               *)
(* ===================================================================== *)

Section OrderBookFacts.
Import Core.

Lemma crossed_false_iff b : crossed b = false <-> consistent b.
Proof.
  unfold crossed, consistent.
  destruct (best_bid b) as [bid|], (best_ask b) as [ask|].
  - rewrite Z.ltb_ge. split.
    + intros H ? ? [= <-] [= <-]. exact H.
    + intros H. now apply H.
  - split; [intros _ ? ? _ [=] | reflexivity].
  - split; [intros _ ? ? [=] | reflexivity].
  - split; [intros _ ? ? [=] | reflexivity].
Qed.

Lemma consistent_empty_book : consistent empty_book.
Proof. intros bid ask H. discriminate H. Qed.

(** The best bid is a level of the ladder, and no bid is priced above
    it. *)
Lemma best_bid_highest (l : list OrderBookLevel) x :
  best Z.gtb l = Some x ->
  In x l /\ forall y, In y l -> price y <= price x.
Proof.
  revert x. induction l as [|a l IH]; intros x H; [discriminate H|].
  simpl in H. injection H as <-. unfold pick.
  destruct (best Z.gtb l) as [y|] eqn:E.
  - destruct (IH y eq_refl) as [Hin Hmax].
    destruct (Z.gtb_spec (price y) (price a)) as [Hgt|Hle].
    + split; [now right|]. intros z [<-|Hz]; [lia | now apply Hmax].
    + split; [now left|]. intros z [<-|Hz]; [lia|].
      specialize (Hmax z Hz). lia.
  - split; [now left|]. intros z [<-|Hz]; [lia|].
    destruct l; [destruct Hz | discriminate E].
Qed.

(** The best ask is a level of the ladder, and no ask is priced below
    it. *)
Lemma best_ask_lowest (l : list OrderBookLevel) x :
  best Z.ltb l = Some x ->
  In x l /\ forall y, In y l -> price x <= price y.
Proof.
  revert x. induction l as [|a l IH]; intros x H; [discriminate H|].
  simpl in H. injection H as <-. unfold pick.
  destruct (best Z.ltb l) as [y|] eqn:E.
  - destruct (IH y eq_refl) as [Hin Hmin].
    destruct (Z.ltb_spec (price y) (price a)) as [Hlt|Hge].
    + split; [now right|]. intros z [<-|Hz]; [lia | now apply Hmin].
    + split; [now left|]. intros z [<-|Hz]; [lia|].
      specialize (Hmin z Hz). lia.
  - split; [now left|]. intros z [<-|Hz]; [lia|].
    destruct l; [destruct Hz | discriminate E].
Qed.

Lemma best_is_Some beats (l : list OrderBookLevel) y :
  In y l -> exists x, best beats l = Some x.
Proof. destruct l; [intros [] | intros _; simpl; eauto]. Qed.

(** No bid of the book is priced above an ask of the book. *)
Definition uncrossed (b : OrderBook) : Prop :=
  forall bid ask, In bid (bids b) -> In ask (asks b) -> price bid <= price ask.

(** The invariant on the two best levels is the invariant on all the
    levels, and so on the two levels at depth 0. *)
Lemma consistent_uncrossed b : consistent b <-> uncrossed b.
Proof.
  unfold consistent, uncrossed, best_bid, best_ask. split.
  - intros H bid ask Hbid Hask.
    destruct (best_is_Some Z.gtb _ _ Hbid) as [top Etop].
    destruct (best_is_Some Z.ltb _ _ Hask) as [low Elow].
    specialize (H top low Etop Elow).
    apply best_bid_highest in Etop as [_ Htop].
    apply best_ask_lowest in Elow as [_ Hlow].
    specialize (Htop bid Hbid). specialize (Hlow ask Hask). lia.
  - intros H bid ask Ebid Eask.
    apply best_bid_highest in Ebid as [Hbid _].
    apply best_ask_lowest in Eask as [Hask _].
    now apply H.
Qed.

Lemma apply_Success policy b e b' :
  Core.apply policy b e = Success b' -> requested b e = Some b' /\ consistent b'.
Proof.
  unfold Core.apply. intros H.
  destruct (requested b e) as [b1|]; [|discriminate H].
  destruct (crossed b1) eqn:E.
  - destruct policy; discriminate H.
  - injection H as ->. split; [reflexivity | now apply crossed_false_iff].
Qed.

Lemma apply_Fault policy b e f b' :
  Core.apply policy b e = Fault f b' -> b' = b.
Proof.
  unfold Core.apply. intros H.
  destruct (requested b e) as [b1|]; [|now injection H].
  destruct (crossed b1); [|discriminate H].
  destruct policy; [discriminate H | now injection H].
Qed.

(** Whatever [apply] hands back with a book, the book is consistent if
    the one it started from was. *)
Lemma apply_preserves_consistent policy b e :
  consistent b ->
  match Core.apply policy b e with
  | Success b' | Fault _ b' => consistent b'
  | Fatal _ => True
  end.
Proof.
  intros Hb. destruct (Core.apply policy b e) as [b'|f b'|f] eqn:E.
  - now apply apply_Success in E.
  - apply apply_Fault in E. now subst b'.
  - exact I.
Qed.

Lemma checkpoints_consistent policy events :
  forall b, consistent b -> Forall consistent (checkpoints policy b events).
Proof.
  induction events as [|e rest IH]; intros b Hb; simpl; [constructor|].
  pose proof (apply_preserves_consistent policy b e Hb) as H.
  destruct (Core.apply policy b e) as [b'|f b'|f]; constructor; auto.
Qed.

(** The events of a sequence that [apply] answers with a success, as the
    book goes along. *)
Fixpoint honoured (policy : ValidationPolicy) (b : OrderBook) (events : list Event)
  : list Event :=
  match events with
  | [] => []
  | e :: rest =>
      match Core.apply policy b e with
      | Success b' => e :: honoured policy b' rest
      | Fault _ b' => honoured policy b' rest
      | Fatal _ => []
      end
  end.

(** What an event asks for, carried out without any check. *)
Definition unchecked (b : OrderBook) (e : Event) : OrderBook :=
  default b (requested b e).

(** The last book observed is the one the honoured events ask for, one
    after the other: an event that is not honoured leaves no trace in the
    book, and an honoured one is carried out as it stands. *)
Lemma last_checkpoint_is_replay policy events :
  forall b,
    default b (last (checkpoints policy b events))
    = fold_left unchecked (honoured policy b events) b.
Proof.
  induction events as [|e rest IH]; intros b; simpl; [reflexivity|].
  destruct (Core.apply policy b e) as [b'|f b'|f] eqn:E; simpl.
  - rewrite last_cons.
    apply apply_Success in E as [E _]. unfold unchecked at 2. rewrite E. simpl.
    rewrite <- IH. now destruct (last (checkpoints policy b' rest)).
  - rewrite last_cons. apply apply_Fault in E. subst b'.
    rewrite <- IH. now destruct (last (checkpoints policy b rest)).
  - reflexivity.
Qed.

(** C2.  Starting from the empty book, the book observed after each
    applied event is consistent: when both sides are non-empty,
    [best_bid.price <= best_ask.price], and so no bid at any depth is
    priced above an ask at any depth.  A mutation that would cross the
    book is flagged with CrossedBookFault, fatally under Strict and with
    the prior book kept under Lenient.  Nothing is normalized: a book
    handed back with a success is the book the event asked for, a book
    handed back with a fault is the prior book, and the last book
    observed is what the honoured events ask for, carried out one after
    the other without any check.  In the loop a crossing event is counted,
    leaves the book as it was, and aborts the run under Strict. *)
Theorem book_is_never_crossed_after_apply :
  forall (policy : ValidationPolicy) (events : list Event),
    Forall (fun b => consistent b /\ uncrossed b) (checkpoints policy empty_book events)
    /\ (forall b e b',
           requested b e = Some b' -> crossed b' = true ->
           Core.apply policy b e
           = match policy with
             | Strict => Fatal CrossedBookFault
             | Lenient => Fault CrossedBookFault b
             end)
    /\ (forall b e b', Core.apply policy b e = Success b' ->
           requested b e = Some b' /\ consistent b')
    /\ (forall b e f b', Core.apply policy b e = Fault f b' -> b' = b)
    /\ default empty_book (last (checkpoints policy empty_book events))
       = fold_left unchecked (honoured policy empty_book events) empty_book
    /\ (forall strategy cadence fill cancel_seen cost_model (r : Run) e b',
           status r = Running -> cancel_seen (processed r) = false ->
           requested (book r) e = Some b' -> crossed b' = true ->
           let r' := step strategy cadence fill cancel_seen cost_model policy r (Accepted e) in
           crossed_books (counters r') = S (crossed_books (counters r))
           /\ book r' = book r
           /\ match policy with
              | Strict => status r' = Aborted
                          /\ reason r' = Some (IntegrityAbort CrossedBookFault)
              | Lenient => forall f, reason r' <> Some (IntegrityAbort f)
              end).
Proof.
  intros policy events.
  assert (Hflag : forall b e b',
             requested b e = Some b' -> crossed b' = true ->
             Core.apply policy b e
             = match policy with
               | Strict => Fatal CrossedBookFault
               | Lenient => Fault CrossedBookFault b
               end).
  { intros b e b' Hreq Hx. unfold Core.apply. rewrite Hreq, Hx. reflexivity. }
  split; [|split; [exact Hflag|split; [|split; [|split]]]].
  - eapply Forall_impl; [apply checkpoints_consistent, consistent_empty_book|].
    intros b Hb. split; [exact Hb | now apply consistent_uncrossed].
  - intros b e b'. apply apply_Success.
  - intros b e f b'. apply apply_Fault.
  - apply last_checkpoint_is_replay.
  - intros strategy cadence fill cancel_seen cost_model r e b' Hrun Hcancel Hreq Hx r'.
    subst r'. unfold step. rewrite Hrun, Hcancel, (Hflag _ _ _ Hreq Hx).
    destruct policy.
    + simpl. repeat split.
    + unfold consult. destruct (cadence e).
      * destruct (strategy (book r) (account r)) as [msg|[|q|q]]; simpl;
          repeat split; discriminate.
      * simpl. repeat split; discriminate.
Qed.

(** Scenario A: two adds and an update of the bid's size. *)
Example scenario_A :
  checkpoints Strict empty_book
    [ L2 1 BidSide Add 0 None 1700025 5;
      L2 2 AskSide Add 0 None 1700050 3;
      L2 3 BidSide Update 0 None 1700025 8 ]
  !! 2%nat
  = Some {| bids := [ {| price := 1700025; size := 8; market_maker := None |} ];
            asks := [ {| price := 1700050; size := 3; market_maker := None |} ];
            summary := empty_summary |}.
Proof. reflexivity. Qed.

(** An add that would cross the book: fatal under Strict, rolled back
    under Lenient. *)
Example crossing_add_is_flagged :
  let b := {| bids := [ {| price := 1700025; size := 5; market_maker := None |} ];
              asks := [ {| price := 1700050; size := 3; market_maker := None |} ];
              summary := empty_summary |} in
  Core.apply Strict b (L2 4 BidSide Add 0 None 1700100 1) = Fatal CrossedBookFault
  /\ Core.apply Lenient b (L2 4 BidSide Add 0 None 1700100 1) = Fault CrossedBookFault b.
Proof. split; reflexivity. Qed.

(** Scenario C.  The scenario does not name the book it starts from; here
    the bid rests at 17000.25 and the ask at 17001.25.  The Update of the
    bid to 17001.00 goes through; the Update of the ask to 17000.75 would
    cross the book: under Strict it is fatal, under Lenient it is dropped
    and the book stays as the first Update left it. *)
Example scenario_C :
  let b := {| bids := [ {| price := 1700025; size := 8; market_maker := None |} ];
              asks := [ {| price := 1700125; size := 3; market_maker := None |} ];
              summary := empty_summary |} in
  let b1 := {| bids := [ {| price := 1700100; size := 8; market_maker := None |} ];
               asks := [ {| price := 1700125; size := 3; market_maker := None |} ];
               summary := empty_summary |} in
  Core.apply Strict b (L2 5 BidSide Update 0 None 1700100 8) = Success b1
  /\ Core.apply Strict b1 (L2 6 AskSide Update 0 None 1700075 3) = Fatal CrossedBookFault
  /\ Core.apply Lenient b1 (L2 6 AskSide Update 0 None 1700075 3) = Fault CrossedBookFault b1
  /\ checkpoints Lenient b [ L2 5 BidSide Update 0 None 1700100 8;
                             L2 6 AskSide Update 0 None 1700075 3 ] = [b1; b1]
  /\ checkpoints Strict b [ L2 5 BidSide Update 0 None 1700100 8;
                            L2 6 AskSide Update 0 None 1700075 3 ] = [b1].
Proof. repeat split; reflexivity. Qed.

(** From the book of Scenario A, where the ask rests at 17000.50, the
    Update of the bid to 17001.00 is itself the crossing one. *)
Example scenario_C_after_A :
  let b := {| bids := [ {| price := 1700025; size := 8; market_maker := None |} ];
              asks := [ {| price := 1700050; size := 3; market_maker := None |} ];
              summary := empty_summary |} in
  Core.apply Strict b (L2 5 BidSide Update 0 None 1700100 8) = Fatal CrossedBookFault
  /\ Core.apply Lenient b (L2 5 BidSide Update 0 None 1700100 8) = Fault CrossedBookFault b.
Proof. split; reflexivity. Qed.

(** A bid deeper in the ladder that is priced above the ask crosses the
    book as well: the check is on prices, not on depth 0. *)
Example crossing_below_the_top_is_flagged :
  let b := {| bids := [ {| price := 1700025; size := 5; market_maker := None |} ];
              asks := [ {| price := 1700050; size := 3; market_maker := None |} ];
              summary := empty_summary |} in
  Core.apply Lenient b (L2 7 BidSide Add 1 None 1700100 1) = Fault CrossedBookFault b.
Proof. reflexivity. Qed.

(** C3.  An Update or a Remove whose depth holds no level leaves the book
    as it was and raises StaleUpdateFault, under either policy; the fault
    is not fatal: a running loop that is not cancelled records it, keeps
    the book, and is not aborted for an integrity or validation fault. *)
Theorem stale_update_or_remove_changes_nothing :
  forall (policy : ValidationPolicy) (b : OrderBook) (t : Z) (s : Side)
         (op : Operation) (d : nat) (mm : option string) (p v : Z),
    (op = Update \/ op = Remove) ->
    ladder s b !! d = None ->
    Core.apply policy b (L2 t s op d mm p v) = Fault StaleUpdateFault b
    /\ forall strategy cadence fill cancel_seen cost_model (r : Run),
        status r = Running -> book r = b -> cancel_seen (processed r) = false ->
        let r' := step strategy cadence fill cancel_seen cost_model policy r
                    (Accepted (L2 t s op d mm p v)) in
        book r' = b
        /\ stale_updates (counters r') = S (stale_updates (counters r))
        /\ (forall f, reason r' <> Some (IntegrityAbort f))
        /\ (forall f, reason r' <> Some (ValidationAbort f))
        /\ (status r' = Aborted -> exists msg, reason r' = Some (StrategyError msg)).
Proof.
  intros policy b t s op d mm p v Hop Hnone.
  assert (E : Core.apply policy b (L2 t s op d mm p v) = Fault StaleUpdateFault b).
  { unfold Core.apply, requested, mutate.
    destruct Hop as [-> | ->]; rewrite Hnone; reflexivity. }
  split; [exact E|].
  intros strategy cadence fill cancel_seen cost_model r Hrun Hbook Hcancel r'.
  subst r'. unfold step. rewrite Hrun, Hcancel, Hbook, E.
  unfold consult.
  destruct (cadence _); [|simpl; repeat split; try discriminate; reflexivity].
  destruct (strategy b (account r)) as [msg|[|q|q]]; simpl;
    repeat split; try discriminate; try reflexivity.
  intros _. now exists msg.
Qed.

(** Scenario B: a Remove at depth 2 of a book with one bid. *)
Definition one_bid : OrderBook :=
  {| bids := [ {| price := 1700025; size := 5; market_maker := None |} ];
     asks := []; summary := empty_summary |}.

Lemma stale_update_or_remove_changes_nothing_witness :
  (Remove = Update \/ Remove = Remove)
  /\ ladder BidSide one_bid !! 2%nat = None
  /\ Core.apply Lenient one_bid (L2 9 BidSide Remove 2 None 0 0)
     = Fault StaleUpdateFault one_bid.
Proof.
  split; [right; reflexivity|]. split; [reflexivity|].
  exact (proj1 (stale_update_or_remove_changes_nothing Lenient one_bid
           9 BidSide Remove 2 None 0 0 (or_intror eq_refl) eq_refl)).
Defined.

End OrderBookFacts.

Section MergerFacts.
Import Core.

















End MergerFacts.

Section LoopFacts.
Import Core.

Variable strategy : OrderBook -> Account -> string + Decision.
Variable cadence : Event -> bool.
Variable fill : CostModel -> OrderBook -> Z -> Decision -> Account -> Account.
Variable cancel_seen : nat -> bool.
Variable cost_model : CostModel.
Variable policy : ValidationPolicy.

(** The run after the first [k] records of the stream have been offered
    to it. *)
Definition after_records (stream : list Item) (capital : Z) (k : nat) : Run :=
  fold_left (step strategy cadence fill cancel_seen cost_model policy)
    (take k stream) (start capital).

(** What the record that aborts a running run [s] leaves in the result
    [r]: the account as it was, the reason the record gives, and the book,
    the counters and the number of records taken in.  A failure of the
    decoder or of the rollover selector, a validation fault under Strict
    and a fatal integrity fault stop the run before the record is taken
    in; the strategy fails after the event has been applied. *)
Definition aborted_by (it : Item) (s r : Run) : Prop :=
  account r = account s
  /\ match it with
     | Failed e =>
         reason r = Some (UpstreamFailure e)
         /\ book r = book s /\ counters r = counters s /\ processed r = processed s
     | Rejected f =>
         policy = Strict /\ reason r = Some (ValidationAbort f)
         /\ book r = book s /\ counters r = counters s /\ processed r = processed s
     | Accepted e =>
         match Core.apply policy (book s) e with
         | Fatal f =>
             reason r = Some (IntegrityAbort f)
             /\ book r = book s /\ counters r = count_fault f (counters s)
             /\ processed r = processed s
         | Success b =>
             cadence e = true
             /\ (exists msg, strategy b (account s) = inl msg
                             /\ reason r = Some (StrategyError msg))
             /\ book r = b /\ counters r = counters s
             /\ processed r = S (processed s)
         | Fault f b =>
             cadence e = true
             /\ (exists msg, strategy b (account s) = inl msg
                             /\ reason r = Some (StrategyError msg))
             /\ book r = b /\ counters r = count_fault f (counters s)
             /\ processed r = S (processed s)
         end
     end.

(** What a result carries when the run was cancelled before the record
    at position [k]. *)
Definition cancelled_at (k : nat) (s r : Run) : Prop :=
  cancel_seen k = true
  /\ account r = account s /\ counters r = counters s /\ book r = book s
  /\ processed r = k.

(** What holds of a run after [n] records have been offered to it. *)
Definition in_order (stream : list Item) (capital : Z) (n : nat) (r : Run) : Prop :=
  (status r = Running /\ reason r = None /\ processed r = n)
  \/ (status r = Aborted
      /\ exists k it,
           (k < n)%nat /\ stream !! k = Some it
           /\ status (after_records stream capital k) = Running
           /\ processed (after_records stream capital k) = k
           /\ cancel_seen k = false
           /\ aborted_by it (after_records stream capital k) r)
  \/ (status r = Cancelled /\ reason r = None
      /\ exists k,
           (k < n)%nat
           /\ status (after_records stream capital k) = Running
           /\ processed (after_records stream capital k) = k
           /\ cancelled_at k (after_records stream capital k) r).

Lemma after_records_S stream capital n it :
  stream !! n = Some it ->
  after_records stream capital (S n)
  = step strategy cadence fill cancel_seen cost_model policy
      (after_records stream capital n) it.
Proof.
  intros H. unfold after_records.
  rewrite (take_S_r _ _ _ H), fold_left_app. reflexivity.
Qed.

(** The strategy's turn leaves a running run, or a run aborted by the
    strategy with the event applied and the account as it was. *)
Lemma consult_outcome e b c (s : Run) :
  let r := consult strategy cadence fill cost_model e b c s in
  book r = b /\ counters r = c /\ processed r = S (processed s)
  /\ ((status r = Running /\ reason r = None)
      \/ (status r = Aborted /\ account r = account s /\ cadence e = true
          /\ exists msg, strategy b (account s) = inl msg
                         /\ reason r = Some (StrategyError msg))).
Proof.
  unfold consult. destruct (cadence e) eqn:Hc.
  - destruct (strategy b (account s)) as [msg|[|q|q]] eqn:Hs; simpl;
      (split; [reflexivity|]); (split; [reflexivity|]); (split; [reflexivity|]).
    + right. split; [reflexivity|]. split; [reflexivity|]. split; [reflexivity|].
      exists msg. split; reflexivity.
    + left. split; reflexivity.
    + left. split; reflexivity.
    + left. split; reflexivity.
  - simpl. split; [reflexivity|]. split; [reflexivity|]. split; [reflexivity|].
    left. split; reflexivity.
Qed.

Lemma in_order_step stream capital n it :
  stream !! n = Some it ->
  in_order stream capital n (after_records stream capital n) ->
  in_order stream capital (S n) (after_records stream capital (S n)).
Proof.
  intros Hit H. rewrite (after_records_S _ _ _ _ Hit).
  set (s := after_records stream capital n) in *.
  destruct H as [(Hs & Hr & Hk)|[(Hs & k & it' & Hlt & H)|(Hs & Hr & k & Hlt & H)]].
  - unfold step. rewrite Hs, Hk.
    destruct (cancel_seen n) eqn:Hcancel.
    { right. right. simpl. split; [reflexivity|]. split; [reflexivity|].
      exists n. split; [lia|]. split; [exact Hs|]. split; [exact Hk|].
      unfold cancelled_at. simpl. repeat split; auto. }
    destruct it as [e|f|e].
    + pose proof (consult_outcome e) as Hc.
      destruct (Core.apply policy (book s) e) as [b|f b|f] eqn:E.
      * destruct (Hc b (counters s) s) as (Hb & Hcn & Hp & [[Hst Hre]|(Hst & Ha & Hcad & Hmsg)]).
        -- left. split; [exact Hst|]. split; [exact Hre|]. rewrite Hp, Hk. reflexivity.
        -- right. left. split; [exact Hst|]. exists n, (Accepted e).
           split; [lia|]. split; [exact Hit|]. split; [exact Hs|]. split; [exact Hk|].
           split; [exact Hcancel|]. unfold aborted_by. fold s. rewrite E.
           split; [exact Ha|]. split; [exact Hcad|]. split; [exact Hmsg|]. repeat split; auto.
      * destruct (Hc b (count_fault f (counters s)) s)
          as (Hb & Hcn & Hp & [[Hst Hre]|(Hst & Ha & Hcad & Hmsg)]).
        -- left. split; [exact Hst|]. split; [exact Hre|]. rewrite Hp, Hk. reflexivity.
        -- right. left. split; [exact Hst|]. exists n, (Accepted e).
           split; [lia|]. split; [exact Hit|]. split; [exact Hs|]. split; [exact Hk|].
           split; [exact Hcancel|]. unfold aborted_by. fold s. rewrite E.
           split; [exact Ha|]. split; [exact Hcad|]. split; [exact Hmsg|]. repeat split; auto.
      * right. left. simpl. split; [reflexivity|]. exists n, (Accepted e).
        split; [lia|]. split; [exact Hit|]. split; [exact Hs|]. split; [exact Hk|].
        split; [exact Hcancel|]. unfold aborted_by. fold s. rewrite E. simpl. repeat split; auto.
    + destruct policy eqn:Hpol.
      * right. left. simpl. split; [reflexivity|]. exists n, (Rejected f).
        split; [lia|]. split; [exact Hit|]. split; [exact Hs|]. split; [exact Hk|].
        split; [exact Hcancel|]. unfold aborted_by. simpl. repeat split; auto.
      * left. simpl. split; [reflexivity|]. split; [reflexivity|]. reflexivity.
    + right. left. simpl. split; [reflexivity|]. exists n, (Failed e).
      split; [lia|]. split; [exact Hit|]. split; [exact Hs|]. split; [exact Hk|].
      split; [exact Hcancel|]. unfold aborted_by. simpl. repeat split; auto.
  - unfold step. rewrite Hs. right. left. split; [exact Hs|].
    exists k, it'. split; [lia | exact H].
  - unfold step. rewrite Hs. right. right. split; [exact Hs|]. split; [exact Hr|].
    exists k. split; [lia | exact H].
Qed.

Lemma in_order_after stream capital :
  forall n, (n <= length stream)%nat ->
    in_order stream capital n (after_records stream capital n).
Proof.
  induction n as [|n IH]; intros Hn.
  - left. unfold after_records. simpl. auto.
  - destruct (lookup_lt_is_Some_2 stream n) as [it Hit]; [lia|].
    apply (in_order_step _ _ _ it Hit). apply IH. lia.
Qed.

(** C5.  Every run ends in exactly one of three statuses, each of them a
    status the [backtest_runs] table accepts, and neither Idle nor
    Running.  Completed: no abort reason, every record of the stream taken
    in, and the account, the counters and the book reached after the last
    record (the full metrics).  Aborted: the reason given by the record
    that stopped the run, and the account reached by the records before
    it, with the book and the counters as that record left them (the
    partial metrics).  Cancelled: no abort reason, and the account, the
    counters and the book reached by the records before the one at which
    the cancellation was seen. *)
Theorem run_ends_completed_aborted_or_cancelled :
  forall (stream : list Item) (initial_capital : Z),
    let r := run strategy cadence fill cancel_seen cost_model policy stream initial_capital in
    let reached := after_records stream initial_capital in
    (status r <> Idle /\ status r <> Running)
    /\ Schema.valid_status (status_name (status r)) = true
    /\ ((status r = Completed /\ reason r = None /\ processed r = length stream
         /\ status (reached (length stream)) = Running
         /\ account r = account (reached (length stream))
         /\ counters r = counters (reached (length stream))
         /\ book r = book (reached (length stream)))
        \/ (status r = Aborted
            /\ exists k it,
                 stream !! k = Some it
                 /\ status (reached k) = Running /\ processed (reached k) = k
                 /\ cancel_seen k = false
                 /\ aborted_by it (reached k) r)
        \/ (status r = Cancelled /\ reason r = None
            /\ exists k,
                 (k < length stream)%nat
                 /\ status (reached k) = Running /\ processed (reached k) = k
                 /\ cancelled_at k (reached k) r)).
Proof.
  intros stream capital. cbv zeta.
  assert (E : run strategy cadence fill cancel_seen cost_model policy stream capital
              = finish (after_records stream capital (length stream))).
  { unfold run, after_records. now rewrite firstn_all. }
  rewrite E.
  pose proof (in_order_after stream capital (length stream) (le_n _)) as H.
  set (s := after_records stream capital (length stream)) in *.
  unfold finish.
  destruct H as [(Hs & Hr & Hk)|[(Hs & k & it & Hlt & Hit & H)|(Hs & Hr & k & Hlt & H)]];
    rewrite Hs.
  - simpl. split; [split; discriminate|]. split; [reflexivity|].
    left. split; [reflexivity|]. split; [reflexivity|]. split; [exact Hk|].
    split; [reflexivity|]. split; [reflexivity|]. split; reflexivity.
  - rewrite Hs. split; [split; discriminate|]. split; [reflexivity|].
    right. left. split; [reflexivity|]. exists k, it. split; [exact Hit | exact H].
  - rewrite Hs. split; [split; discriminate|]. split; [reflexivity|].
    right. right. split; [reflexivity|]. split; [exact Hr|].
    exists k. split; [exact Hlt | exact H].
Qed.

End LoopFacts.

Section LoopExamples.
Import Core.

(** A strategy that buys one contract at every trade print and fails when
    the book has no ask. *)
Definition buy_on_print (b : OrderBook) (a : Account) : string + Decision :=
  match best_ask b with
  | Some _ => inr (Buy 1)
  | None => inl "no ask"%string
  end.

Definition on_last (e : Event) : bool :=
  match e with
  | L1 _ Last _ _ => true
  | _ => false
  end.

Definition no_fill (c : CostModel) (b : OrderBook) (t : Z) (d : Decision) (a : Account)
  : Account := a.

Definition flat_cost : CostModel :=
  {| slippage_model := LinearSlippage; slippage_value := 1; commission_per_contract := 62 |}.

(** A completed run, a run aborted by a validation fault under Strict, a
    run aborted by the strategy, and a cancelled run. *)
Example run_statuses :
  let go := run buy_on_print on_last no_fill in
  let quotes := [ Accepted (L2 1 AskSide Add 0 None 1700050 3);
                  Accepted (L1 2 Last 1700050 1) ] in
  status (go (fun _ => false) flat_cost Lenient quotes 100000) = Completed
  /\ status (go (fun _ => false) flat_cost Strict (Rejected NegativeVolume :: quotes) 100000)
     = Aborted
  /\ status (go (fun _ => false) flat_cost Lenient (Rejected NegativeVolume :: quotes) 100000)
     = Completed
  /\ reason (go (fun _ => false) flat_cost Lenient [Accepted (L1 2 Last 1700050 1)] 100000)
     = Some (StrategyError "no ask")
  /\ status (go (fun n => (1 <=? n)%nat) flat_cost Lenient quotes 100000) = Cancelled.
Proof. repeat split; reflexivity. Qed.

End LoopExamples.

(* ===================================================================== *)
(** * Further properties of the strategies route                           *)
(* ===================================================================== *)

(** One step of evaluation of a handler: the monad, [fetch] and the
    parsing helpers are unfolded, nothing else. *)
Ltac run_handler :=
  cbv beta iota zeta delta [try_catch bind fetch ret throw json_object defined
                            console_error fst snd negb].

Section HttpFacts.
Import JS Http.




(** A body is seen as a value exactly when it is a JSON value other than
    [null]. *)
Lemma read_Value {A} (view : Json -> A) (body : Parsed Json) (a : A) :
  read view body = Value a
  <-> exists j, body = Value j /\ j <> JNull /\ a = view j.
Proof.
  destruct body as [| |[|b|x|s|items|fields]]; simpl;
    (split; [intros [= <-] | intros (j & [= <-] & Hj & ->)]);
    try (eexists; split; [reflexivity|]; split; [discriminate | reflexivity]);
    try reflexivity; try discriminate.
  now contradiction Hj.
Qed.

Lemma read_not_Value {A} (view : Json -> A) (body : Parsed Json) :
  body = Malformed \/ body = Null \/ body = Value JNull
  <-> read view body = Malformed \/ read view body = Null.
Proof.
  split.
  - intros [->|[->| ->]]; simpl; auto.
  - destruct body as [| |[|b|x|s|items|fields]]; simpl; auto;
      intros [H|H]; discriminate H.
Qed.

Lemma reading_Value {A} (view : Json -> A) (backend : Backend Json) req st (a : A) :
  reading view backend req = Responded st (Value a)
  <-> exists j, backend req = Responded st (Value j) /\ j <> JNull /\ a = view j.
Proof.
  unfold reading. destruct (backend req) as [|st' body].
  - split; [discriminate | intros (j & [=] & _)].
  - split.
    + intros [= -> H]. apply read_Value in H as (j & -> & Hj & ->). now exists j.
    + intros (j & [= -> ->] & Hj & ->). f_equal. apply read_Value. now exists j.
Qed.

End HttpFacts.

Section StrategiesHandlers.
Import JS Http Runtime StrategiesRoute.

(** The request the listing handler sends. *)
Definition strategies_request (env : option string) : Request :=
  {| url := BACKEND_URL env ++ "/api/strategies"; method := "GET"; payload := None |}.

(** The callback of [data.map] goes through when no element is [null],
    and throws otherwise; it leaves the world alone. *)
Lemma map_items_run items w :
  (exists rows, items = map Some rows
                /\ map_items items w = (Return (map transform rows), w))
  \/ (In None items /\ exists e, map_items items w = (Throw e, w)).
Proof.
  induction items as [|[row|] rest IH]; simpl.
  - left. now exists [].
  - destruct IH as [(rows & -> & E)|(Hin & e & E)].
    + left. exists (row :: rows). split; [reflexivity|].
      unfold bind. now rewrite E.
    + right. split; [now right|]. exists e. unfold bind. now rewrite E.
  - right. split; [now left|]. eexists. reflexivity.
Qed.

Lemma map_Some_no_None {A} (rows : list A) : ~ In None (map Some rows).
Proof. induction rows as [|r rows IH]; simpl; [tauto|]. intros [H|H]; [discriminate H | tauto]. Qed.

(** X1.  The listing handler always returns, after exactly one request.  It
    answers 200 exactly when the backend answered with an ok status and an
    array without [null] elements, and then with the backend's strategies
    in their order, each with its properties renamed; in every other case
    it answers 500 with the error [Failed to fetch strategies] and logs
    the failure. *)
Theorem GET_strategies_outcome :
  forall (env : option string) (backend : Backend Listing) (w : World),
  exists (r : Response Reply) (w' : World),
    GET env backend w = (Return r, w')
    /\ sent w' = strategies_request env :: sent w
    /\ (status r = 200
        <-> exists st rows,
              backend (strategies_request env) = Responded st (Value (Items (map Some rows)))
              /\ ok st = true)
    /\ (forall st rows,
          backend (strategies_request env) = Responded st (Value (Items (map Some rows))) ->
          ok st = true ->
          body r = Many (map transform rows) /\ console w' = console w)
    /\ (status r <> 200 ->
        status r = 500
        /\ body r = Failure "Failed to fetch strategies"
        /\ console w' = "Failed to fetch strategies:"%string :: console w).
Proof.
  intros env backend w. unfold GET. fold (strategies_request env). run_handler.
  destruct (backend (strategies_request env)) as [|st b] eqn:Hb; run_handler.
  { eexists _, _. split; [reflexivity|]. simpl. split; [reflexivity|].
    split; [split; [discriminate | intros (? & ? & [=] & _)]|].
    split; [intros ? ? [=] | intros _; repeat split]. }
  destruct (ok st) eqn:Hok; run_handler.
  2:{ eexists _, _. split; [reflexivity|]. simpl. split; [reflexivity|].
      split; [split; [discriminate | intros (? & ? & [= <- _] & Hok'); congruence]|].
      split; [intros ? ? [= <- _] Hok'; congruence | intros _; repeat split]. }
  destruct b as [| |[|items]]; run_handler.
  1-3: eexists _, _; (split; [reflexivity|]); simpl; (split; [reflexivity|]);
       (split; [split; [discriminate | intros (? & ? & [=] & _)]|]);
       (split; [intros ? ? [=] | intros _; repeat split]).
  match goal with |- context [map_items items ?w0] =>
    destruct (map_items_run items w0) as [(rows & -> & E)|(Hin & e & E)]; rewrite E
  end; run_handler.
  - eexists _, _. split; [reflexivity|]. simpl. split; [reflexivity|].
    split; [split; [intros _; now exists st, rows | reflexivity]|].
    split.
    + intros st' rows' [= _ Hrows] _.
      assert (rows' = rows) as ->.
      { clear -Hrows. revert rows' Hrows.
        induction rows as [|r rows IH]; intros [|r' rows'] H; simpl in H;
          try discriminate H; [reflexivity|].
        injection H as -> H. f_equal. now apply IH. }
      split; reflexivity.
    + intros H. now contradiction H.
  - eexists _, _. split; [reflexivity|]. simpl. split; [reflexivity|].
    split.
    { split; [discriminate|]. intros (st' & rows & [= _ ->] & _).
      exfalso. exact (map_Some_no_None rows Hin). }
    split; [|intros _; repeat split].
    intros st' rows [= _ ->] _. exfalso. exact (map_Some_no_None rows Hin).
Qed.

(** The request the creating handler sends for a body. *)
Definition create_request (env : option string) (body : Draft.t) : Request :=
  {| url := BACKEND_URL env ++ "/api/strategies"; method := "POST";
     payload := Some (draft_body body) |}.

(** The ways the creating handler ends, for a body and a backend seen
    through the properties the handler reads. *)
Lemma POST_strategy_cases :
  forall (env : option string) (backend : Backend Wire.t)
         (request : Parsed Draft.t) (w : World),
  exists (r : Response Reply) (w' : World),
    POST env backend request w = (Return r, w')
    /\ sent w' = match request with
                 | Value body => create_request env body :: sent w
                 | _ => sent w
                 end
    /\ (status r = 200
        <-> exists draft st row,
              request = Value draft
              /\ backend (create_request env draft) = Responded st (Value row)
              /\ ok st = true)
    /\ (forall draft st row,
          request = Value draft ->
          backend (create_request env draft) = Responded st (Value row) ->
          ok st = true ->
          body r = One (transform row) /\ console w' = console w)
    /\ (status r <> 200 ->
        status r = 500
        /\ body r = Failure "Failed to create strategy"
        /\ console w' = "Failed to create strategy:"%string :: console w).
Proof.
  intros env backend request w. unfold POST.
  destruct request as [| |draft]; run_handler.
  1-2: eexists _, _; (split; [reflexivity|]); simpl; (split; [reflexivity|]);
       (split; [split; [discriminate | intros (? & ? & ? & [=] & _)]|]);
       (split; [intros ? ? ? [=] | intros _; repeat split]).
  fold (create_request env draft).
  destruct (backend (create_request env draft)) as [|st b] eqn:Hb; run_handler.
  { eexists _, _. split; [reflexivity|]. simpl. split; [reflexivity|].
    split; [split; [discriminate | intros (? & ? & ? & [= <-] & E & _); congruence]|].
    split; [intros ? ? ? [= <-] E; congruence | intros _; repeat split]. }
  destruct (ok st) eqn:Hok; run_handler.
  2:{ eexists _, _. split; [reflexivity|]. simpl. split; [reflexivity|].
      split; [split; [discriminate
                     | intros (? & ? & ? & [= <-] & E & Hok'); congruence]|].
      split; [intros ? ? ? [= <-] E Hok'; congruence | intros _; repeat split]. }
  destruct b as [| |row]; run_handler.
  1-2: eexists _, _; (split; [reflexivity|]); simpl; (split; [reflexivity|]);
       (split; [split; [discriminate
                       | intros (? & ? & ? & [= <-] & E & _); congruence]|]);
       (split; [intros ? ? ? [= <-] E; congruence | intros _; repeat split]).
  eexists _, _. split; [reflexivity|]. simpl. split; [reflexivity|].
  split; [split; [intros _; now exists draft, st, row | reflexivity]|].
  split; [|intros H; now contradiction H].
  intros ? ? ? [= <-] E _. rewrite Hb in E. injection E as _ <-. now split.
Qed.

(** X2.  The creating handler always returns, for every request body and
    every answer of the backend.  A body that is no JSON, or is [null], is
    answered 500 without any request.  Any other body leads to exactly one
    request; that holds for an object and also for a string, a number, a
    boolean or an array, whose properties all read as [undefined].  The
    answer is 200, with the properties of the backend's answer renamed,
    exactly when the backend answers with an ok status and a JSON value
    other than [null]; in every other case it is 500 with [Failed to
    create strategy], and the failure is logged. *)
Theorem POST_strategy_outcome :
  forall (env : option string) (backend : Backend Json)
         (request : Parsed Json) (w : World),
  exists (r : Response Reply) (w' : World),
    POST env (reading Wire.of_json backend) (read Draft.of_json request) w = (Return r, w')
    /\ (request = Malformed \/ request = Null \/ request = Value JNull ->
        sent w' = sent w /\ status r = 500)
    /\ (forall posted, request = Value posted -> posted <> JNull ->
        sent w' = create_request env (Draft.of_json posted) :: sent w)
    /\ (status r = 200
        <-> exists posted st answer,
              request = Value posted /\ posted <> JNull
              /\ backend (create_request env (Draft.of_json posted))
                 = Responded st (Value answer)
              /\ answer <> JNull
              /\ ok st = true)
    /\ (forall posted st answer,
          request = Value posted -> posted <> JNull ->
          backend (create_request env (Draft.of_json posted))
          = Responded st (Value answer) ->
          answer <> JNull ->
          ok st = true ->
          body r = One (transform (Wire.of_json answer)) /\ console w' = console w)
    /\ (status r <> 200 ->
        status r = 500
        /\ body r = Failure "Failed to create strategy"
        /\ console w' = "Failed to create strategy:"%string :: console w).
Proof.
  intros env backend request w.
  destruct (POST_strategy_cases env (reading Wire.of_json backend)
              (read Draft.of_json request) w)
    as (r & w' & E & Hsent & H200 & Hbody & Hfail).
  exists r, w'. split; [exact E|].
  split; [|split; [|split; [|split]]].
  - intros Hbad. apply (read_not_Value Draft.of_json) in Hbad.
    assert (Hs : sent w' = sent w)
      by (destruct Hbad as [Hr|Hr]; rewrite Hr in Hsent; exact Hsent).
    split; [exact Hs|].
    assert (Hne : status r <> 200).
    { intros H. apply H200 in H as (draft & st & row & Hd & _).
      destruct Hbad as [Hr|Hr]; rewrite Hr in Hd; discriminate Hd. }
    exact (proj1 (Hfail Hne)).
  - intros posted -> Hp.
    assert (Hr : read Draft.of_json (Value posted) = Value (Draft.of_json posted))
      by (apply read_Value; now exists posted).
    rewrite Hr in Hsent. exact Hsent.
  - rewrite H200. split.
    + intros (draft & st & row & Hd & Hb & Hok).
      apply read_Value in Hd as (posted & -> & Hp & ->).
      apply reading_Value in Hb as (answer & Hb & Ha & ->).
      now exists posted, st, answer.
    + intros (posted & st & answer & -> & Hp & Hb & Ha & Hok).
      exists (Draft.of_json posted), st, (Wire.of_json answer).
      split; [apply read_Value; now exists posted|].
      split; [apply reading_Value; now exists answer | exact Hok].
  - intros posted st answer -> Hp Hb Ha Hok.
    apply (Hbody (Draft.of_json posted) st (Wire.of_json answer)).
    + apply read_Value. now exists posted.
    + apply reading_Value. now exists answer.
    + exact Hok.
  - exact Hfail.
Qed.

(** A JSON string as the request body: the request goes out all the same,
    with the defaults and nothing else. *)
Example POST_strategy_with_a_string_body :
  sent (snd (POST None (reading Wire.of_json (fun _ => Responded 201 (Value (JObj []))))
               (read Draft.of_json (Value (JStr "momentum"))) quiet_world))
  = [ {| url := "http://localhost:8001/api/strategies"; method := "POST";
         payload := Some (JObj [ ("status", JStr "draft");
                                 ("parameters", JObj []) ]%string) |} ]
  /\ status (match fst (POST None (reading Wire.of_json
                                     (fun _ => Responded 201 (Value (JObj []))))
                          (read Draft.of_json (Value (JStr "momentum"))) quiet_world) with
             | Return r => r
             | Throw _ => json_status (Failure "") 0
             end) = 200.
Proof. split; reflexivity. Qed.




(** A status of 1e400: the object holds Infinity, the backend reads
    [null]. *)
Example infinite_status_is_sent_as_null :
  let draft := {| Draft.name := None; Draft.description := None; Draft.type := None;
                  Draft.status := Some (JNum infinity); Draft.parameters := None |} in
  field "status" (draft_body draft) = Some (JNum infinity)
  /\ field "status" (stringified (draft_body draft)) = Some JNull.
Proof. split; reflexivity. Qed.

(** The request the updating handler sends for a body. *)
Definition edit_request (env : option string) (edit : Edit.t) : Request :=
  {| url := BACKEND_URL env ++ "/api/strategies/" ++ interpolate (Edit.id edit);
     method := "PUT"; payload := Some (edit_body edit) |}.

(** X4.  The updating handler does not look at the identifier: a body without
    [id] is not rejected, its request goes to [/api/strategies/undefined];
    and unlike the creating handler it sends no default status. *)
Theorem PUT_without_id_is_sent_to_undefined :
  forall (env : option string) (backend : Backend Wire.t) (edit : Edit.t) (w : World),
    Edit.id edit = None ->
    sent (snd (PUT env backend (Value edit) w))
    = {| url := BACKEND_URL env ++ "/api/strategies/undefined"; method := "PUT";
         payload := Some (edit_body edit) |} :: sent w
    /\ (Edit.status edit = None -> field "status" (edit_body edit) = None).
Proof.
  intros env backend edit w Hid. split.
  - unfold PUT. run_handler. rewrite Hid. simpl interpolate.
    destruct (backend _) as [|st b]; run_handler; [reflexivity|].
    destruct (ok st); run_handler; [|reflexivity].
    destruct b; reflexivity.
  - destruct edit as [i n d t s sh wr tt pa]. simpl. intros ->.
    destruct n, d, t, sh, wr, tt, pa; reflexivity.
Qed.

Definition unnamed_edit : Edit.t :=
  {| Edit.id := None; Edit.name := Some (JStr "Momentum Breakout");
     Edit.description := None; Edit.type := Some (JStr "momentum");
     Edit.status := None; Edit.sharpe := None; Edit.winRate := None;
     Edit.totalTrades := None; Edit.parameters := None |}.

Lemma PUT_without_id_is_sent_to_undefined_witness :
  Edit.id unnamed_edit = None
  /\ map url (sent (snd (PUT None (fun _ => Responded 404 Null) (Value unnamed_edit)
                           quiet_world)))
     = ["http://localhost:8001/api/strategies/undefined"%string].
Proof.
  split; [reflexivity|].
  rewrite (proj1 (PUT_without_id_is_sent_to_undefined None (fun _ => Responded 404 Null)
                    unnamed_edit quiet_world eq_refl)).
  reflexivity.
Defined.

(** The backend keeps what it is sent: each property of the row it
    answers with is the property of that name in the payload. *)
Definition echoes (payload : Json) (row : Wire.t) : Prop :=
  Wire.name row = field "name" payload
  /\ Wire.description row = field "description" payload
  /\ Wire.strategy_type row = field "strategy_type" payload
  /\ Wire.status row = field "status" payload
  /\ Wire.sharpe row = field "sharpe" payload
  /\ Wire.win_rate row = field "win_rate" payload
  /\ Wire.total_trades row = field "total_trades" payload
  /\ Wire.parameters row = field "parameters" payload.

Lemma edit_body_fields edit :
  field "name" (edit_body edit) = Edit.name edit
  /\ field "description" (edit_body edit) = Edit.description edit
  /\ field "strategy_type" (edit_body edit) = Edit.type edit
  /\ field "status" (edit_body edit) = Edit.status edit
  /\ field "sharpe" (edit_body edit) = Edit.sharpe edit
  /\ field "win_rate" (edit_body edit) = Edit.winRate edit
  /\ field "total_trades" (edit_body edit) = Edit.totalTrades edit
  /\ field "parameters" (edit_body edit) = Edit.parameters edit.
Proof.
  destruct edit as [i n d t s sh wr tt pa].
  destruct n, d, t, s, sh, wr, tt, pa; repeat split; reflexivity.
Qed.

(** X5.  The two renamings of the updating handler undo each other: when the
    backend answers ok with the row it was sent, the strategy handed back
    has the name, description, type, status, sharpe, win rate, trade count
    and parameters of the request, and the backend's identifier and
    modification time. *)
Theorem PUT_round_trip :
  forall (env : option string) (backend : Backend Wire.t) (edit : Edit.t)
         (st : Z) (row : Wire.t) (w : World),
    backend (edit_request env edit) = Responded st (Value row) ->
    ok st = true ->
    echoes (edit_body edit) row ->
    exists w',
      PUT env backend (Value edit) w
      = (Return {| status := 200;
                   body := One {| Strategy.id := Wire.id row;
                                  Strategy.name := Edit.name edit;
                                  Strategy.description := Edit.description edit;
                                  Strategy.type := Edit.type edit;
                                  Strategy.status := Edit.status edit;
                                  Strategy.sharpe := Edit.sharpe edit;
                                  Strategy.winRate := Edit.winRate edit;
                                  Strategy.totalTrades := Edit.totalTrades edit;
                                  Strategy.lastModified := Wire.last_modified row;
                                  Strategy.parameters := Edit.parameters edit |} |}, w')
      /\ sent w' = edit_request env edit :: sent w.
Proof.
  intros env backend edit st row w Hb Hok Hecho.
  unfold PUT. run_handler. fold (edit_request env edit). rewrite Hb. run_handler.
  rewrite Hok. run_handler.
  eexists. split.
  - unfold json, transform.
    destruct (edit_body_fields edit) as (E1 & E2 & E3 & E4 & E5 & E6 & E7 & E8).
    destruct Hecho as (H1 & H2 & H3 & H4 & H5 & H6 & H7 & H8).
    rewrite H1, H2, H3, H4, H5, H6, H7, H8, E1, E2, E3, E4, E5, E6, E7, E8.
    reflexivity.
  - reflexivity.
Qed.

Definition full_edit : Edit.t :=
  {| Edit.id := Some "3"%string; Edit.name := Some (JStr "Momentum Breakout");
     Edit.description := Some (JStr "Captures breakouts with volume confirmation");
     Edit.type := Some (JStr "momentum"); Edit.status := Some (JStr "active");
     Edit.sharpe := Some (JNum 1.2%float); Edit.winRate := Some (JNum 0.55%float);
     Edit.totalTrades := Some (JNum 410%float); Edit.parameters := Some (JObj []) |}.

(** A backend that stores the payload under the identifier of the URL. *)
Definition storing_backend : Backend Wire.t :=
  fun req =>
    match payload req with
    | Some p =>
        Responded 200 (Value
          {| Wire.id := Some (JStr "3"); Wire.name := field "name" p;
             Wire.description := field "description" p;
             Wire.strategy_type := field "strategy_type" p;
             Wire.status := field "status" p; Wire.sharpe := field "sharpe" p;
             Wire.win_rate := field "win_rate" p;
             Wire.total_trades := field "total_trades" p;
             Wire.last_modified := Some (JStr "2024-01-16T08:00:00Z");
             Wire.parameters := field "parameters" p |})
    | None => Responded 400 Null
    end.

Lemma PUT_round_trip_witness :
  exists w',
    PUT None storing_backend (Value full_edit) quiet_world
    = (Return {| status := 200;
                 body := One {| Strategy.id := Some (JStr "3");
                                Strategy.name := Edit.name full_edit;
                                Strategy.description := Edit.description full_edit;
                                Strategy.type := Edit.type full_edit;
                                Strategy.status := Edit.status full_edit;
                                Strategy.sharpe := Edit.sharpe full_edit;
                                Strategy.winRate := Edit.winRate full_edit;
                                Strategy.totalTrades := Edit.totalTrades full_edit;
                                Strategy.lastModified := Some (JStr "2024-01-16T08:00:00Z");
                                Strategy.parameters := Edit.parameters full_edit |} |}, w')
    /\ sent w' = edit_request None full_edit :: sent quiet_world.
Proof.
  refine (PUT_round_trip None storing_backend full_edit 200 _ quiet_world eq_refl eq_refl _).
  repeat split.
Defined.

(** The request the deleting handler sends for an identifier. *)
Definition delete_request (env : option string) (id : string) : Request :=
  {| url := BACKEND_URL env ++ "/api/strategies/" ++ id; method := "DELETE";
     payload := None |}.

(** X6.  With a non-empty [id] the deleting handler sends exactly one DELETE
    request for that identifier and always returns: [{ success: true }]
    with status 200 exactly when the backend answered with a status in
    200-299 (the handler's extra test for 204 changes nothing, and the
    backend's body is not read), and 500 with [Failed to delete strategy]
    otherwise. *)
Theorem DELETE_with_id_outcome :
  forall (env : option string) (backend : Backend unit)
         (searchParams : list (string * string)) (id : string) (w : World),
    searchParams_get "id" searchParams = Some id ->
    id <> ""%string ->
    exists (r : Response Body) (w' : World),
      DELETE env backend searchParams w = (Return r, w')
      /\ sent w' = delete_request env id :: sent w
      /\ ((exists st b, backend (delete_request env id) = Responded st b /\ ok st = true)
          -> r = {| status := 200; body := SuccessBody true |} /\ console w' = console w)
      /\ (~ (exists st b, backend (delete_request env id) = Responded st b /\ ok st = true)
          -> r = {| status := 500; body := ErrorBody "Failed to delete strategy" |}
             /\ console w' = "Failed to delete strategy:"%string :: console w).
Proof.
  intros env backend searchParams id w Hget Hne.
  unfold DELETE. rewrite Hget.
  destruct id as [|c id]; [now contradiction Hne|].
  run_handler. fold (delete_request env (String c id)).
  destruct (backend (delete_request env (String c id))) as [|st b] eqn:Hb; run_handler.
  { eexists _, _. split; [reflexivity|]. simpl. split; [reflexivity|].
    split; [intros (? & ? & [=] & _) | intros _; now split]. }
  assert (E : (if ok st then false else true) && (if st =? 204 then false else true)
              = (if ok st then false else true)).
  { unfold ok. destruct (Z.eqb_spec st 204) as [->|]; [reflexivity|].
    now rewrite andb_true_r. }
  change (andb (if ok st then false else true) (if st =? 204 then false else true))
    with ((if ok st then false else true) && (if st =? 204 then false else true)).
  rewrite E. destruct (ok st) eqn:Hok; run_handler.
  - eexists _, _. split; [reflexivity|]. simpl. split; [reflexivity|].
    split; [intros _; now split|].
    intros H. exfalso. apply H. now exists st, b.
  - eexists _, _. split; [reflexivity|]. simpl. split; [reflexivity|].
    split; [intros (? & ? & [= <- _] & Hok'); congruence | intros _; now split].
Qed.

Lemma DELETE_with_id_outcome_witness :
  StrategiesRoute.searchParams_get "id" [("id", "42")%string] = Some "42"%string
  /\ "42"%string <> ""%string
  /\ exists (r : Response Body) (w' : World),
      DELETE None (fun _ => Responded 204 Null) [("id", "42")%string] quiet_world
      = (Return r, w')
      /\ r = {| status := 200; body := SuccessBody true |}.
Proof.
  split; [reflexivity|]. split; [discriminate|].
  destruct (DELETE_with_id_outcome None (fun _ => Responded 204 Null)
              [("id", "42")%string] "42" quiet_world eq_refl)
    as (r & w' & E & _ & Hok & _); [discriminate|].
  exists r, w'. split; [exact E|].
  apply Hok. now exists 204, Null.
Defined.

End StrategiesHandlers.

(* ===================================================================== *)
(** * Further properties of the backtest route                             *)
(* ===================================================================== *)

(** The world after [n] more draws. *)
Definition advance (n : nat) (w : World) : World :=
  {| draws := draws w; cursor := n + cursor w; now := now w;
     sent := sent w; console := console w |}.

Lemma advance_advance a b w : advance a (advance b w) = advance (a + b) w.
Proof. unfold advance. simpl. f_equal. lia. Qed.

(** [Array.from] with a callback that returns after [d] draws returns
    after [n * d] draws; its entries satisfy what the callback
    establishes for each index. *)
Lemma array_from_run {A} (P : Z -> A -> Prop) (d : nat) (f : Z -> Eff A) :
  (forall i w, exists a, f i w = (Return a, advance d w) /\ P i a) ->
  forall n start w,
  exists l, array_from n start f w = (Return l, advance (n * d) w)
            /\ Forall2 P (map (fun k => start + Z.of_nat k) (seq 0 n)) l.
Proof.
  intros Hf. induction n as [|n IH]; intros start w.
  - exists []. split; [|constructor]. simpl. unfold ret, advance. simpl.
    now destruct w.
  - destruct (Hf start w) as (a & Ea & Pa).
    destruct (IH (start + 1) (advance d w)) as (l & El & Pl).
    exists (a :: l). split.
    + simpl array_from. unfold bind at 1. rewrite Ea.
      unfold bind at 1. rewrite El. unfold ret.
      rewrite advance_advance. do 2 f_equal. lia.
    + simpl seq. simpl map. constructor.
      * now rewrite Z.add_0_r.
      * rewrite <- seq_shift, map_map.
        erewrite map_ext; [exact Pl|].
        intros k. simpl. lia.
Qed.

Lemma Forall2_map_eq {I A B} (g : A -> B) (h : I -> B) idx l :
  Forall2 (fun i a => g a = h i) idx l -> map g l = map h idx.
Proof. induction 1; simpl; congruence. Qed.

(** A computation that, in a world whose clock reads [t], returns after
    exactly [d] draws a value satisfying [Q], and changes nothing else. *)
Definition runs {A} (t : string) (d : nat) (Q : A -> Prop) (m : Eff A) : Prop :=
  forall w, now w = t -> exists a, m w = (Return a, advance d w) /\ Q a.

Lemma advance_0 w : advance 0 w = w.
Proof. now destruct w. Qed.

Lemma runs_ret {A} t (Q : A -> Prop) a : Q a -> runs t 0 Q (ret a).
Proof. intros H w _. exists a. split; [|exact H]. now rewrite advance_0. Qed.

Lemma runs_bind {A B} t d1 d2 (P : A -> Prop) (Q : B -> Prop) (m : Eff A) (k : A -> Eff B) :
  runs t d1 P m -> (forall a, P a -> runs t d2 Q (k a)) -> runs t (d1 + d2) Q (bind m k).
Proof.
  intros Hm Hk w Hw. destruct (Hm w Hw) as (a & Ea & Pa).
  destruct (Hk a Pa (advance d1 w) Hw) as (b & Eb & Qb).
  exists b. split; [|exact Qb]. unfold bind. rewrite Ea, Eb.
  rewrite advance_advance. do 2 f_equal. lia.
Qed.

Lemma runs_random_bind {A} t d (Q : A -> Prop) (k : number -> Eff A) :
  (forall r, runs t d Q (k r)) -> runs t (S d) Q (bind Math_random k).
Proof.
  intros Hk w Hw.
  destruct (Hk (sample (draws w (cursor w))) (advance 1 w) Hw) as (b & Eb & Qb).
  exists b. split; [|exact Qb]. unfold bind, Math_random.
  change {| draws := draws w; cursor := S (cursor w); now := now w;
            sent := sent w; console := console w |} with (advance 1 w).
  rewrite Eb, advance_advance. do 2 f_equal. lia.
Qed.

Lemma runs_date_bind {A} t d (Q : A -> Prop) (k : string -> Eff A) :
  runs t d Q (k t) -> runs t d Q (bind Date_now_ISO k).
Proof.
  intros Hk w Hw. destruct (Hk w Hw) as (b & Eb & Qb).
  exists b. split; [|exact Qb]. unfold bind, Date_now_ISO. now rewrite Hw.
Qed.

Lemma runs_weaken {A} t d (P Q : A -> Prop) (m : Eff A) :
  runs t d P m -> (forall a, P a -> Q a) -> runs t d Q m.
Proof.
  intros Hm HPQ w Hw. destruct (Hm w Hw) as (a & E & Pa). exists a. auto.
Qed.

Lemma runs_array_from {A} t (P : Z -> A -> Prop) (d : nat) (f : Z -> Eff A) :
  (forall i, runs t d (P i) (f i)) ->
  forall n start,
    runs t (n * d) (Forall2 P (map (fun k => start + Z.of_nat k) (seq 0 n)))
      (array_from n start f).
Proof.
  intros Hf. induction n as [|n IH]; intros start.
  - apply runs_ret. constructor.
  - simpl array_from. replace (S n * d)%nat with (d + (n * d + 0))%nat by lia.
    eapply runs_bind; [apply Hf|]. intros a Pa.
    eapply runs_bind; [apply IH|]. intros l Pl.
    apply runs_ret. simpl seq. simpl map. constructor.
    + now rewrite Z.add_0_r.
    + rewrite <- seq_shift, map_map.
      erewrite map_ext; [exact Pl|].
      intros k. simpl. lia.
Qed.

Section BacktestHandlers.
Import JS Http Runtime BacktestRoute.

(** The fixed part of the mock trade of index [i]. *)
Definition scheduled (i : Z) : number * string * string :=
  (of_Z (i + 1),
   ("2024-01-" ++ two_digits (i + 1) ++ " 09:" ++ two_digits (30 + i) ++ ":00")%string,
   ("2024-01-" ++ two_digits (i + 1) ++ " 10:" ++ two_digits (15 + i) ++ ":00")%string).

Definition well_formed_trade (i : Z) (t : Trade.t) : Prop :=
  fixed_part t = scheduled i
  /\ (Trade.side t = "long"%string \/ Trade.side t = "short"%string).

Lemma mock_trade_run i w :
  exists t, mock_trade i w = (Return t, advance 6 w) /\ well_formed_trade i t.
Proof.
  eexists. split; [reflexivity|]. split; [reflexivity|].
  simpl. destruct (gt _ _); [now left | now right].
Qed.

(** The point the callback of [map] builds. *)
Definition equity_point (point : Data.Point) : EquityPoint :=
  {| day := Data.day point; value := Data.value point |}.

(** The callback of [data.equity_curve.map] goes through when no element
    is [null], and throws otherwise; it leaves the world alone. *)
Lemma map_points_run curve w :
  (exists points, curve = map Some points
                  /\ map_points curve w = (Return (map equity_point points), w))
  \/ (In None curve /\ exists e, map_points curve w = (Throw e, w)).
Proof.
  induction curve as [|[point|] rest IH]; simpl.
  - left. now exists [].
  - destruct IH as [(points & -> & E)|(Hin & e & E)].
    + left. exists (point :: points). split; [reflexivity|].
      unfold bind. now rewrite E.
    + right. split; [now right|]. exists e. unfold bind. now rewrite E.
  - right. split; [now left|]. eexists. reflexivity.
Qed.

Lemma map_Some_inj {A} (l1 l2 : list A) : map Some l1 = map Some l2 -> l1 = l2.
Proof.
  revert l2. induction l1 as [|a l1 IH]; intros [|b l2] H; simpl in H;
    try discriminate H; [reflexivity|].
  injection H as -> H. f_equal. now apply IH.
Qed.

(** The inputs on which the run handler succeeds: a request body that is
    a JSON value other than [null], and an ok answer of the backend that
    is a value other than [null] whose [metrics] is neither missing nor
    [null] and whose [equity_curve] is an array without [null]
    elements. *)
Definition answered (env : option string) (backend : Backend Data.t)
  (request : Parsed Req.t) (req : Req.t) (data : Data.t)
  (m : Data.Metrics) (points : list Data.Point) : Prop :=
  request = Value req
  /\ (exists st, backend (run_request env req) = Responded st (Value data) /\ ok st = true)
  /\ Data.metrics data = Some m
  /\ Data.equity_curve data = Some (map Some points).

(** The two ways the run handler ends. *)
Lemma POST_backtest_cases env backend request w :
  (exists req data m points res,
      answered env backend request req data m points
      /\ POST env backend request w
         = (Return {| Http.status := 200; body := ResultBody res |},
            advance 60 {| draws := draws w; cursor := cursor w; now := now w;
                          sent := run_request env req :: sent w;
                          console := console w |})
      /\ Forall2 well_formed_trade (map (fun k => 0 + Z.of_nat k) (seq 0 10)) (trades res)
      /\ initialCapital res = or_number (Req.initialCapital req) 100000%float
      /\ startDate res = or_string (Req.startDate req) "2024-01-01"
      /\ endDate res = or_string (Req.endDate req) "2024-01-31"
      /\ maxDrawdownAmount (metrics res)
         = (Data.max_drawdown m * initialCapital res)%float
      /\ equityCurve res = map equity_point points
      /\ totalTrades (metrics res) = Data.total_trades m
      /\ winRate (metrics res) = Data.win_rate m)
  \/ ((forall req data m points, ~ answered env backend request req data m points)
      /\ exists w', POST env backend request w
                    = (Return {| Http.status := 500; body := ErrorBody "Failed to run backtest" |}, w')
                    /\ cursor w' = cursor w
                    /\ console w' = "Failed to run backtest:"%string :: console w
                    /\ sent w' = match request with
                                 | Value req => run_request env req :: sent w
                                 | _ => sent w
                                 end).
Proof.
  unfold POST.
  destruct request as [| |req]; run_handler.
  1-2: right; (split; [intros ? ? ? ? ([=] & _) |]); eexists; split; [reflexivity|];
       simpl; repeat split.
  fold (run_request env req).
  destruct (backend (run_request env req)) as [|st b] eqn:Hb; run_handler.
  { right. split.
    - intros ? ? ? ? ([= <-] & (? & E & _) & _). congruence.
    - eexists. split; [reflexivity|]. simpl. repeat split. }
  destruct (ok st) eqn:Hok; run_handler.
  2:{ right. split.
      - intros ? ? ? ? ([= <-] & (? & E & Hok') & _). congruence.
      - eexists. split; [reflexivity|]. simpl. repeat split. }
  destruct b as [| |data]; run_handler.
  1-2: right; (split; [intros ? ? ? ? ([= <-] & (? & E & _) & _); congruence |]);
       eexists; (split; [reflexivity|]); simpl; repeat split.
  destruct (Data.metrics data) as [m|] eqn:Hm; run_handler.
  2:{ right. split.
      - intros ? ? ? ? ([= <-] & (? & E & _) & Hm' & _).
        rewrite Hb in E. injection E as _ <-. congruence.
      - eexists. split; [reflexivity|]. simpl. repeat split. }
  destruct (Data.equity_curve data) as [curve|] eqn:Hc; run_handler.
  2:{ right. split.
      - intros ? ? ? ? ([= <-] & (? & E & _) & _ & Hc').
        rewrite Hb in E. injection E as _ <-. congruence.
      - eexists. split; [reflexivity|]. simpl. repeat split. }
  match goal with |- context [map_points curve ?w0] =>
    destruct (map_points_run curve w0) as [(points & -> & Ep)|(Hin & e & Ep)]; rewrite Ep
  end; run_handler.
  2:{ right. split.
      - intros ? ? ? points ([= <-] & (? & E & _) & _ & Hc').
        rewrite Hb in E. injection E as _ <-. rewrite Hc in Hc'. injection Hc' as ->.
        exact (map_Some_no_None points Hin).
      - eexists. split; [reflexivity|]. simpl. repeat split. }
  left.
  match goal with |- context [array_from 10 0 mock_trade ?w0] =>
    destruct (array_from_run well_formed_trade 6 mock_trade mock_trade_run 10 0 w0)
      as (ts & Ets & Hts); rewrite Ets
  end.
  exists req, data, m, points. eexists. split.
  { split; [reflexivity|]. split; [exists st; split; [exact Hb | exact Hok]|].
    split; [exact Hm | exact Hc]. }
  split; [reflexivity|]. cbn [trades initialCapital startDate endDate metrics
                              maxDrawdownAmount maxDrawdown equityCurve totalTrades winRate].
  split; [exact Hts|]. repeat (split; [reflexivity|]). reflexivity.
Qed.










(** X8.  A successful run hands back exactly ten trades: their ids are 1 to
    10, the k-th enters on 2024-01-k at 09:30 plus k-1 minutes and exits
    at 10:15 plus k-1 minutes, each side is [long] or [short], as the
    [trades] table requires, and the generator has been read exactly 60
    times. *)
Theorem POST_backtest_trades_are_scheduled :
  forall (env : option string) (backend : Backend Data.t)
         (request : Parsed Req.t) (w : World)
         (r : Response Body) (w' : World),
    POST env backend request w = (Return r, w') ->
    Http.status r = 200 ->
    exists res,
      body r = ResultBody res
      /\ map Trade.id (trades res) = [1; 2; 3; 4; 5; 6; 7; 8; 9; 10]%float
      /\ map Trade.entryTime (trades res)
         = ["2024-01-01 09:30:00"; "2024-01-02 09:31:00"; "2024-01-03 09:32:00";
            "2024-01-04 09:33:00"; "2024-01-05 09:34:00"; "2024-01-06 09:35:00";
            "2024-01-07 09:36:00"; "2024-01-08 09:37:00"; "2024-01-09 09:38:00";
            "2024-01-10 09:39:00"]%string
      /\ map Trade.exitTime (trades res)
         = ["2024-01-01 10:15:00"; "2024-01-02 10:16:00"; "2024-01-03 10:17:00";
            "2024-01-04 10:18:00"; "2024-01-05 10:19:00"; "2024-01-06 10:20:00";
            "2024-01-07 10:21:00"; "2024-01-08 10:22:00"; "2024-01-09 10:23:00";
            "2024-01-10 10:24:00"]%string
      /\ Forall (fun t => Schema.valid_side (Trade.side t) = true) (trades res)
      /\ cursor w' = (60 + cursor w)%nat.
Proof.
  intros env backend request w r w' E H200.
  destruct (POST_backtest_cases env backend request w)
    as [(req & data & m & curve & res & _ & E' & Hts & _)
       |(_ & w1 & E' & _)];
    rewrite E' in E; injection E as <- <-; [|discriminate H200].
  exists res. split; [reflexivity|].
  assert (Hfix : map fixed_part (trades res)
                 = map scheduled (map (fun k => 0 + Z.of_nat k) (seq 0 10))).
  { apply Forall2_map_eq. eapply Forall2_impl; [exact Hts|]. now intros i t [H _]. }
  assert (Hid : forall l : list Trade.t,
             map Trade.id l = map (fun x => fst (fst x)) (map fixed_part l)
             /\ map Trade.entryTime l = map (fun x => snd (fst x)) (map fixed_part l)
             /\ map Trade.exitTime l = map snd (map fixed_part l)).
  { intros l. rewrite !map_map. repeat split. }
  destruct (Hid (trades res)) as (-> & -> & ->). rewrite Hfix.
  split; [vm_compute; reflexivity|]. split; [vm_compute; reflexivity|].
  split; [vm_compute; reflexivity|].
  split; [|reflexivity].
  clear -Hts. induction Hts as [|i t idx l [_ Hside] _ IH]; constructor; [|exact IH].
  destruct Hside as [-> | ->]; reflexivity.
Qed.

Lemma sample_is_answered :
  exists req data m curve,
    answered None sample_backend sample_request req data m curve.
Proof.
  eexists _, _, _, [_; _]. split; [reflexivity|].
  split; [exists 200; split; reflexivity|]. split; reflexivity.
Qed.

Lemma POST_backtest_trades_are_scheduled_witness :
  exists r w' res,
    POST None sample_backend sample_request quiet_world = (Return r, w')
    /\ Http.status r = 200
    /\ body r = ResultBody res
    /\ map Trade.id (trades res) = [1; 2; 3; 4; 5; 6; 7; 8; 9; 10]%float
    /\ cursor w' = 60%nat.
Proof.
  destruct (POST_backtest_cases None sample_backend sample_request quiet_world)
    as [(req & data & m & curve & res0 & _ & E & _)|(Hno & _)].
  - destruct (POST_backtest_trades_are_scheduled None sample_backend sample_request
                quiet_world _ _ E eq_refl) as (res & Hb & Hid & _ & _ & _ & Hc).
    eexists _, _, res. split; [exact E|]. split; [reflexivity|].
    split; [exact Hb|]. split; [exact Hid | exact Hc].
  - exfalso. destruct sample_is_answered as (req & data & m & curve & H).
    exact (Hno _ _ _ _ H).
Defined.





(** A request can carry an infinite capital: the backend is sent [null]. *)
Example infinite_capital_is_sent_as_null :
  field "initial_capital"
    (stringified (backend_body {| Req.strategy := None;
                                  Req.initialCapital := Some infinity;
                                  Req.startDate := None;
                                  Req.endDate := None |}))
  = Some JNull.
Proof. reflexivity. Qed.

(** The request the status handler sends for an identifier. *)
Definition status_request (env : option string) (id : string) : Request :=
  {| url := BACKEND_URL env ++ "/api/backtest/" ++ id; method := "GET";
     payload := None |}.

(** The identifier the status handler works with: the non-empty value of
    the [id] parameter. *)
Definition requested_id (searchParams : list (string * string)) : option string :=
  match StrategiesRoute.searchParams_get "id" searchParams with
  | Some EmptyString | None => None
  | Some id => Some id
  end.

(** The ways the status handler ends. *)
Lemma GET_status_cases env backend searchParams w :
  match requested_id searchParams with
  | None =>
      GET env backend searchParams w
      = (Return {| Http.status := 400; body := StatusError "Backtest ID required" |}, w)
  | Some id =>
      let w1 := {| draws := draws w; cursor := cursor w; now := now w;
                   sent := status_request env id :: sent w; console := console w |} in
      let failed :=
        (Return {| Http.status := 500;
                   body := StatusError "Failed to get backtest status" |},
         {| draws := draws w; cursor := cursor w; now := now w;
            sent := status_request env id :: sent w;
            console := "Failed to get backtest status:"%string :: console w |}) in
      GET env backend searchParams w
      = match backend (status_request env id) with
        | NetworkError => failed
        | Responded st b =>
            if ok st then
              match b with
              | Value data =>
                  (Return {| Http.status := 200;
                             body := StatusInfo (Data.id data) (Data.status data)
                                       (if String.eqb (Data.status data) "completed"
                                        then 100 else 50)
                                       (if String.eqb (Data.status data) "completed"
                                        then "Backtest completed successfully"
                                        else "Backtest in progress") |}, w1)
              | _ => failed
              end
            else if st =? 404
            then (Return {| Http.status := 404; body := StatusError "Backtest not found" |},
                  w1)
            else failed
        end
  end.
Proof.
  unfold requested_id, GET.
  destruct (StrategiesRoute.searchParams_get "id" searchParams) as [[|c id]|];
    [reflexivity| |reflexivity].
  run_handler. fold (status_request env (String c id)).
  destruct (backend _) as [|st b]; run_handler; [reflexivity|].
  destruct (ok st); run_handler.
  - destruct b; reflexivity.
  - destruct (st =? 404); reflexivity.
Qed.

(** X10.  The status handler always returns, with one of the statuses 200, 400,
    404 and 500.  It answers 400 exactly when the [id] parameter is
    missing or empty, and then no request goes out; otherwise exactly one
    request goes out, a backend status 404 is passed on as 404 with
    [Backtest not found] and is not logged, and every other failure is a
    logged 500. *)
Theorem GET_backtest_status_codes :
  forall (env : option string) (backend : Backend Data.t)
         (searchParams : list (string * string)) (w : World),
  exists (r : Response StatusBody) (w' : World),
    GET env backend searchParams w = (Return r, w')
    /\ In (Http.status r) [200; 400; 404; 500]
    /\ (Http.status r = 400 <-> requested_id searchParams = None)
    /\ (requested_id searchParams = None ->
        body r = StatusError "Backtest ID required" /\ w' = w)
    /\ (forall id, requested_id searchParams = Some id ->
        sent w' = status_request env id :: sent w
        /\ (Http.status r = 404
            <-> exists b, backend (status_request env id) = Responded 404 b)
        /\ (Http.status r = 404 ->
            body r = StatusError "Backtest not found" /\ console w' = console w)
        /\ (Http.status r = 500 ->
            body r = StatusError "Failed to get backtest status"
            /\ console w' = "Failed to get backtest status:"%string :: console w)).
Proof.
  intros env backend searchParams w.
  pose proof (GET_status_cases env backend searchParams w) as H.
  destruct (requested_id searchParams) as [id|].
  2:{ eexists _, _. split; [exact H|]. simpl.
      split; [tauto|]. split; [tauto|]. split; [now split|]. intros ? [=]. }
  cbv zeta in H.
  destruct (backend (status_request env id)) as [|st b] eqn:Hb.
  { eexists _, _. split; [exact H|]. simpl.
    split; [tauto|]. split; [split; discriminate|]. split; [discriminate|].
    intros ? [= <-]. rewrite ?Hb. split; [reflexivity|].
    split; [split; [discriminate | intros (? & [=])]|].
    split; [discriminate | now split]. }
  destruct (ok st) eqn:Hok.
  - assert (Hne : st <> 404).
    { intros ->. discriminate Hok. }
    destruct b as [| |data]; eexists _, _; (split; [exact H|]); simpl;
      (split; [tauto|]); (split; [split; discriminate|]); (split; [discriminate|]);
      intros ? [= <-]; rewrite ?Hb; (split; [reflexivity|]);
      (split; [split; [discriminate | intros (? & [= E _]); congruence]|]);
      (split; [discriminate|]); first [discriminate | now split].
  - destruct (Z.eqb_spec st 404) as [->|Hne].
    + eexists _, _. split; [exact H|]. simpl.
      split; [tauto|]. split; [split; discriminate|]. split; [discriminate|].
      intros ? [= <-]. rewrite ?Hb. split; [reflexivity|].
      split; [split; [intros _; now exists b | reflexivity]|].
      split; [now split | discriminate].
    + eexists _, _. split; [exact H|]. simpl.
      split; [tauto|]. split; [split; discriminate|]. split; [discriminate|].
      intros ? [= <-]. rewrite ?Hb. split; [reflexivity|].
      split; [split; [discriminate | intros (? & [= E _]); congruence]|].
      split; [discriminate | now split].
Qed.

(** X11.  What the status handler reports about a run: the backend's id and
    status; progress 100 and [Backtest completed successfully] exactly
    when the status is [completed]; progress 50 and [Backtest in
    progress] for every other status, so also for a run that has failed
    or was cancelled. *)
Theorem GET_backtest_status_progress :
  forall (env : option string) (backend : Backend Data.t)
         (searchParams : list (string * string)) (w : World)
         (r : Response StatusBody) (w' : World)
         (id status : string) (progress : Z) (message : string),
    GET env backend searchParams w = (Return r, w') ->
    body r = StatusInfo id status progress message ->
    Http.status r = 200
    /\ (exists sent_id st data,
           requested_id searchParams = Some sent_id
           /\ backend (status_request env sent_id) = Responded st (Value data)
           /\ id = Data.id data /\ status = Data.status data)
    /\ ((status = "completed"%string /\ progress = 100
         /\ message = "Backtest completed successfully"%string)
        \/ (status <> "completed"%string /\ progress = 50
            /\ message = "Backtest in progress"%string)).
Proof.
  intros env backend searchParams w r w' id status progress message E Hbody.
  pose proof (GET_status_cases env backend searchParams w) as H.
  destruct (requested_id searchParams) as [sid|].
  2:{ rewrite H in E. injection E as <- _. discriminate Hbody. }
  cbv zeta in H. rewrite H in E. clear H.
  destruct (backend (status_request env sid)) as [|st b] eqn:Hb.
  { injection E as <- _. discriminate Hbody. }
  destruct (ok st).
  - destruct b as [| |data]; injection E as <- _; try discriminate Hbody.
    simpl in Hbody. injection Hbody as <- <- <- <-.
    split; [reflexivity|]. split; [now exists sid, st, data|].
    destruct (String.eqb_spec (Data.status data) "completed") as [->|Hne].
    + left. repeat split.
    + right. repeat split. exact Hne.
  - destruct (st =? 404); injection E as <- _; discriminate Hbody.
Qed.

(** A backend that reports the run as failed. *)
Definition failed_run_backend : Backend Data.t :=
  fun _ => Responded 200 (Value
    {| Data.id := "7f3c"; Data.status := "failed";
       Data.strategy := "order_book_imbalance";
       Data.metrics := None; Data.equity_curve := None |}).

Lemma GET_backtest_status_progress_witness :
  GET None failed_run_backend [("id", "7f3c")%string] quiet_world
  = (Return {| Http.status := 200;
               body := StatusInfo "7f3c" "failed" 50 "Backtest in progress" |},
     {| draws := draws quiet_world; cursor := 0; now := now quiet_world;
        sent := [status_request None "7f3c"]; console := [] |})
  /\ Schema.valid_status "failed" = true
  /\ ("failed"%string <> "completed"%string /\ 50 = 50
      /\ "Backtest in progress"%string = "Backtest in progress"%string).
Proof.
  assert (E : GET None failed_run_backend [("id", "7f3c")%string] quiet_world
              = (Return {| Http.status := 200;
                           body := StatusInfo "7f3c" "failed" 50 "Backtest in progress" |},
                 {| draws := draws quiet_world; cursor := 0; now := now quiet_world;
                    sent := [status_request None "7f3c"]; console := [] |}))
    by reflexivity.
  split; [exact E|]. split; [reflexivity|].
  destruct (GET_backtest_status_progress None failed_run_backend
              [("id", "7f3c")%string] quiet_world _ _ _ _ _ _ E eq_refl)
    as (_ & _ & [(H & _)|H]); [discriminate H | exact H].
Defined.


End BacktestHandlers.

(* ===================================================================== *)
(** * Further properties of the monitor route                              *)
(* ===================================================================== *)

Section MonitorHandlers.
Import JS Http Runtime MonitorRoute.

Lemma returns_shape_of_series t f :
  runs t 20 (fun l => map Sample.time l = map of_Z (map Z.of_nat (seq 0 20))) (series f).
Proof.
  unfold series.
  eapply runs_weaken;
    [apply (runs_array_from t (fun i s => Sample.time s = of_Z i) 1)|].
  - intros i. apply runs_random_bind. intros r.
    apply runs_ret. reflexivity.
  - intros l H. apply (Forall2_map_eq Sample.time of_Z) in H. exact H.
Qed.

Lemma network_block_runs t : runs t 3 (fun _ => True) network_block.
Proof.
  unfold network_block. do 3 (apply runs_random_bind; intros ?).
  now apply runs_ret.
Qed.

Lemma processing_block_runs t :
  runs t 4 (fun p => uptime p = 99.9%float /\ uptimeHours p = 2.75%float)
    processing_block.
Proof.
  unfold processing_block. do 4 (apply runs_random_bind; intros ?).
  apply runs_ret. split; reflexivity.
Qed.

(** The fixed entries of the [components] object, and the two values each
    engine can take. *)
Definition components_shape (c : Components) : Prop :=
  dataIngestion c = "operational"%string
  /\ orderBookReconstruction c = "operational"%string
  /\ websocketServer c = "connected"%string
  /\ database c = "operational"%string
  /\ cache c = "operational"%string
  /\ messageQueue c = "operational"%string
  /\ In (backtestingEngine c) ["idle"; "running"]%string
  /\ In (optimizationEngine c) ["idle"; "running"]%string.

Lemma components_block_runs t : runs t 2 components_shape components_block.
Proof.
  unfold components_block. do 2 (apply runs_random_bind; intros ?).
  apply runs_ret. unfold components_shape.
  cbn [dataIngestion orderBookReconstruction websocketServer database cache
       messageQueue backtestingEngine optimizationEngine].
  repeat (split; [reflexivity|]).
  split; [destruct (gt _ _); simpl; tauto | destruct (gt _ _); simpl; tauto].
Qed.

Lemma alerts_block_runs t :
  runs t 0 (fun a => a = [ {| Alert.level := "info";
                              Alert.message := "System running optimally";
                              Alert.timestamp := t |} ]) alerts_block.
Proof.
  unfold alerts_block. apply runs_date_bind. now apply runs_ret.
Qed.

(** What every summary holds, whatever was drawn: eight cores, sixteen
    threads in all, the fixed uptime figures, the fixed component
    statuses and one of the two values for each engine, one alert stamped
    with the current time, and twenty samples per history series, at the
    times 0 to 19. *)
Definition shaped (current_time : string) (s : Summary) : Prop :=
  Cpu.cores (cpu (system s)) = 8%float
  /\ Threads.total (threads (system s)) = 16%float
  /\ (uptime (processing s) = 99.9%float /\ uptimeHours (processing s) = 2.75%float)
  /\ components_shape (components s)
  /\ alerts s = [ {| Alert.level := "info";
                     Alert.message := "System running optimally";
                     Alert.timestamp := current_time |} ]
  /\ map Sample.time (History.cpu (history s)) = map of_Z (map Z.of_nat (seq 0 20))
  /\ map Sample.time (History.memory (history s)) = map of_Z (map Z.of_nat (seq 0 20))
  /\ map Sample.time (History.threads (history s)) = map of_Z (map Z.of_nat (seq 0 20)).

(** What the summary built from the backend's answer takes from it. *)
Definition passes_on (data : Data.t) (s : Summary) : Prop :=
  timestamp s = Data.timestamp data
  /\ Cpu.usage (cpu (system s)) = Data.cpu_usage data
  /\ Memory.used (memory (system s)) = Data.memory_used data
  /\ Memory.total (memory (system s)) = Data.memory_total data
  /\ Disk.total (disk (system s)) = Data.disk_io data
  /\ Threads.active (threads (system s)) = Data.threads_active data.

Lemma live_summary_runs t data :
  runs t 70 (fun s => shaped t s /\ passes_on data s) (live_summary data).
Proof.
  unfold live_summary.
  apply runs_random_bind; intros r.
  apply (runs_bind t 3 66 _ _ _ _ (network_block_runs t)); intros net _.
  apply (runs_bind t 4 62 _ _ _ _ (processing_block_runs t)); intros proc Hproc.
  apply (runs_bind t 2 60 _ _ _ _ (components_block_runs t)); intros comp Hcomp.
  apply (runs_bind t 0 60 _ _ _ _ (alerts_block_runs t)); intros al Hal.
  apply (runs_bind t 20 40 _ _ _ _ (returns_shape_of_series t _)); intros hc Hhc.
  apply (runs_bind t 20 20 _ _ _ _ (returns_shape_of_series t _)); intros hm Hhm.
  apply (runs_bind t 20 0 _ _ _ _ (returns_shape_of_series t _)); intros ht Hht.
  apply runs_ret. split.
  - unfold shaped.
    cbn [cpu system threads processing components alerts history
         Cpu.cores Threads.total History.cpu History.memory History.threads].
    split; [reflexivity|]. split; [reflexivity|].
    split; [exact Hproc|]. split; [exact Hcomp|]. split; [exact Hal|].
    split; [exact Hhc|]. split; [exact Hhm | exact Hht].
  - unfold passes_on. repeat (split; [reflexivity|]). reflexivity.
Qed.

Lemma simulated_summary_runs t :
  runs t 75 (fun s => shaped t s /\ timestamp s = t
                      /\ Memory.total (memory (system s)) = 32%float)
    simulated_summary.
Proof.
  unfold simulated_summary.
  do 3 (apply runs_random_bind; intros ?).
  apply runs_date_bind.
  apply runs_random_bind; intros ?.
  apply (runs_bind t 3 68 _ _ _ _ (network_block_runs t)); intros net _.
  do 2 (apply runs_random_bind; intros ?).
  apply (runs_bind t 4 62 _ _ _ _ (processing_block_runs t)); intros proc Hproc.
  apply (runs_bind t 2 60 _ _ _ _ (components_block_runs t)); intros comp Hcomp.
  apply (runs_bind t 0 60 _ _ _ _ (alerts_block_runs t)); intros al Hal.
  apply (runs_bind t 20 40 _ _ _ _ (returns_shape_of_series t _)); intros hc Hhc.
  apply (runs_bind t 20 20 _ _ _ _ (returns_shape_of_series t _)); intros hm Hhm.
  apply (runs_bind t 20 0 _ _ _ _ (returns_shape_of_series t _)); intros ht Hht.
  apply runs_ret. split; [|split; reflexivity].
  unfold shaped.
  cbn [cpu system threads processing components alerts history
       Cpu.cores Threads.total History.cpu History.memory History.threads].
  split; [reflexivity|]. split; [reflexivity|].
  split; [exact Hproc|]. split; [exact Hcomp|]. split; [exact Hal|].
  split; [exact Hhc|]. split; [exact Hhm | exact Hht].
Qed.

(** The world in which the live summary is built: the request has gone
    out. *)
Definition world_after_fetch (env : option string) (w : World) : World :=
  {| draws := draws w; cursor := cursor w; now := now w;
     sent := monitor_request env :: sent w; console := console w |}.

(** The backend answered with an ok status and a value other than
    [null]. *)
Definition live (env : option string) (backend : Backend Data.t) (data : Data.t) : Prop :=
  exists st, backend (monitor_request env) = Responded st (Value data) /\ ok st = true.

(** The two ways the monitor handler ends. *)
Lemma GET_monitor_cases env backend w :
  (exists data s,
      live env backend data
      /\ GET env backend w
         = (Return {| status := 200; body := SummaryBody s |},
            advance 70 (world_after_fetch env w))
      /\ shaped (now w) s /\ passes_on data s)
  \/ ((forall data, ~ live env backend data)
      /\ exists s,
          GET env backend w
          = (Return {| status := 200; body := SummaryBody s |},
             advance 75 (world_at_fallback env w))
          /\ shaped (now w) s
          /\ timestamp s = now w
          /\ Memory.total (memory (system s)) = 32%float).
Proof.
  assert (Hfall : (forall data, ~ live env backend data) ->
                  exists s,
                    match simulated_summary (world_at_fallback env w) with
                    | (Return a, w') => (Return (json (SummaryBody a)), w')
                    | (Throw e, w') => (Throw e, w')
                    end
                    = (Return {| status := 200; body := SummaryBody s |},
                       advance 75 (world_at_fallback env w))
                    /\ shaped (now w) s
                    /\ timestamp s = now w
                    /\ Memory.total (memory (system s)) = 32%float).
  { intros _.
    destruct (simulated_summary_runs (now w) (world_at_fallback env w) eq_refl)
      as (s & E & Hs & Ht & Hm).
    exists s. split; [|split; [exact Hs | split; [exact Ht | exact Hm]]].
    rewrite E. reflexivity. }
  unfold GET. fold (monitor_request env). run_handler.
  destruct (backend (monitor_request env)) as [|st b] eqn:Hb; run_handler.
  { right. assert (Hno : forall data, ~ live env backend data).
    { intros data (st & E & _). congruence. }
    split; [exact Hno|]. exact (Hfall Hno). }
  destruct (ok st) eqn:Hok; run_handler.
  2:{ right. assert (Hno : forall data, ~ live env backend data).
      { intros data (st' & E & Hok'). congruence. }
      split; [exact Hno|]. exact (Hfall Hno). }
  destruct b as [| |data]; run_handler.
  1-2: right; assert (Hno : forall data, ~ live env backend data)
         by (intros data (st' & E & _); congruence);
       (split; [exact Hno|]); exact (Hfall Hno).
  left.
  destruct (live_summary_runs (now w) data (world_after_fetch env w) eq_refl)
    as (s & E & Hs & Hp).
  exists data, s. split; [exists st; split; [exact Hb | exact Hok]|].
  split; [|split; [exact Hs | exact Hp]].
  unfold world_after_fetch in E |- *. rewrite E. reflexivity.
Qed.

(** X12.  Every answer of the monitor handler has the same fixed frame: eight
    cores, sixteen threads in all, the fixed uptime figures and component
    statuses, each engine idle or running, exactly one alert, stamped
    with the time of the call, and histories of exactly twenty samples at
    the times 0 to 19. *)
Theorem GET_monitor_summary_shape :
  forall (env : option string) (backend : Backend Data.t) (w : World),
  exists (s : Summary) (w' : World),
    GET env backend w = (Return {| status := 200; body := SummaryBody s |}, w')
    /\ shaped (now w) s
    /\ length (History.cpu (history s)) = 20%nat
    /\ length (History.memory (history s)) = 20%nat
    /\ length (History.threads (history s)) = 20%nat.
Proof.
  intros env backend w.
  assert (Hlen : forall l : list Sample.t,
             map Sample.time l = map of_Z (map Z.of_nat (seq 0 20)) ->
             length l = 20%nat).
  { intros l H. apply (f_equal (@length _)) in H.
    rewrite !length_map, length_seq in H. exact H. }
  destruct (GET_monitor_cases env backend w)
    as [(data & s & _ & E & Hs & _)|(_ & s & E & Hs & _)];
    exists s; eexists; (split; [exact E|]); (split; [exact Hs|]);
    destruct Hs as (_ & _ & _ & _ & _ & Hc & Hm & Ht);
    (split; [exact (Hlen _ Hc)|]); (split; [exact (Hlen _ Hm) | exact (Hlen _ Ht)]).
Qed.


(** An ok answer that is a JSON string is taken as data: nothing is
    logged, and the generator is read 70 times. *)
Example GET_monitor_with_a_string_answer :
  forall view : Json -> Data.t,
    let w' := snd (GET None (reading view (fun _ => Responded 200 (Value (JStr "up"))))
                     quiet_world) in
    console w' = [] /\ cursor w' = 70%nat.
Proof.
  intros view.
  destruct (GET_monitor_cases None
              (reading view (fun _ => Responded 200 (Value (JStr "up")))) quiet_world)
    as [(data & s & _ & E & _)|(Hno & _)].
  - cbv zeta. rewrite E. split; reflexivity.
  - exfalso. eapply Hno. exists 200. split; reflexivity.
Qed.

(** The ways the subscribing handler ends, for a body seen through the
    property the handler reads. *)
Lemma POST_monitor_cases :
  forall (request : Parsed Command) (w : World),
  exists r : Response PostBody,
    POST request w = (Return r, w)
    /\ (r = {| status := 200;
               body := Subscribed true ["system"; "processing"; "alerts"]%string |}
        <-> exists c, request = Value c /\ action c = Some "subscribe"%string)
    /\ (r = {| status := 500; body := PostError "Failed to process monitoring request" |}
        <-> request = Malformed \/ request = Null)
    /\ (r = {| status := 200; body := Acknowledged true |}
        <-> exists c, request = Value c /\ action c <> Some "subscribe"%string).
Proof.
  intros request w. unfold POST.
  destruct request as [| |[[a|]]]; run_handler.
  - eexists. split; [reflexivity|].
    split; [split; [discriminate | intros (? & [=] & _)]|].
    split; [split; [now left | reflexivity]|].
    split; [discriminate | intros (? & [=] & _)].
  - eexists. split; [reflexivity|].
    split; [split; [discriminate | intros (? & [=] & _)]|].
    split; [split; [now right | reflexivity]|].
    split; [discriminate | intros (? & [=] & _)].
  - cbn [action]. destruct (String.eqb_spec a "subscribe") as [->|Hne]; run_handler.
    + eexists. split; [reflexivity|].
      split; [split; [intros _; now eexists | reflexivity]|].
      split; [split; [discriminate | intros [[=]|[=]]]|].
      split; [discriminate|]. intros (c & [= <-] & H). now contradiction H.
    + eexists. split; [reflexivity|].
      split; [split; [discriminate | intros (c & [= <-] & [= H]); congruence]|].
      split; [split; [discriminate | intros [[=]|[=]]]|].
      split; [intros _; eexists; split; [reflexivity | simpl; congruence] | reflexivity].
  - cbn [action]. eexists. split; [reflexivity|].
    split; [split; [discriminate | intros (c & [= <-] & [=])]|].
    split; [split; [discriminate | intros [[=]|[=]]]|].
    split; [intros _; eexists; split; [reflexivity | discriminate] | reflexivity].
Qed.

(** The handler sees the action [subscribe] exactly when the body has a
    property [action] that is the string [subscribe]. *)
Lemma action_of_json (j : Json) :
  action (command_of_json j) = Some "subscribe"%string
  <-> field "action" j = Some (JStr "subscribe").
Proof.
  unfold command_of_json. cbn [action].
  destruct (field "action" j) as [[|b|x|a|items|fields]|];
    split; intros H; try discriminate H; congruence.
Qed.

(** X14.  The subscribing handler never contacts the backend, never logs and
    never reads the generator or the clock.  For every request body: it
    answers [{ subscribed: true, channels: ['system', 'processing',
    'alerts'] }] exactly when the body has a property [action] that is the
    string [subscribe]; 500 with [Failed to process monitoring request]
    exactly when the body is no JSON or is [null]; and [{ success: true }]
    for every other body, an object or not. *)
Theorem POST_monitor_outcome :
  forall (request : Parsed Json) (w : World),
  exists r : Response PostBody,
    POST (read command_of_json request) w = (Return r, w)
    /\ (r = {| status := 200;
               body := Subscribed true ["system"; "processing"; "alerts"]%string |}
        <-> exists j, request = Value j /\ field "action" j = Some (JStr "subscribe"))
    /\ (r = {| status := 500; body := PostError "Failed to process monitoring request" |}
        <-> request = Malformed \/ request = Null \/ request = Value JNull)
    /\ (r = {| status := 200; body := Acknowledged true |}
        <-> exists j, request = Value j /\ j <> JNull
                      /\ field "action" j <> Some (JStr "subscribe")).
Proof.
  intros request w.
  destruct (POST_monitor_cases (read command_of_json request) w)
    as (r & E & Hsub & Hfail & Hack).
  exists r. split; [exact E|]. split; [|split].
  - rewrite Hsub. split.
    + intros (c & Hc & Ha). apply read_Value in Hc as (j & -> & _ & ->).
      exists j. split; [reflexivity | now apply action_of_json].
    + intros (j & -> & Ha). exists (command_of_json j).
      split; [|now apply action_of_json].
      apply read_Value. exists j. split; [reflexivity|].
      split; [|reflexivity]. intros ->. discriminate Ha.
  - rewrite Hfail. symmetry. apply read_not_Value.
  - rewrite Hack. split.
    + intros (c & Hc & Ha). apply read_Value in Hc as (j & -> & Hj & ->).
      exists j. split; [reflexivity|]. split; [exact Hj|].
      intros H. apply Ha. now apply action_of_json.
    + intros (j & -> & Hj & Ha). exists (command_of_json j).
      split; [apply read_Value; now exists j|].
      intros H. apply Ha. now apply action_of_json.
Qed.

End MonitorHandlers.

(* ===================================================================== *)
(** * Further properties of the backtest panel                             *)
(* ===================================================================== *)

Section BacktestPanelProgress.
Import BacktestPanel.

(** What the panel keeps true of its progress bar. *)
Definition steady (s : State) : Prop :=
  0 <= progress s <= 100
  /\ Z.even (progress s) = true
  /\ interval s = isRunning s.

Lemma steady_step s a : steady s -> steady (step s a).
Proof.
  intros (Hr & He & Hi). unfold steady.
  destruct a; simpl;
    try (destruct (strategy_options !! picked));
    try (destruct (slippage_options !! picked));
    try (split; [exact Hr | split; [exact He | exact Hi]]).
  - unfold handleRunBacktest. destruct (isRunning s) eqn:E.
    + split; [exact Hr | split; [exact He | congruence]].
    + simpl. split; [lia | split; reflexivity].
  - unfold tick. destruct (interval s) eqn:E; simpl.
    + destruct (Z.leb_spec 100 (progress s)) as [Hge|Hlt]; simpl.
      * split; [lia | split; reflexivity].
      * split; [|split; [|congruence]].
        -- assert (progress s <> 99).
           { intros H99. rewrite H99 in He. discriminate He. }
           lia.
        -- rewrite Z.even_add, He. reflexivity.
    + split; [exact Hr | split; [exact He | congruence]].
Qed.

(** X15.  The progress shown is always an even number between 0 and 100, and
    the timer is set exactly while the panel says it is running, whatever
    the user does and however often the timer fires. *)
Theorem backtest_progress_stays_in_range :
  forall actions : list Action,
    0 <= progress (after actions) <= 100
    /\ Z.even (progress (after actions)) = true
    /\ interval (after actions) = isRunning (after actions).
Proof.
  intros actions. unfold after.
  assert (H : forall s, steady s -> steady (fold_left step actions s)).
  { induction actions as [|a rest IH]; intros s Hs; simpl; [exact Hs|].
    apply IH. now apply steady_step. }
  apply H. unfold steady. simpl. split; [lia | split; reflexivity].
Qed.

Lemma ticks_while_running (k : nat) :
  forall s, interval s = true -> isRunning s = true ->
    0 <= progress s -> progress s + 2 * Z.of_nat k <= 100 ->
    let s' := fold_left step (repeat Tick k) s in
    progress s' = progress s + 2 * Z.of_nat k
    /\ isRunning s' = true /\ interval s' = true /\ config s' = config s.
Proof.
  induction k as [|k IH]; intros s Hi Hr H0 Hk; simpl.
  - split; [lia | auto].
  - assert (E : tick s = {| isRunning := isRunning s; progress := progress s + 2;
                            config := config s; interval := true |}).
    { unfold tick. rewrite Hi. simpl.
      destruct (Z.leb_spec 100 (progress s)); [lia | reflexivity]. }
    rewrite E.
    destruct (IH {| isRunning := isRunning s; progress := progress s + 2;
                    config := config s; interval := true |} eq_refl Hr)
      as (Hp & Hr' & Hi' & Hc); [simpl; lia | simpl; lia |].
    simpl in Hp, Hc. split; [lia | auto].
Qed.

(** X16.  A run of the panel takes 51 firings of the timer: after a click on
    the run button of an idle panel, [k] firings (for [k] up to 50) leave
    it running at [2 * k] percent, and the firing after the fiftieth ends
    the run at 100 percent.  The configuration is not touched. *)
Theorem backtest_run_takes_51_ticks :
  forall s : State,
    isRunning s = false ->
    (forall k : nat, (k <= 50)%nat ->
       let s' := fold_left step (repeat Tick k) (step s ClickRun) in
       isRunning s' = true /\ progress s' = 2 * Z.of_nat k /\ config s' = config s)
    /\ (let s' := fold_left step (repeat Tick 51) (step s ClickRun) in
        isRunning s' = false /\ interval s' = false /\ progress s' = 100
        /\ config s' = config s).
Proof.
  intros s Hidle.
  assert (Hstart : step s ClickRun
                   = {| isRunning := true; progress := 0; config := config s;
                        interval := true |}).
  { simpl. unfold handleRunBacktest. now rewrite Hidle. }
  rewrite Hstart.
  set (s0 := {| isRunning := true; progress := 0; config := config s;
                interval := true |}).
  assert (Hrun : forall k : nat, (k <= 50)%nat ->
            let s' := fold_left step (repeat Tick k) s0 in
            progress s' = 2 * Z.of_nat k
            /\ isRunning s' = true /\ interval s' = true /\ config s' = config s).
  { intros k Hk.
    destruct (ticks_while_running k s0 eq_refl eq_refl (Z.le_refl 0))
      as (Hp & Hr & Hi & Hc); [simpl; lia|].
    simpl in Hp, Hc. auto. }
  split.
  - intros k Hk. destruct (Hrun k Hk) as (Hp & Hr & _ & Hc). auto.
  - replace 51%nat with (50 + 1)%nat by reflexivity.
    rewrite repeat_app, fold_left_app.
    destruct (Hrun 50%nat (le_n _)) as (Hp & Hr & Hi & Hc).
    cbv zeta in Hp, Hr, Hi, Hc.
    generalize dependent (fold_left step (repeat Tick 50) s0).
    intros s50 Hp Hr Hi Hc.
    change (fold_left step (repeat Tick 1) s50) with (tick s50).
    unfold tick. rewrite Hi, Hp. simpl.
    split; [reflexivity | split; [reflexivity | split; [reflexivity | exact Hc]]].
Qed.

Lemma backtest_run_takes_51_ticks_witness :
  isRunning initial = false
  /\ progress (fold_left step (repeat Tick 25) (step initial ClickRun)) = 50
  /\ isRunning (fold_left step (repeat Tick 51) (step initial ClickRun)) = false.
Proof.
  destruct (backtest_run_takes_51_ticks initial eq_refl) as [H1 H2].
  split; [reflexivity|]. split.
  - exact (proj1 (proj2 (H1 25%nat ltac:(lia)))).
  - exact (proj1 H2).
Defined.

End BacktestPanelProgress.

(* ===================================================================== *)
(** * Further properties of the optimization panel                         *)
(* ===================================================================== *)

Section OptimizationPanelRun.
Import JS OptimizationPanel.

(** What the panel keeps true of its counters and timers. *)
Definition settled (s : State) : Prop :=
  0 <= progress s <= 100
  /\ 0 <= currentGeneration s <= 50
  /\ length (intervals s) = (if isRunning s then 1 else 0)%nat.

Lemma settled_dispatch s a : settled s -> settled (dispatch s a).
Proof.
  intros (Hp & Hg & Hi). unfold settled. destruct a; simpl.
  - destruct (method_options !! picked); simpl;
      (split; [exact Hp | split; [exact Hg | exact Hi]]).
  - unfold handleStartOptimization. destruct (isRunning s) eqn:E.
    + split; [exact Hp | split; [exact Hg | rewrite E; exact Hi]].
    + simpl. rewrite length_app, Hi. simpl.
      split; [lia | split; [lia | reflexivity]].
  - unfold tick. destruct (intervals s !! fired) as [captured|] eqn:E.
    + assert (Hlt : (fired < length (intervals s))%nat)
        by (apply lookup_lt_is_Some; eauto).
      destruct (isRunning s) eqn:R; [|lia].
      destruct (Z.leb_spec 100 (progress s)); simpl.
      * split; [lia|]. split; [destruct (String.eqb captured "genetic"); lia|].
        rewrite length_delete by eauto. lia.
      * split; [lia|]. split; [destruct (String.eqb captured "genetic"); lia|].
        exact Hi.
    + split; [exact Hp | split; [exact Hg | exact Hi]].
  - split; [exact Hp | split; [exact Hg | exact Hi]].
  - split; [exact Hp | split; [exact Hg | exact Hi]].
  - split; [exact Hp | split; [exact Hg | exact Hi]].
  - split; [exact Hp | split; [exact Hg | exact Hi]].
Qed.

(** X17.  Whatever the user does and whichever timers fire, the progress stays
    between 0 and 100 and the generation between 0 and 50, and exactly
    one interval is set while the panel is running, none when it is not:
    no interval outlives its run. *)
Theorem optimization_counters_stay_in_range :
  forall actions : list Action,
    0 <= progress (after actions) <= 100
    /\ 0 <= currentGeneration (after actions) <= 50
    /\ length (intervals (after actions))
       = (if isRunning (after actions) then 1 else 0)%nat.
Proof.
  intros actions. unfold after.
  assert (H : forall s, settled s -> settled (fold_left dispatch actions s)).
  { induction actions as [|a rest IH]; intros s Hs; simpl; [exact Hs|].
    apply IH. apply settled_dispatch. exact Hs. }
  apply H. unfold settled, initial. simpl.
  split; [lia | split; [lia | reflexivity]].
Qed.

(** An action that makes the first interval fire. *)
Definition fires (a : Action) : bool :=
  match a with
  | Tick O => true
  | _ => false
  end.

(** How often the first interval fires in a sequence of actions. *)
Definition firings (actions : list Action) : Z :=
  Z.of_nat (length (List.filter fires actions)).

Definition starts (a : Action) : bool :=
  match a with
  | ClickStart => true
  | _ => false
  end.

(** The state [n] firings into a run started with the method [method]. *)
Definition underway (method : string) (n : Z) (s : State) : Prop :=
  0 <= n
  /\ progress s = Z.min n 100
  /\ isRunning s = (n <=? 100)
  /\ currentGeneration s
     = (if String.eqb method "genetic" then Z.min n 50 else 0)
  /\ intervals s = (if n <=? 100 then [method] else []).

Lemma underway_dispatch method n s a :
  underway method n s -> starts a = false ->
  underway method (n + (if fires a then 1 else 0)) (dispatch s a).
Proof.
  intros (Hn & Hp & Hr & Hg & Hi) Ha. unfold underway.
  destruct a; simpl; try discriminate Ha; rewrite ?Z.add_0_r.
  - destruct (method_options !! picked); simpl;
      (split; [exact Hn | split; [exact Hp | split; [exact Hr | split; [exact Hg | exact Hi]]]]).
  - unfold tick. rewrite Hi.
    destruct (Z.leb_spec n 100) as [Hle|Hgt].
    + destruct fired as [|fired]; simpl.
      * rewrite Hp.
        destruct (Z.leb_spec 100 (Z.min n 100)) as [Hend|Hmid]; simpl.
        -- assert (n = 100) by lia. subst n. simpl.
           split; [lia|]. split; [reflexivity|]. split; [reflexivity|].
           split; [|reflexivity].
           rewrite Hg. destruct (String.eqb method "genetic"); reflexivity.
        -- assert (Hn1 : (n + 1 <=? 100) = true) by (apply Z.leb_le; lia).
           rewrite Hn1. split; [lia|]. split; [lia|].
           split; [exact Hr|].
           split; [|reflexivity].
           rewrite Hg. destruct (String.eqb method "genetic"); lia.
      * rewrite Z.add_0_r.
        assert (Hn0 : (n <=? 100) = true) by (apply Z.leb_le; lia).
        rewrite Hn0.
        split; [exact Hn | split; [exact Hp | split; [exact Hr | split; [exact Hg | exact Hi]]]].
    + rewrite lookup_nil.
      assert (Hn1 : forall k, 0 <= k -> (n + k <=? 100) = false)
        by (intros k Hk; apply Z.leb_gt; lia).
      rewrite Hn1 by (destruct fired; lia).
      split; [destruct fired; lia|].
      split; [rewrite Hp; destruct fired; lia|].
      split; [exact Hr|].
      split; [|exact Hi].
      rewrite Hg. destruct (String.eqb method "genetic"); destruct fired; lia.
  - split; [exact Hn | split; [exact Hp | split; [exact Hr | split; [exact Hg | exact Hi]]]].
  - split; [exact Hn | split; [exact Hp | split; [exact Hr | split; [exact Hg | exact Hi]]]].
  - split; [exact Hn | split; [exact Hp | split; [exact Hr | split; [exact Hg | exact Hi]]]].
  - split; [exact Hn | split; [exact Hp | split; [exact Hr | split; [exact Hg | exact Hi]]]].
Qed.

Lemma underway_fold method (actions : list Action) :
  forall n s,
    underway method n s -> forallb (fun a => negb (starts a)) actions = true ->
    underway method (n + firings actions) (fold_left dispatch actions s).
Proof.
  unfold firings.
  induction actions as [|a rest IH]; intros n s Hs Hno; simpl.
  - rewrite Z.add_0_r. exact Hs.
  - simpl in Hno. apply andb_true_iff in Hno as [Ha Hrest].
    apply negb_true_iff in Ha.
    pose proof (underway_dispatch method n s a Hs Ha) as H1.
    specialize (IH _ _ H1 Hrest).
    destruct (fires a); simpl length.
    + replace (n + Z.of_nat (S (length (List.filter fires rest))))
        with (n + 1 + Z.of_nat (length (List.filter fires rest))) by lia.
      exact IH.
    + rewrite Z.add_0_r in IH. exact IH.
Qed.

(** X18.  A run follows the method that was selected when it was started.  From
    an idle panel with no interval set, after a click on the start button
    and then any actions other than a further click on it, among them [n]
    firings of the interval: the progress is [n] up to 100, the run is
    over from firing 101 on, and the generation is [n] up to 50 when the
    method at the start was ['genetic'] and 0 otherwise, whatever method
    the user selects while the run goes on. *)
Theorem optimization_run_follows_the_method_at_start :
  forall (s : State) (actions : list Action),
    isRunning s = false ->
    intervals s = [] ->
    forallb (fun a => negb (starts a)) actions = true ->
    let n := firings actions in
    let s' := fold_left dispatch actions (dispatch s ClickStart) in
    progress s' = Z.min n 100
    /\ isRunning s' = (n <=? 100)
    /\ currentGeneration s'
       = (if String.eqb (optimizationType s) "genetic" then Z.min n 50 else 0).
Proof.
  intros s actions Hidle Hnone Hno n s'.
  assert (H0 : underway (optimizationType s) 0 (dispatch s ClickStart)).
  { simpl. unfold handleStartOptimization. rewrite Hidle, Hnone. unfold underway. simpl.
    split; [lia|]. split; [reflexivity|]. split; [reflexivity|].
    split; [|reflexivity].
    destruct (String.eqb (optimizationType s) "genetic"); reflexivity. }
  destruct (underway_fold _ actions _ _ H0 Hno) as (_ & Hp & Hr & Hg & _).
  rewrite Z.add_0_l in Hp, Hr, Hg.
  split; [exact Hp | split; [exact Hr | exact Hg]].
Qed.

(** A grid run during which the user selects the genetic method: the
    generation stays at 0. *)
Lemma optimization_run_follows_the_method_at_start_witness :
  isRunning initial = false
  /\ optimizationType
       (fold_left dispatch [Tick 0; SetOptimizationType 1; Tick 0; Tick 0]
          (dispatch initial ClickStart)) = "genetic"%string
  /\ currentGeneration
       (fold_left dispatch [Tick 0; SetOptimizationType 1; Tick 0; Tick 0]
          (dispatch initial ClickStart)) = 0
  /\ progress
       (fold_left dispatch [Tick 0; SetOptimizationType 1; Tick 0; Tick 0]
          (dispatch initial ClickStart)) = 3.
Proof.
  split; [reflexivity|]. split; [reflexivity|].
  destruct (optimization_run_follows_the_method_at_start initial
              [Tick 0; SetOptimizationType 1; Tick 0; Tick 0]
              eq_refl eq_refl eq_refl) as (Hp & _ & Hg).
  split; [exact Hg | exact Hp].
Defined.

(** An action that edits the search space: a [Min], [Max] or [Step]
    input. *)
Definition edits_search_space (a : Action) : bool :=
  match a with
  | ChangeMin _ _ | ChangeMax _ _ | ChangeStep _ _ => true
  | _ => false
  end.

Lemma reduce_alter (g : OptimizationParameter -> OptimizationParameter) :
  (forall p, steps (g p) = steps p) ->
  forall (ps : list OptimizationParameter) (index : nat) (total : number),
    fold_left (fun total param => (total * steps param)%float) (alter g index ps) total
    = fold_left (fun total param => (total * steps param)%float) ps total.
Proof.
  intros Hg. induction ps as [|p ps IH]; intros index total; [reflexivity|].
  destruct index as [|index]; simpl.
  - rewrite Hg. reflexivity.
  - apply IH.
Qed.

(** X19.  The number of combinations shown changes only when a [Min], [Max] or
    [Step] input is edited: not when a slider moves, a method is
    selected, a run is started or an interval fires. *)
Theorem combinations_change_only_with_the_search_space :
  forall (s : State) (a : Action),
    edits_search_space a = false ->
    calculateTotalCombinations (parameters (dispatch s a))
    = calculateTotalCombinations (parameters s).
Proof.
  intros s a Ha. destruct a; simpl; try discriminate Ha.
  - destruct (method_options !! picked); reflexivity.
  - unfold handleStartOptimization. destruct (isRunning s); reflexivity.
  - unfold tick. destruct (intervals s !! fired); [|reflexivity].
    destruct (100 <=? progress s); reflexivity.
  - unfold calculateTotalCombinations. apply reduce_alter. intros p. reflexivity.
Qed.

Lemma combinations_change_only_with_the_search_space_witness :
  edits_search_space (ChangeCurrent 1 1.5%float) = false
  /\ calculateTotalCombinations
       (parameters (dispatch initial (ChangeCurrent 1 1.5%float)))
     = calculateTotalCombinations (parameters initial).
Proof.
  split; [reflexivity|].
  exact (combinations_change_only_with_the_search_space initial
           (ChangeCurrent 1 1.5%float) eq_refl).
Defined.

End OptimizationPanelRun.

(* ===================================================================== *)
(** * Further properties of the strategy library                           *)
(* ===================================================================== *)

Section StrategyLibrarySearch.
Import JS StrategyLibrary.

Lemma lower_ascii_idempotent c : lower_ascii (lower_ascii c) = lower_ascii c.
Proof. destruct c as [[] [] [] [] [] [] [] []]; vm_compute; reflexivity. Qed.

Lemma toLowerCase_idempotent s : toLowerCase (toLowerCase s) = toLowerCase s.
Proof.
  induction s as [|c s IH]; simpl; [reflexivity|].
  now rewrite lower_ascii_idempotent, IH.
Qed.

Lemma append_assoc_string (a b c : string) :
  ((a ++ b) ++ c)%string = (a ++ (b ++ c))%string.
Proof.
  induction a as [|x a IH]; [reflexivity|].
  rewrite !append_String, IH. reflexivity.
Qed.

Lemma occurs_in_trans (a b c : string) :
  occurs_in a b -> occurs_in b c -> occurs_in a c.
Proof.
  intros (p & q & ->) (p' & q' & ->).
  exists (p' ++ p)%string, (q ++ q')%string.
  rewrite !append_assoc_string. reflexivity.
Qed.

Lemma filter_sublist_of_filter {A} (P Q : A -> bool) :
  (forall x, P x = true -> Q x = true) ->
  forall l, sublist (List.filter P l) (List.filter Q l).
Proof.
  intros HPQ. induction l as [|x l IH]; simpl; [constructor|].
  destruct (P x) eqn:EP.
  - rewrite (HPQ x EP). now constructor.
  - destruct (Q x); [now constructor | exact IH].
Qed.

Lemma ascii_only_app (s t : string) :
  ascii_only (s ++ t) = ascii_only s && ascii_only t.
Proof.
  induction s as [|c s IH]; [reflexivity|].
  rewrite append_String. simpl. rewrite IH. apply andb_assoc.
Qed.

(** X20.  For a search term of ASCII characters, typing more never adds a
    card: the strategies kept for the term with ASCII text put before or
    after it are among those kept for the term itself, in the same order,
    whatever the strategies are called and whatever the built-in
    [toLowerCase] does outside ASCII.  (Outside ASCII the built-in lowers
    a letter with a look at its neighbours, and a longer term can match
    where a shorter one does not.) *)
Theorem longer_search_term_never_adds_strategies :
  forall (lower : string -> string),
    (forall s, ascii_only s = true -> lower s = toLowerCase s) ->
    forall (before term after_ selectedType : string) (all : list Strategy),
      ascii_only (before ++ term ++ after_) = true ->
      sublist (filter_strategies_under lower (before ++ term ++ after_) selectedType all)
              (filter_strategies_under lower term selectedType all).
Proof.
  intros lower Hlower before term after_ selectedType all Hascii.
  unfold filter_strategies_under.
  apply filter_sublist_of_filter. intros strategy.
  rewrite !matches_iff. unfold contains_ignoring_case.
  assert (Hterm : ascii_only term = true).
  { rewrite !ascii_only_app, !andb_true_iff in Hascii. tauto. }
  assert (Hin : occurs_in (lower term) (lower (before ++ term ++ after_)%string)).
  { rewrite (Hlower _ Hterm), (Hlower _ Hascii).
    exists (toLowerCase before), (toLowerCase after_).
    now rewrite !toLowerCase_app. }
  intros [[H|H] Hty]; (split; [|exact Hty]).
  - left. exact (occurs_in_trans _ _ _ Hin H).
  - right. exact (occurs_in_trans _ _ _ Hin H).
Qed.

Lemma longer_search_term_never_adds_strategies_witness :
  (forall s, ascii_only s = true -> toLowerCase s = toLowerCase s)
  /\ ascii_only ("" ++ "b" ++ "id")%string = true
  /\ sublist (filter_strategies_under toLowerCase "bid" "all" strategies)
             (filter_strategies_under toLowerCase "b" "all" strategies).
Proof.
  split; [reflexivity|]. split; [reflexivity|].
  exact (longer_search_term_never_adds_strategies toLowerCase (fun s _ => eq_refl)
           "" "b" "id" "all" strategies eq_refl).
Defined.

(** X21.  The letter case of the search term does not matter: the term written
    in lower case keeps the same strategies. *)
Theorem search_term_case_is_ignored :
  forall (searchTerm selectedType : string) (all : list Strategy),
    filter_strategies (toLowerCase searchTerm) selectedType all
    = filter_strategies searchTerm selectedType all.
Proof.
  intros searchTerm selectedType all. unfold filter_strategies, filter_strategies_under.
  apply filter_ext. intros strategy. unfold matches_under.
  rewrite toLowerCase_idempotent. reflexivity.
Qed.

(** A string without the character [c]. *)
Fixpoint free_of (c : ascii) (s : string) : bool :=
  match s with
  | EmptyString => true
  | String a rest => negb (Ascii.eqb a c) && free_of c rest
  end.

Lemma replace_first_free c d s : free_of c s = true -> replace_first c d s = s.
Proof.
  induction s as [|a s IH]; simpl; [reflexivity|].
  destruct (Ascii.eqb a c); simpl; [discriminate|].
  intros H. now rewrite IH.
Qed.

Lemma replace_first_split c d before rest :
  free_of c before = true ->
  replace_first c d (before ++ String c rest) = (before ++ String d rest)%string.
Proof.
  induction before as [|a before IH]; intros H.
  - simpl. now rewrite Ascii.eqb_refl.
  - rewrite !append_String. simpl in *.
    destruct (Ascii.eqb a c); simpl in H; [discriminate|].
    now rewrite IH.
Qed.

(** X22.  The card shows the type with its first underscore turned into a
    space, and only the first: a type without underscore is shown as it
    is, and what follows the first underscore is shown unchanged, further
    underscores included. *)
Theorem type_label_replaces_the_first_underscore_only :
  forall strategy : Strategy,
    (free_of "_" (type strategy) = true -> type_label strategy = type strategy)
    /\ (forall before rest : string,
          free_of "_" before = true ->
          type strategy = (before ++ String "_" rest)%string ->
          type_label strategy = (before ++ String " " rest)%string).
Proof.
  intros strategy. unfold type_label. split.
  - apply replace_first_free.
  - intros before rest Hfree ->. now apply replace_first_split.
Qed.

End StrategyLibrarySearch.
